(** * fritzctl: the login handshake of [fritz/fritzclient.go]

    A shallow embedding of the challenge-response login of the FRITZ!Box
    client ([Login], [obtainChallenge], [solveChallenge], [sendResponse],
    [calculatePBKDF2Response], [calculateMD5Response], [tlsConfigFrom],
    [buildCertPool]) together with the library functions it calls
    ([strings.Split], [strings.HasPrefix], [strconv.Atoi],
    [hex.DecodeString], [hex.EncodeToString], [md5], [sha256], [hmac],
    [pbkdf2.Key]), and of the thermostat readings of [fritz/thermostat.go]
    ([State], the [Fmt...Temperature] methods, [fmtTemperatureHkr],
    [cappedRawTemperature]).

    Go strings are byte strings: they are modelled by [string] (a list of
    8-bit [ascii]); a [[]byte] is a [list Z] of values in [0, 256); the
    machine integers ([uint32], [uint64], [int], [time.Duration]) are [Z]
    with the wrap-around written out.  [int] is taken to be 64 bits wide.
    A [float64] is a primitive [float], the binary64 of IEEE 754. *)

From Stdlib Require Import ZArith List String Ascii Bool Lia DecimalString.
From Stdlib Require Import Floats.
Import ListNotations.

Local Open Scope Z_scope.

(* ================================================================= *)
(** ** Bytes and fixed-width unsigned words *)

Module Bytes.

Definition bytes := list Z.

Definition is_byte (b : Z) : Prop := 0 <= b < 256.

(** [byte(x)]: truncation of an unsigned word to its low 8 bits. *)
Definition byte (x : Z) : Z := Z.land x 255.

Definition byte_of_ascii (c : ascii) : Z := Z.of_N (N_of_ascii c).

(** [[]byte(s)] *)
Definition of_string (s : string) : bytes :=
  map byte_of_ascii (list_ascii_of_string s).

(** [uint32] arithmetic. *)
Definition u32 (x : Z) : Z := x mod 2 ^ 32.
Definition add32 (x y : Z) : Z := u32 (x + y).
Definition not32 (x : Z) : Z := Z.lxor x 0xffffffff.

(** [bits.RotateLeft32(x, k)]: [s := uint(k) & 31; x<<s | x>>(32-s)]. *)
Definition RotateLeft32 (x k : Z) : Z :=
  let s := Z.land k 31 in
  Z.lor (u32 (Z.shiftl x s)) (Z.shiftr x (32 - s)).

(** Big- and little-endian (de)serialisation of words. *)
Definition be32 (x : Z) : bytes :=
  [byte (Z.shiftr x 24); byte (Z.shiftr x 16); byte (Z.shiftr x 8); byte x].

Definition le32 (x : Z) : bytes :=
  [byte x; byte (Z.shiftr x 8); byte (Z.shiftr x 16); byte (Z.shiftr x 24)].

Definition be64 (x : Z) : bytes := be32 (Z.shiftr x 32) ++ be32 x.
Definition le64 (x : Z) : bytes := le32 x ++ le32 (Z.shiftr x 32).

Definition of_be32 (b : bytes) : Z :=
  Z.lor (Z.lor (Z.lor (Z.shiftl (nth 0 b 0) 24) (Z.shiftl (nth 1 b 0) 16))
               (Z.shiftl (nth 2 b 0) 8)) (nth 3 b 0).

Definition of_le32 (b : bytes) : Z :=
  Z.lor (Z.lor (Z.lor (nth 0 b 0) (Z.shiftl (nth 1 b 0) 8))
               (Z.shiftl (nth 2 b 0) 16)) (Z.shiftl (nth 3 b 0) 24).

(** The words of a block, [sz] bytes each. *)
Fixpoint words (dec : bytes -> Z) (n : nat) (p : bytes) : list Z :=
  match n with
  | O => []
  | S n' => dec (firstn 4 p) :: words dec n' (skipn 4 p)
  end.

(** [for len(p) >= chunk { ...; p = p[chunk:] }], the fuel is [len(p)]. *)
Fixpoint chunks (fuel : nat) (chunk : nat) (p : bytes) : list bytes :=
  match fuel with
  | O => []
  | S fuel' =>
      if (chunk <=? List.length p)%nat
      then firstn chunk p :: chunks fuel' chunk (skipn chunk p)
      else []
  end.

(** The Merkle-Damgard padding shared by MD5 and SHA-256: a [0x80] byte,
    zeros up to 56 bytes modulo 64, and the bit length as a [uint64]
    written by [enc64]. *)
Definition padding (enc64 : Z -> bytes) (len : Z) : bytes :=
  let t := if len mod 64 <? 56 then 56 - len mod 64 else 64 + 56 - len mod 64 in
  0x80 :: repeat 0 (Z.to_nat (t - 1)) ++ enc64 (Z.shiftl len 3 mod 2 ^ 64).

Definition xor_bytes (a b : bytes) : bytes :=
  map (fun p => Z.lxor (fst p) (snd p)) (combine a b).

End Bytes.
Import Bytes.

(* ================================================================= *)
(** ** Go errors and fallible results *)

(** The two causes of a [strconv.NumError]. *)
Inductive NumErr := ErrSyntax | ErrRange.

(** The [error] values the login code can see.  [Errorf] is a [fmt.Errorf]
    without a wrapped cause; [Wrap msg cause] is [fmt.Errorf("msg: %w", cause)];
    [External] is an error of a collaborator (net/http, io, encoding/xml,
    io/ioutil).

    Modelled from the spec: the packages [internal/errors] and [httpread]
    of the repository are not among the sources.  [errors.Wrapf(cause, msg)]
    is taken to be [Wrap msg cause], an error that carries the message and
    its cause; the errors of [httpread.XML] (network failure, undecodable
    XML) are [External] errors. *)

Inductive error : Type :=
| NumError (fn num : string) (e : NumErr)
| InvalidByteError (c : ascii)
| ErrLength
| External (msg : string)
| Errorf (msg : string)
| Wrap (msg : string) (cause : error).

Inductive result (A : Type) : Type :=
| Ok (a : A)
| Err (e : error).
Arguments Ok {A} a.
Arguments Err {A} e.

Definition is_ok {A} (r : result A) : bool :=
  match r with Ok _ => true | Err _ => false end.

Definition bind {A B} (r : result A) (k : A -> result B) : result B :=
  match r with Ok a => k a | Err e => Err e end.

(** [v, err := f(); if err != nil { return fmt.Errorf("msg: %w", err) }] *)
Definition wrap_err {A} (msg : string) (r : result A) : result A :=
  match r with Ok a => Ok a | Err e => Err (Wrap msg e) end.

Declare Scope result_scope.
Delimit Scope result_scope with result.
Notation "x <- r ;; k" := (bind r (fun x => k))
  (at level 61, r at next level, right associativity) : result_scope.

(* ================================================================= *)
(** ** [crypto/sha256] (FIPS 180-4) *)

Module sha256.

Definition Size : nat := 32.
Definition BlockSize : nat := 64.

(** The integer cube root, by bisection on the low [k] bits. *)
Fixpoint cbrt_bits (k : nat) (n r : Z) : Z :=
  match k with
  | O => r
  | S k' =>
      let r' := r + 2 ^ Z.of_nat k' in
      cbrt_bits k' n (if r' * r' * r' <=? n then r' else r)
  end.

Definition is_prime (p : nat) : bool :=
  forallb (fun d => negb (Nat.eqb (p mod d) 0)) (seq 2 (p - 2)).

(** The table [_K]: the first 32 bits of the fractional parts of the cube
    roots of the first 64 primes. *)
Definition _K : list Z :=
  Eval vm_compute in
    map (fun p => cbrt_bits 48 (Z.of_nat p * 2 ^ 96) 0 mod 2 ^ 32)
        (filter is_prime (seq 2 310)).

(** The chaining value [dig.h]. *)
Record digest := mkDigest
  { h0 : Z; h1 : Z; h2 : Z; h3 : Z; h4 : Z; h5 : Z; h6 : Z; h7 : Z }.

Definition init : digest :=
  mkDigest 0x6a09e667 0xbb67ae85 0x3c6ef372 0xa54ff53a
           0x510e527f 0x9b05688c 0x1f83d9ab 0x5be0cd19.

(** The message schedule; [w] holds the words computed so far, the most
    recent first, so that [w[i-k]] is [nth (k-1) w]. *)
Fixpoint schedule (n : nat) (w : list Z) : list Z :=
  match n with
  | O => w
  | S n' =>
      let v1 := nth 1 w 0 in
      let t1 := Z.lxor (Z.lxor (RotateLeft32 v1 (-17)) (RotateLeft32 v1 (-19)))
                       (Z.shiftr v1 10) in
      let v2 := nth 14 w 0 in
      let t2 := Z.lxor (Z.lxor (RotateLeft32 v2 (-7)) (RotateLeft32 v2 (-18)))
                       (Z.shiftr v2 3) in
      schedule n' (add32 (add32 (add32 t1 (nth 6 w 0)) t2) (nth 15 w 0) :: w)
  end.

Definition round (s : digest) (kw : Z * Z) : digest :=
  let '(mkDigest a b c d e f g h) := s in
  let t1 := add32 (add32 (add32 (add32 h
              (Z.lxor (Z.lxor (RotateLeft32 e (-6)) (RotateLeft32 e (-11)))
                      (RotateLeft32 e (-25))))
              (Z.lxor (Z.land e f) (Z.land (not32 e) g)))
              (fst kw)) (snd kw) in
  let t2 := add32
              (Z.lxor (Z.lxor (RotateLeft32 a (-2)) (RotateLeft32 a (-13)))
                      (RotateLeft32 a (-22)))
              (Z.lxor (Z.lxor (Z.land a b) (Z.land a c)) (Z.land b c)) in
  mkDigest (add32 t1 t2) a b c (add32 d t1) e f g.

(** One iteration of the loop of [blockGeneric]. *)
Definition block (s : digest) (p : bytes) : digest :=
  let w := rev (schedule 48 (rev (words of_be32 16 p))) in
  let r := fold_left round (combine _K w) s in
  mkDigest (add32 (h0 s) (h0 r)) (add32 (h1 s) (h1 r))
           (add32 (h2 s) (h2 r)) (add32 (h3 s) (h3 r))
           (add32 (h4 s) (h4 r)) (add32 (h5 s) (h5 r))
           (add32 (h6 s) (h6 r)) (add32 (h7 s) (h7 r)).

Definition output (s : digest) : bytes :=
  be32 (h0 s) ++ be32 (h1 s) ++ be32 (h2 s) ++ be32 (h3 s) ++
  be32 (h4 s) ++ be32 (h5 s) ++ be32 (h6 s) ++ be32 (h7 s).

(** [h := sha256.New(); h.Write(data); h.Sum(nil)] *)
Definition Sum256 (data : bytes) : bytes :=
  let p := data ++ padding be64 (Z.of_nat (List.length data)) in
  output (fold_left block (chunks (List.length p) BlockSize p) init).

End sha256.

(* ================================================================= *)
(** ** [crypto/md5] (RFC 1321) *)

Module md5.

Definition Size : nat := 16.
Definition BlockSize : nat := 64.

Definition T : list Z :=
  [0xd76aa478; 0xe8c7b756; 0x242070db; 0xc1bdceee; 0xf57c0faf; 0x4787c62a;
   0xa8304613; 0xfd469501; 0x698098d8; 0x8b44f7af; 0xffff5bb1; 0x895cd7be;
   0x6b901122; 0xfd987193; 0xa679438e; 0x49b40821; 0xf61e2562; 0xc040b340;
   0x265e5a51; 0xe9b6c7aa; 0xd62f105d; 0x02441453; 0xd8a1e681; 0xe7d3fbc8;
   0x21e1cde6; 0xc33707d6; 0xf4d50d87; 0x455a14ed; 0xa9e3e905; 0xfcefa3f8;
   0x676f02d9; 0x8d2a4c8a; 0xfffa3942; 0x8771f681; 0x6d9d6122; 0xfde5380c;
   0xa4beea44; 0x4bdecfa9; 0xf6bb4b60; 0xbebfbc70; 0x289b7ec6; 0xeaa127fa;
   0xd4ef3085; 0x04881d05; 0xd9d4d039; 0xe6db99e5; 0x1fa27cf8; 0xc4ac5665;
   0xf4292244; 0x432aff97; 0xab9423a7; 0xfc93a039; 0x655b59c3; 0x8f0ccc92;
   0xffeff47d; 0x85845dd1; 0x6fa87e4f; 0xfe2ce6e0; 0xa3014314; 0x4e0811a1;
   0xf7537e82; 0xbd3af235; 0x2ad7d2bb; 0xeb86d391].

Definition shifts : list Z :=
  [7; 12; 17; 22; 7; 12; 17; 22; 7; 12; 17; 22; 7; 12; 17; 22;
   5; 9; 14; 20; 5; 9; 14; 20; 5; 9; 14; 20; 5; 9; 14; 20;
   4; 11; 16; 23; 4; 11; 16; 23; 4; 11; 16; 23; 4; 11; 16; 23;
   6; 10; 15; 21; 6; 10; 15; 21; 6; 10; 15; 21; 6; 10; 15; 21].

Record digest := mkDigest { s0 : Z; s1 : Z; s2 : Z; s3 : Z }.

Definition init : digest :=
  mkDigest 0x67452301 0xefcdab89 0x98badcfe 0x10325476.

(** Step [i] of the four rounds over the message words [x]. *)
Definition step (x : list Z) (s : digest) (i : Z) : digest :=
  let '(mkDigest a b c d) := s in
  let '(f, g) :=
    if i <? 16 then (Z.lor (Z.land b c) (Z.land (not32 b) d), i)
    else if i <? 32 then
      (Z.lor (Z.land d b) (Z.land (not32 d) c), (5 * i + 1) mod 16)
    else if i <? 48 then (Z.lxor (Z.lxor b c) d, (3 * i + 5) mod 16)
    else (Z.lxor c (Z.lor b (not32 d)), (7 * i) mod 16) in
  let n := Z.to_nat i in
  let f' := add32 (add32 (add32 f a) (nth n T 0)) (nth (Z.to_nat g) x 0) in
  mkDigest d (add32 b (RotateLeft32 f' (nth n shifts 0))) b c.

Definition block (s : digest) (p : bytes) : digest :=
  let x := words of_le32 16 p in
  let r := fold_left (step x) (map Z.of_nat (seq 0 64)) s in
  mkDigest (add32 (s0 s) (s0 r)) (add32 (s1 s) (s1 r))
           (add32 (s2 s) (s2 r)) (add32 (s3 s) (s3 r)).

Definition output (s : digest) : bytes :=
  le32 (s0 s) ++ le32 (s1 s) ++ le32 (s2 s) ++ le32 (s3 s).

(** [hasher := md5.New(); hasher.Write(data); hasher.Sum(nil)] *)
Definition Sum (data : bytes) : bytes :=
  let p := data ++ padding le64 (Z.of_nat (List.length data)) in
  output (fold_left block (chunks (List.length p) BlockSize p) init).

End md5.

(* ================================================================= *)
(** ** [encoding/hex] *)

Module hex.

Definition hextable : list ascii :=
  list_ascii_of_string "0123456789abcdef"%string.

Definition digit (n : Z) : ascii := nth (Z.to_nat n) hextable "0"%char.

(** [hex.EncodeToString(src)] and the verb [%x] of [fmt] on a byte slice:
    [hextable[v>>4]] then [hextable[v&0x0f]] for every byte [v]. *)
Fixpoint EncodeToString (src : bytes) : string :=
  match src with
  | [] => EmptyString
  | v :: src' =>
      String (digit (Z.shiftr v 4))
             (String (digit (Z.land v 0x0f)) (EncodeToString src'))
  end.

(** [reverseHexTable]: the value of a hex digit, [0xff] otherwise. *)
Definition reverseHexTable (c : ascii) : Z :=
  let b := byte_of_ascii c in
  if (48 <=? b) && (b <=? 57) then b - 48
  else if (97 <=? b) && (b <=? 102) then b - 97 + 10
  else if (65 <=? b) && (b <=? 70) then b - 65 + 10
  else 0xff.

(** The loop of [hex.Decode]: two characters at a time; a dangling last
    character is reported as invalid if it is, as [ErrLength] otherwise. *)
Fixpoint Decode (src : string) : result bytes :=
  match src with
  | EmptyString => Ok []
  | String p EmptyString =>
      if reverseHexTable p >? 0x0f then Err (InvalidByteError p)
      else Err ErrLength
  | String p (String q src') =>
      let a := reverseHexTable p in
      let b := reverseHexTable q in
      if a >? 0x0f then Err (InvalidByteError p)
      else if b >? 0x0f then Err (InvalidByteError q)
      else match Decode src' with
           | Ok dst => Ok (Z.lor (Z.shiftl a 4) b :: dst)
           | Err e => Err e
           end
  end.

(** [hex.DecodeString(s)] *)
Definition DecodeString (s : string) : result bytes := Decode s.

End hex.

(* ================================================================= *)
(** ** [strings] *)

Module strings.

(** [strings.HasPrefix(s, prefix)]: [s] begins with [prefix]. *)
Fixpoint HasPrefix (s pre : string) {struct pre} : bool :=
  match pre with
  | EmptyString => true
  | String a pre' =>
      match s with
      | EmptyString => false
      | String b s' => Ascii.eqb b a && HasPrefix s' pre'
      end
  end.

(** [strings.Split(s, sep)] for a one-byte separator: the substrings
    between the occurrences of [sep], [Count(s, sep) + 1] of them. *)
Fixpoint Split (s : string) (sep : ascii) : list string :=
  match s with
  | EmptyString => [EmptyString]
  | String c s' =>
      if Ascii.eqb c sep then EmptyString :: Split s' sep
      else match Split s' sep with
           | [] => [String c EmptyString]
           | p :: ps => String c p :: ps
           end
  end.

End strings.

(* ================================================================= *)
(** ** [strconv] *)

Module strconv.

Definition IntSize : Z := 64.
Definition maxUint64 : Z := 2 ^ 64 - 1.

Definition syntaxError (fn str : string) : error := NumError fn str ErrSyntax.
Definition rangeError (fn str : string) : error := NumError fn str ErrRange.

(** The digit loop of [ParseUint(s, 10, 64)]; [n] is a [uint64]. *)
Fixpoint ParseUint_loop (s0 : string) (n : Z) (s : string) : result Z :=
  match s with
  | EmptyString => Ok n
  | String c s' =>
      let b := byte_of_ascii c in
      if (48 <=? b) && (b <=? 57) then
        let d := b - 48 in
        let cutoff := maxUint64 / 10 + 1 in
        if n >=? cutoff then Err (rangeError "ParseUint" s0)
        else
          let n10 := (n * 10) mod 2 ^ 64 in
          let n1 := (n10 + d) mod 2 ^ 64 in
          if (n1 <? n10) || (n1 >? maxUint64)
          then Err (rangeError "ParseUint" s0)
          else ParseUint_loop s0 n1 s'
      else Err (syntaxError "ParseUint" s0)
  end.

Definition ParseUint (s : string) : result Z :=
  match s with
  | EmptyString => Err (syntaxError "ParseUint" s)
  | _ => ParseUint_loop s 0 s
  end.

(** The range check of [ParseInt] on what [ParseUint] returned. *)
Definition ParseInt_range (s0 : string) (neg : bool) (r : result Z)
  : result Z :=
  let cutoff := 2 ^ (IntSize - 1) in
  match r with
  | Err (NumError _ _ ErrRange) => Err (rangeError "ParseInt" s0)
  | Err _ => Err (syntaxError "ParseInt" s0)
  | Ok un =>
      if negb neg && (un >=? cutoff) then Err (rangeError "ParseInt" s0)
      else if neg && (un >? cutoff) then Err (rangeError "ParseInt" s0)
      else Ok (if neg then - un else un)
  end.

(** [ParseInt(s, 10, 0)] *)
Definition ParseInt (s : string) : result Z :=
  match s with
  | EmptyString => Err (syntaxError "ParseInt" s)
  | String c s' =>
      let neg := Ascii.eqb c "-" in
      let s1 := if Ascii.eqb c "+" || neg then s' else s in
      ParseInt_range s neg (ParseUint s1)
  end.

(** The fast path of [Atoi]: the digits of a string too short to
    overflow an [int]. *)
Fixpoint Atoi_fast (n : Z) (s : string) : option Z :=
  match s with
  | EmptyString => Some n
  | String c s' =>
      let ch := (byte_of_ascii c - 48) mod 256 in
      if ch >? 9 then None else Atoi_fast (n * 10 + ch) s'
  end.

(** [strconv.Atoi(s)] *)
Definition Atoi (s : string) : result Z :=
  let sLen := Z.of_nat (String.length s) in
  if (0 <? sLen) && (sLen <? 19) then
    match s with
    | EmptyString => Err (syntaxError "Atoi" s)
    | String c s' =>
        let signed := Ascii.eqb c "-" || Ascii.eqb c "+" in
        let s1 := if signed then s' else s in
        if signed && (Z.of_nat (String.length s1) <? 1)
        then Err (syntaxError "Atoi" s)
        else match Atoi_fast 0 s1 with
             | None => Err (syntaxError "Atoi" s)
             | Some n => Ok (if Ascii.eqb c "-" then - n else n)
             end
    end
  else
    match ParseInt s with
    | Ok i64 => Ok i64
    | Err (NumError _ num e) => Err (NumError "Atoi" num e)
    | Err e => Err e
    end.

End strconv.

(* ================================================================= *)
(** ** [hash.Hash], [crypto/hmac] (RFC 2104), [x/crypto/pbkdf2] (RFC 8018) *)

(** A hash function as the login code uses one: everything is written, then
    [Sum(nil)] is taken. *)
Record Hash := mkHash
  { Sum : bytes -> bytes; Size : nat; BlockSize : nat }.

Definition sha256_New : Hash := mkHash sha256.Sum256 sha256.Size sha256.BlockSize.
Definition md5_New : Hash := mkHash md5.Sum md5.Size md5.BlockSize.

Module hmac.

(** [mac := hmac.New(h, key); mac.Write(msg); mac.Sum(nil)] *)
Definition Sum (h : Hash) (key msg : bytes) : bytes :=
  let key := if (BlockSize h <? List.length key)%nat then Sum h key else key in
  let pad := key ++ repeat 0 (BlockSize h - List.length key) in
  let ipad := map (fun b => Z.lxor b 0x36) pad in
  let opad := map (fun b => Z.lxor b 0x5c) pad in
  h.(Sum) (opad ++ h.(Sum) (ipad ++ msg)).

End hmac.

Module pbkdf2.

(** [for n := 2; n <= iter; n++ { U = PRF(password, U); T ^= U }] *)
Fixpoint rounds (prf : bytes -> bytes) (n : nat) (T U : bytes) : bytes :=
  match n with
  | O => T
  | S n' => let U' := prf U in rounds prf n' (xor_bytes T U') U'
  end.

(** The block [T_i = U_1 ^ U_2 ^ ... ^ U_iter] with
    [U_1 = PRF(password, salt || uint32(i))]. *)
Definition block (h : Hash) (password salt : bytes) (iter : Z) (i : nat)
  : bytes :=
  let prf := hmac.Sum h password in
  let U1 := prf (salt ++ be32 (Z.of_nat i)) in
  rounds prf (Z.to_nat (iter - 1)) U1 U1.

(** [pbkdf2.Key(password, salt, iter, keyLen, h)] *)
Definition Key (password salt : bytes) (iter : Z) (keyLen : nat) (h : Hash)
  : bytes :=
  let hashLen := Size h in
  let numBlocks := ((keyLen + hashLen - 1) / hashLen)%nat in
  let dk := flat_map (block h password salt iter) (seq 1 numBlocks) in
  firstn keyLen dk.

End pbkdf2.

(* ================================================================= *)
(** ** [fmt] and [time] *)

Module fmt.

(** The verb [%d] on an [int]. *)
Definition d (n : Z) : string := NilZero.string_of_int (Z.to_int n).

End fmt.

Module time.

(** The two's complement wrap-around of an [int64]. *)
Definition int64 (x : Z) : Z := (x + 2 ^ 63) mod 2 ^ 64 - 2 ^ 63.

(** [time.Duration] is an [int64] count of nanoseconds. *)
Definition Second : Z := 1000000000.

(** [time.Duration(n) * time.Second] *)
Definition seconds (n : Z) : Z := int64 (int64 n * Second).

(** How long [time.Sleep(d)] pauses at least: a negative or zero duration
    returns at once. *)
Definition pause (d : Z) : Z := Z.max 0 d.

End time.

(* ================================================================= *)
(** ** Package [config] *)

Module config.

Record Login := mkLogin { Username : string; Password : string }.

Record Pki := mkPki { SkipTLSVerify : bool; CertificateFile : string }.

(** Modelled from the spec: package [config] is not among the sources;
    the configuration surface the login consumes is the login endpoint
    URL ([GetLoginURL()]), the username, the password, the certificate
    bundle path and the verification on/off flag. *)
Record Config := mkConfig
  { login : Login; pki : Pki; GetLoginURL : string }.

End config.

(* ================================================================= *)
(** ** Package [fritz]: [fritzclient.go] *)

Module fritz.

Import config.
Local Open Scope string_scope.

(** *** Data *)

Record Rights := mkRights
  { Names : list string; AccessLevels : list string }.

Record SessionInfo := mkSessionInfo
  { Challenge : string;
    SID : string;
    BlockTime : Z;
    rights : Rights;
    IsPBKDF2 : bool }.

Record LoginResponse := mkLoginResponse
  { lr_Challenge : string; lr_BlockTime : Z; lr_SID : string }.

Definition with_IsPBKDF2 (b : bool) (s : SessionInfo) : SessionInfo :=
  mkSessionInfo (Challenge s) (SID s) (BlockTime s) (rights s) b.

Definition with_SID (sid : string) (s : SessionInfo) : SessionInfo :=
  mkSessionInfo (Challenge s) sid (BlockTime s) (rights s) (IsPBKDF2 s).

(** A certificate pool is the list of its certificates; [RootCAs = nil]
    is [None], the trust store of the host. *)
Definition Certificate := bytes.
Definition CertPool := list Certificate.

Record tls_Config := mkTlsConfig
  { InsecureSkipVerify : bool; RootCAs : option CertPool }.

(** The [http.Client] is its transport, which is its TLS configuration.
    [Config] and [HTTPClient] are pointers in the source and [Login]
    dereferences both: the model covers the clients in which both are set,
    as [NewClientFromConfig] builds them; on a client with a nil [Config] or
    [HTTPClient] the source panics, and no statement below speaks of one.
    [SessionInfo], the third pointer, is [None] when nil. *)
Record Client := mkClient
  { Config : config.Config;
    HTTPClient : tls_Config;
    Session : option SessionInfo }.

(** *** The world outside: the device, the file system, the decoders

    Modelled from the spec: the package [httpread] is not among the sources.
    [httpread.XML(get, &v)] issues the request and decodes the XML of the
    response into [v]; the model takes its outcome, as the outcome of every
    other request and decoder, as a parameter of the run. *)

(** The body of an [http.Response]: what [io.ReadAll] makes of it. *)
Record Response := mkResponse { Body : result bytes }.

Record World := mkWorld
  { (** [httpread.XML(GET url, &sessionInfo)]: the decoded state, from the
        zero value, and the error. *)
    httpread_XML : string -> SessionInfo * option error;
    (** [HTTPClient.PostForm(url, form)] *)
    PostForm : string -> list (string * string) -> result Response;
    (** [xml.Unmarshal(body, &loginResp)] *)
    xml_Unmarshal : bytes -> result LoginResponse;
    (** [ioutil.ReadFile(name)] *)
    ReadFile : string -> result bytes;
    (** The certificates [AppendCertsFromPEM] finds in a PEM file. *)
    pem_certificates : bytes -> list Certificate }.

(** What a run does to the world, in order.

    Modelled from the spec: the package [logger] is not among the sources;
    a call of [logger.Debug], [logger.Info] or [logger.Warn] is recorded with
    its arguments and has no other effect. *)
Inductive level := Debug | Info | Warn.

Inductive logarg := LStr (s : string) | LErr (e : error).

Inductive event : Type :=
| EvLog (l : level) (args : list logarg)
| EvGet (url : string)
| EvPostForm (url : string) (form : list (string * string))
| EvSleep (d : Z)
| EvReadFile (name : string).

(** *** The monad of the methods of [*Client]

    The state is the [SessionInfo] the client points to ([None] is the
    nil pointer) and the events so far; [None] as a result is a panic. *)
Record State := mkState
  { session : option SessionInfo; trace : list event }.

Definition M (A : Type) : Type := State -> option (A * State).

Definition ret {A} (a : A) : M A := fun s => Some (a, s).

Definition bindM {A B} (m : M A) (k : A -> M B) : M B :=
  fun s => match m s with
           | Some (a, s') => k a s'
           | None => None
           end.

Definition emit (e : event) : M unit :=
  fun s => Some (tt, mkState (session s) (trace s ++ [e])%list).

Definition logger (l : level) (args : list logarg) : M unit :=
  emit (EvLog l args).

(** [client.SessionInfo.f]: a nil pointer panics. *)
Definition deref : M SessionInfo :=
  fun s => match session s with
           | Some si => Some (si, s)
           | None => None
           end.

(** [client.SessionInfo = p] *)
Definition assign (p : SessionInfo) : M unit :=
  fun s => Some (tt, mkState (Some p) (trace s)).

Declare Scope M_scope.
Delimit Scope M_scope with M.
Notation "x <- m ;; k" := (bindM m (fun x => k))
  (at level 61, m at next level, right associativity) : M_scope.
Notation "m ;;; k" := (bindM m (fun _ => k))
  (at level 61, right associativity) : M_scope.

(** *** The two response algorithms *)

Definition calculatePBKDF2Response (challenge password : string)
  : result string :=
  let parts := strings.Split challenge "$" in
  if (Z.of_nat (List.length parts) <? 5)%Z
  then Err (Errorf "invalid PBKDF2 challenge format")
  else
    (iter1 <- wrap_err "invalid iteration count"
                (strconv.Atoi (nth 1 parts EmptyString)) ;;
     salt1 <- wrap_err "invalid salt1"
                (hex.DecodeString (nth 2 parts EmptyString)) ;;
     iter2 <- wrap_err "invalid iteration count"
                (strconv.Atoi (nth 3 parts EmptyString)) ;;
     salt2 <- wrap_err "invalid salt2"
                (hex.DecodeString (nth 4 parts EmptyString)) ;;
     let hash1 :=
       pbkdf2.Key (of_string password) salt1 iter1 sha256.Size sha256_New in
     let hash2 := pbkdf2.Key hash1 salt2 iter2 sha256.Size sha256_New in
     Ok (nth 4 parts EmptyString ++ "$" ++ hex.EncodeToString hash2))%result.

Definition calculateMD5Response (challenge password : string) : string :=
  let response := challenge ++ "-" ++ password in
  let encoded := of_string response in
  let hash := hex.EncodeToString (md5.Sum encoded) in
  challenge ++ "-" ++ hash.

(** *** Construction: the TLS policy *)

Definition x509_NewCertPool : CertPool := [].

(** [ok := pool.AppendCertsFromPEM(pem)]: the pool afterwards, and whether
    a certificate was found. *)
Definition AppendCertsFromPEM (w : World) (pool : CertPool) (pem : bytes)
  : CertPool * bool :=
  let cs := pem_certificates w pem in
  ((pool ++ cs)%list, negb (Nat.eqb (List.length cs) 0)).

(** The functions of the construction write to the log and read a file:
    they return their value and the events they caused. *)
Definition buildCertPool (w : World) (cfg : config.Config)
  : option CertPool * list event :=
  if SkipTLSVerify (pki cfg) then (None, [])
  else
    let caCertPool := x509_NewCertPool in
    let name := CertificateFile (pki cfg) in
    let reading :=
      [EvLog Debug [LStr "Reading certificate file"; LStr name];
       EvReadFile name] in
    match ReadFile w name with
    | Err err =>
        (None,
         (reading ++
          [EvLog Debug
             [LStr "Using host certificates as fallback. Reason: could not read certificate file: ";
              LErr err]])%list)
    | Ok caCert =>
        let '(caCertPool, ok) := AppendCertsFromPEM w caCertPool caCert in
        if negb ok then
          (None,
           (reading ++
            [EvLog Warn
               [LStr "Using host certificates as fallback. Reason: certificate file ";
                LStr name; LStr " is not a valid PEM file."]])%list)
        else (Some caCertPool, reading)
    end.

Definition tlsConfigFrom (w : World) (cfg : config.Config)
  : tls_Config * list event :=
  let '(caCertPool, evs) := buildCertPool w cfg in
  (mkTlsConfig (SkipTLSVerify (pki cfg)) caCertPool, evs).

Definition NewClientFromConfig (w : World) (cfg : config.Config)
  : Client * list event :=
  let '(tlsConfig, evs) := tlsConfigFrom w cfg in
  (mkClient cfg tlsConfig None, evs).

(** *** The handshake *)

Section Handshake.

Variable w : World.
Variable cfg : config.Config.

Local Open Scope M_scope.

Definition obtainChallenge : M (SessionInfo * option error) :=
  let url := GetLoginURL cfg in
  emit (EvGet url) ;;;
  let '(sessionInfo, err) := httpread_XML w url in
  let sessionInfo :=
    with_IsPBKDF2 (strings.HasPrefix (Challenge sessionInfo) "2$")
                  sessionInfo in
  ret (sessionInfo, err).

Definition sendResponse (challengeResponse : string) : M (result string) :=
  let formData :=
    [("username", Username (login cfg)); ("response", challengeResponse)] in
  emit (EvPostForm (GetLoginURL cfg) formData) ;;;
  match PostForm w (GetLoginURL cfg) formData with
  | Err err => ret (Err (Wrap "failed to send response" err))
  | Ok resp =>
      match Body resp with
      | Err err => ret (Err (Wrap "failed to read response body" err))
      | Ok body =>
          match xml_Unmarshal w body with
          | Err err => ret (Err (Wrap "failed to parse XML" err))
          | Ok loginResp => ret (Ok (lr_SID loginResp))
          end
      end
  end.

Definition solveChallenge : M (option error) :=
  si <- deref ;;
  r <- (if IsPBKDF2 si then
          logger Debug [LStr "PBKDF2 supported"] ;;;
          ret (wrap_err "failed to calculate PBKDF2 response"
                 (calculatePBKDF2Response (Challenge si)
                                          (Password (login cfg))))
        else
          logger Debug [LStr "Falling back to MD5"] ;;;
          ret (Ok (calculateMD5Response (Challenge si)
                                        (Password (login cfg))))) ;;
  match r with
  | Err err => ret (Some err)
  | Ok challengeResponse =>
      (if (BlockTime si >? 0)%Z then
         logger Info
           [LStr ("Waiting for " ++ fmt.d (BlockTime si) ++ " seconds..."
                  ++ String "010"%char EmptyString)] ;;;
         emit (EvSleep (time.seconds (BlockTime si)))
       else ret tt) ;;;
      r <- sendResponse challengeResponse ;;
      match r with
      | Err err => ret (Some (Wrap "failed to login" err))
      | Ok sid =>
          si <- deref ;;
          assign (with_SID sid si) ;;;
          si <- deref ;;
          if String.eqb (SID si) "0000000000000000"
             || String.eqb (SID si) EmptyString
          then
            ret (Some (Errorf ("challenge not solved, got '" ++ SID si
                               ++ "' as session id, check login data")))
          else ret None
      end
  end.

Definition Login : M (option error) :=
  r <- obtainChallenge ;;
  let '(sessionInfo, err) := r in
  match err with
  | Some err => ret (Some (Wrap "unable to obtain login challenge" err))
  | None =>
      assign sessionInfo ;;;
      si <- deref ;;
      logger Debug [LStr "FRITZ!Box challenge is"; LStr (Challenge si)] ;;;
      err <- solveChallenge ;;
      match err with
      | Some err => ret (Some (Wrap "unable to solve login challenge" err))
      | None => logger Info [LStr "Login successful"] ;;; ret None
      end
  end.

End Handshake.

(** [client.Login()] on a client as it stands: the error returned, the
    client afterwards and the events, or [None] for a panic. *)
Definition run_Login (w : World) (client : Client)
  : option (option error * Client * list event) :=
  match Login w (Config client) (mkState (Session client) []) with
  | Some (err, s) =>
      Some (err, mkClient (Config client) (HTTPClient client) (session s),
            trace s)
  | None => None
  end.

End fritz.

(* ================================================================= *)
(** ** Package [fritz]: [thermostat.go] and the formatting of temperatures *)

Module hkr.

Local Open Scope float_scope.

Section Thermostat.

(** The type of the next scheduled change, declared in another file. *)
Variable NextChange : Type.

(** [strconv.ParseFloat(s, 64)] and [strconv.FormatFloat(f, 'f', -1, 64)]:
    the conversions between decimal text and [float64] are parameters. *)
Variable ParseFloat : string -> result float.
Variable FormatFloat : float -> string.

(** The "HKR" device. *)
Record Thermostat := mkThermostat
  { Measured : string;
    Goal : string;
    Saving : string;
    Comfort : string;
    nextChange : NextChange;
    Lock : string;
    DeviceLock : string;
    ErrorCode : string;
    BatteryLow : string;
    WindowOpen : string;
    BatteryChargeLevel : string }.

(** [if v > max && v < 253 { v = max } else if v < min { v = min }] *)
Definition cappedRawTemperature (v min max : float) : float :=
  if (max <? v) && (v <? 253) then max
  else if v <? min then min
  else v.

Definition fmtTemperatureHkr (th : string) (min max : float) : string :=
  match ParseFloat th with
  | Err _ => EmptyString
  | Ok f =>
      let f := cappedRawTemperature f min max in
      if f =? 255 then "?"%string
      else if f =? 254 then "ON"%string
      else if f =? 253 then "OFF"%string
      else FormatFloat (f * 0.5)
  end.

Definition FmtMeasuredTemperature (t : Thermostat) : string :=
  fmtTemperatureHkr (Measured t) 0 100.

Definition FmtGoalTemperature (t : Thermostat) : string :=
  fmtTemperatureHkr (Goal t) 16 56.

Definition FmtSavingTemperature (t : Thermostat) : string :=
  fmtTemperatureHkr (Saving t) 16 56.

Definition FmtComfortTemperature (t : Thermostat) : string :=
  fmtTemperatureHkr (Comfort t) 16 56.

(** The loop of [State] over the values still to read; [state] is the
    variable of that name, and a [break] returns at once. *)
Fixpoint State_loop (vals : list string) (state : Z) : Z :=
  match vals with
  | [] => state
  | val :: vals' =>
      match ParseFloat val with
      | Err _ => State_loop vals' state
      | Ok f =>
          if (f <? 253) || (f =? 254) then State_loop vals' 1%Z
          else if f =? 253 then 0%Z
          else if 255 <=? f then (-1)%Z
          else State_loop vals' state
      end
  end.

Definition State (t : Thermostat) : Z :=
  State_loop [Measured t; Goal t; Saving t; Comfort t] (-1)%Z.

End Thermostat.

Arguments Measured {NextChange} t.
Arguments Goal {NextChange} t.
Arguments Saving {NextChange} t.
Arguments Comfort {NextChange} t.
Arguments FmtMeasuredTemperature {NextChange} ParseFloat FormatFloat t.
Arguments FmtGoalTemperature {NextChange} ParseFloat FormatFloat t.
Arguments FmtSavingTemperature {NextChange} ParseFloat FormatFloat t.
Arguments FmtComfortTemperature {NextChange} ParseFloat FormatFloat t.
Arguments State {NextChange} ParseFloat t.

End hkr.

(* ================================================================= *)
(** * The vocabulary of the properties *)

Import config.
Import fritz.

(** ** Characters, hex strings, numerals *)

(** Every character of [s] satisfies [p]. *)
Fixpoint all_chars (p : ascii -> bool) (s : string) : bool :=
  match s with
  | EmptyString => true
  | String c s' => p c && all_chars p s'
  end.

Definition is_lower_hex (c : ascii) : bool :=
  existsb (Ascii.eqb c) hex.hextable.

Definition is_hex_char (c : ascii) : bool :=
  existsb (Ascii.eqb c) (list_ascii_of_string "0123456789abcdefABCDEF").

Definition is_digit (c : ascii) : bool :=
  existsb (Ascii.eqb c) (list_ascii_of_string "0123456789").

Definition is_not (sep : ascii) (c : ascii) : bool := negb (Ascii.eqb c sep).

(** [s] up to and after the first [sep] ([strings.Cut]); the whole of [s]
    and nothing when [sep] does not occur. *)
Fixpoint cut (s : string) (sep : ascii) : string * string :=
  match s with
  | EmptyString => (EmptyString, EmptyString)
  | String c s' =>
      if Ascii.eqb c sep then (EmptyString, s')
      else let '(a, b) := cut s' sep in (String c a, b)
  end.

(** A string is valid hex when it has an even number of characters, all of
    them hex digits of either case. *)
Definition valid_hex (s : string) : bool :=
  Nat.even (String.length s) && all_chars is_hex_char s.

Fixpoint index_of (c : ascii) (l : list ascii) : option nat :=
  match l with
  | [] => None
  | x :: l' =>
      if Ascii.eqb c x then Some 0%nat else option_map S (index_of c l')
  end.

(** The value of a hex digit of either case. *)
Definition hexval (c : ascii) : Z :=
  match index_of c (list_ascii_of_string "0123456789abcdef") with
  | Some n => Z.of_nat n
  | None =>
      match index_of c (list_ascii_of_string "0123456789ABCDEF") with
      | Some n => Z.of_nat n
      | None => 0
      end
  end.

(** The bytes a hex string stands for, two digits a byte, the high one
    first. *)
Fixpoint unhex (s : string) : bytes :=
  match s with
  | String p (String q s') => (16 * hexval p + hexval q) :: unhex s'
  | _ => []
  end.

(** [strings.ToLower] on ASCII. *)
Definition lower (c : ascii) : ascii :=
  let b := N_of_ascii c in
  if ((65 <=? b) && (b <=? 90))%N then ascii_of_N (b + 32) else c.

Fixpoint ToLower (s : string) : string :=
  match s with
  | EmptyString => EmptyString
  | String c s' => String (lower c) (ToLower s')
  end.

(** [strings.Join(fields, sep)] *)
Fixpoint Join (fields : list string) (sep : ascii) : string :=
  match fields with
  | [] => EmptyString
  | [f] => f
  | f :: fs => f ++ String sep (Join fs sep)
  end.

(** The value of a string of decimal digits, continuing from [n]. *)
Fixpoint decimal_from (n : Z) (s : string) : Z :=
  match s with
  | EmptyString => n
  | String c s' => decimal_from (n * 10 + (byte_of_ascii c - 48)) s'
  end.

Definition decimal (s : string) : Z := decimal_from 0 s.

(** A numeral is a non-empty string of decimal digits. *)
Definition is_numeral (s : string) : bool :=
  match s with
  | EmptyString => false
  | _ => all_chars is_digit s
  end.

(** The integer a string denotes: a numeral, with an optional sign. *)
Definition int_value (s : string) : option Z :=
  match s with
  | EmptyString => None
  | String c s' =>
      if Ascii.eqb c "-" then
        if is_numeral s' then Some (- decimal s') else None
      else if Ascii.eqb c "+" then
        if is_numeral s' then Some (decimal s') else None
      else if is_numeral s then Some (decimal s) else None
  end.

Definition in_int_range (n : Z) : bool := (- 2 ^ 63 <=? n) && (n <? 2 ^ 63).

(** A decodable integer denotes a value of the 64-bit [int]. *)
Definition decodable_int (s : string) : option Z :=
  match int_value s with
  | Some n => if in_int_range n then Some n else None
  | None => None
  end.

(** A result agrees with what a specification expects: the value when one
    is expected, some error otherwise. *)
Definition agrees {A} (o : option A) (r : result A) : Prop :=
  match o with
  | Some a => r = Ok a
  | None => exists e, r = Err e
  end.

(** ** Modern challenges *)

(** The challenge [2$<iter1>$<salt1-hex>$<iter2>$<salt2-hex>]. *)
Definition modern_challenge (iter1 salt1 iter2 salt2 : string) : string :=
  ("2$" ++ iter1 ++ "$" ++ salt1 ++ "$" ++ iter2 ++ "$" ++ salt2)%string.

(** An iteration count on the wire: a numeral of a positive [int]. *)
Definition positive_count (s : string) : bool :=
  is_numeral s && (1 <=? decimal s) && (decimal s <? 2 ^ 63).

(** A well-formed modern challenge has positive iteration counts and salts
    that are valid hex of even length. *)
Definition well_formed (iter1 salt1 iter2 salt2 : string) : bool :=
  positive_count iter1 && valid_hex salt1 &&
  positive_count iter2 && valid_hex salt2.

(** The derivation primitive: PBKDF2 with HMAC-SHA-256 and a 32-byte key. *)
Definition KDF (password salt : bytes) (iter : Z) : bytes :=
  pbkdf2.Key password salt iter sha256.Size sha256_New.

Local Open Scope string_scope.

(** ** The stages and the events of the handshake *)

(** The first stage of [solveChallenge]: the response, or the error. *)
Definition response_stage (cfg : config.Config) (si : SessionInfo)
  : result string :=
  if IsPBKDF2 si then
    wrap_err "failed to calculate PBKDF2 response"
      (calculatePBKDF2Response (Challenge si) (Password (login cfg)))
  else Ok (calculateMD5Response (Challenge si) (Password (login cfg))).

(** What [sendResponse] returns; it depends on the state in no way. *)
Definition submission (w : World) (cfg : config.Config)
  (challengeResponse : string) : result string :=
  match sendResponse w cfg challengeResponse (mkState None []) with
  | Some (r, _) => r
  | None => Err (External "panic")
  end.

Definition algorithm_log (si : SessionInfo) : event :=
  EvLog Debug
    [LStr (if IsPBKDF2 si then "PBKDF2 supported" else "Falling back to MD5")].

(** The events of the block-time wait. *)
Definition backoff (si : SessionInfo) : list event :=
  if (BlockTime si >? 0)%Z then
    [EvLog Info [LStr ("Waiting for " ++ fmt.d (BlockTime si) ++ " seconds..."
                       ++ String "010"%char EmptyString)];
     EvSleep (time.seconds (BlockTime si))]
  else [].

Definition submit_event (cfg : config.Config) (challengeResponse : string)
  : event :=
  EvPostForm (GetLoginURL cfg)
    [("username", Username (login cfg)); ("response", challengeResponse)].

Definition rejected (sid : string) : error :=
  Errorf ("challenge not solved, got '" ++ sid
          ++ "' as session id, check login data").

Definition is_sentinel (sid : string) : bool :=
  String.eqb sid "0000000000000000" || String.eqb sid EmptyString.

(** The session the client holds once the challenge is fetched. *)
Definition fetched (si0 : SessionInfo) : SessionInfo :=
  with_IsPBKDF2 (strings.HasPrefix (Challenge si0) "2$") si0.

Definition fetch_event (cfg : config.Config) : event :=
  EvGet (GetLoginURL cfg).

Definition challenge_log (si : SessionInfo) : event :=
  EvLog Debug [LStr "FRITZ!Box challenge is"; LStr (Challenge si)].

Definition success_log : event := EvLog Info [LStr "Login successful"].

(** The trace of an attempt that reaches the submission. *)
Definition submitted_trace (cfg : config.Config) (si : SessionInfo)
  (resp : string) : list event :=
  (fetch_event cfg :: challenge_log si :: algorithm_log si :: backoff si
   ++ [submit_event cfg resp])%list.

(** ** Example devices *)

(** A device that issues [challenge] with [blockTime] and answers every
    submission with [sid]; no certificate file is installed. *)
Definition device (challenge : string) (blockTime : Z) (sid : string) : World :=
  mkWorld
    (fun _ => (mkSessionInfo challenge "0000000000000000" blockTime
                 (mkRights [] []) false, None))
    (fun _ _ => Ok (mkResponse (Ok [])))
    (fun _ => Ok (mkLoginResponse challenge blockTime sid))
    (fun _ => Err (External "no such file or directory"))
    (fun _ => []).

Definition example_config : config.Config :=
  mkConfig (mkLogin "admin" "secret")
           (mkPki false "/etc/fritzctl/fritz.pem")
           "https://fritz.box:443/login_sid.lua?version=2".

Definition example_client (w : World) : Client :=
  fst (NewClientFromConfig w example_config).

(** What the decoding rejects: fewer than five fields, an iteration field
    that is no decodable integer, a salt field that is not valid hex. *)
Definition malformed (challenge : string) : bool :=
  let fields := strings.Split challenge "$" in
  (List.length fields <? 5)%nat
  || negb (match decodable_int (nth 1 fields EmptyString) with
           | Some _ => true | None => false end)
  || negb (valid_hex (nth 2 fields EmptyString))
  || negb (match decodable_int (nth 3 fields EmptyString) with
           | Some _ => true | None => false end)
  || negb (valid_hex (nth 4 fields EmptyString)).

Definition is_debug_log (e : event) : bool :=
  match e with
  | EvLog Debug _ => true
  | _ => false
  end.

Definition locked_out_device : World :=
  device "1234567890abcdef" 9223372037 "8f3a9c1d2b4e5f60".

Definition is_file_read (e : event) : bool :=
  match e with
  | EvReadFile _ => true
  | _ => false
  end.

Definition rejecting_device : World :=
  device "1234567890abcdef" 0 "0000000000000000".

Definition truncated_device : World :=
  device "2$10000$5a1b$10000" 0 "8f3a9c1d2b4e5f60".

Definition legacy_device : World :=
  device "12$4567890abcdef" 0 "8f3a9c1d2b4e5f60".

(** The session state a device issues to the example client. *)
Definition issued (w : World) : SessionInfo :=
  fst (httpread_XML w (GetLoginURL example_config)).

(** ** The events of an attempt, by kind *)

Definition is_fetch (e : event) : bool :=
  match e with
  | EvGet _ => true
  | _ => false
  end.

Definition is_submit (e : event) : bool :=
  match e with
  | EvPostForm _ _ => true
  | _ => false
  end.

Definition is_sleep (e : event) : bool :=
  match e with
  | EvSleep _ => true
  | _ => false
  end.

Definition is_log (e : event) : bool :=
  match e with
  | EvLog _ _ => true
  | _ => false
  end.

(** How many events of a trace satisfy [p]. *)
Definition count (p : event -> bool) (tr : list event) : nat :=
  List.length (filter p tr).

(** The events that follow the first submission. *)
Fixpoint after_submit (tr : list event) : list event :=
  match tr with
  | [] => []
  | EvPostForm _ _ :: tr' => tr'
  | _ :: tr' => after_submit tr'
  end.

(** ** More devices *)

(** A device that cannot be reached. *)
Definition unreachable_device : World :=
  mkWorld
    (fun _ => (mkSessionInfo EmptyString EmptyString 0 (mkRights [] []) false,
               Some (External "dial tcp: connection refused")))
    (fun _ _ => Err (External "dial tcp: connection refused"))
    (fun _ => Err (External "EOF"))
    (fun _ => Err (External "no such file or directory"))
    (fun _ => []).

(** A device that issues a legacy challenge and then drops the connection. *)
Definition dropping_device : World :=
  mkWorld
    (fun _ => (mkSessionInfo "1234567890abcdef" "0000000000000000" 0
                 (mkRights [] []) false, None))
    (fun _ _ => Err (External "connection reset by peer"))
    (fun _ => Err (External "EOF"))
    (fun _ => Err (External "no such file or directory"))
    (fun _ => []).

(** A device that decodes with the algorithm flag set although the
    challenge is a legacy one. *)
Definition mislabelled_device : World :=
  mkWorld
    (fun _ => (mkSessionInfo "1234567890abcdef" "0000000000000000" 0
                 (mkRights ["Dial"; "HomeAuto"] ["2"; "2"]) true, None))
    (fun _ _ => Ok (mkResponse (Ok [])))
    (fun _ => Ok (mkLoginResponse "1234567890abcdef" 0 "8f3a9c1d2b4e5f60"))
    (fun _ => Err (External "no such file or directory"))
    (fun _ => []).

(** A device that issues a legacy challenge and accepts the response. *)
Definition accepting_device : World :=
  device "1234567890abcdef" 0 "8f3a9c1d2b4e5f60".

Local Close Scope string_scope.

(** ** Thermostat readings *)

(** What [State] makes of one value: a reading that switches the state on,
    one that says off, one that says undefined, and one that it passes
    over. *)
Inductive reading := On | Off | Undefined | Ignored.

Definition classify (ParseFloat : string -> result float) (val : string)
  : reading :=
  match ParseFloat val with
  | Err _ => Ignored
  | Ok f =>
      if ((f <? 253) || (f =? 254))%float then On
      else if (f =? 253)%float then Off
      else if (255 <=? f)%float then Undefined
      else Ignored
  end.

Definition is_decisive (r : reading) : bool :=
  match r with
  | Off | Undefined => true
  | _ => false
  end.

Definition is_on (r : reading) : bool :=
  match r with
  | On => true
  | _ => false
  end.

Local Open Scope float_scope.

(** The four temperatures of a thermostat, with the value each formatter
    reads and the range of raw values it passes to [fmtTemperatureHkr]. *)
Inductive temperature :=
| measured_temperature
| goal_temperature
| saving_temperature
| comfort_temperature.

Definition raw {NextChange} (t : hkr.Thermostat NextChange)
  (k : temperature) : string :=
  match k with
  | measured_temperature => hkr.Measured t
  | goal_temperature => hkr.Goal t
  | saving_temperature => hkr.Saving t
  | comfort_temperature => hkr.Comfort t
  end.

Definition Fmt {NextChange} (ParseFloat : string -> result float)
  (FormatFloat : float -> string) (t : hkr.Thermostat NextChange)
  (k : temperature) : string :=
  match k with
  | measured_temperature => hkr.FmtMeasuredTemperature ParseFloat FormatFloat t
  | goal_temperature => hkr.FmtGoalTemperature ParseFloat FormatFloat t
  | saving_temperature => hkr.FmtSavingTemperature ParseFloat FormatFloat t
  | comfort_temperature => hkr.FmtComfortTemperature ParseFloat FormatFloat t
  end.

Definition lowest (k : temperature) : float :=
  match k with measured_temperature => 0 | _ => 16 end.

Definition highest (k : temperature) : float :=
  match k with measured_temperature => 100 | _ => 56 end.

(** The text of the cut-offs, in degrees. *)
Definition coldest (k : temperature) : float :=
  match k with measured_temperature => 0 | _ => 8 end.

Definition warmest (k : temperature) : float :=
  match k with measured_temperature => 50 | _ => 28 end.

Definition is_special (f : float) : Prop := f = 253 \/ f = 254 \/ f = 255.

(** A few decimal texts and their floats, standing for
    [strconv.ParseFloat] and [strconv.FormatFloat] in the examples. *)
Definition example_ParseFloat (s : string) : result float :=
  if String.eqb s "12" then Ok 12
  else if String.eqb s "40" then Ok 40
  else if String.eqb s "112" then Ok 112
  else if String.eqb s "253" then Ok 253
  else if String.eqb s "254" then Ok 254
  else if String.eqb s "255" then Ok 255
  else if String.eqb s "300" then Ok 300
  else if String.eqb s "NaN" then Ok nan
  else Err (NumError "ParseFloat" s ErrSyntax).

Definition example_FormatFloat (f : float) : string :=
  if f =? 0 then "0"
  else if f =? 8 then "8"
  else if f =? 20 then "20"
  else if f =? 28 then "28"
  else if f =? 50 then "50"
  else if f =? 150 then "150"
  else if is_nan f then "NaN"
  else "-"%string.

Definition example_thermostat (measured goal saving comfort : string)
  : hkr.Thermostat unit :=
  hkr.mkThermostat unit measured goal saving comfort tt "0" "0" "0" "0" "0"
    "80".

(** A thermostat that measures 20 degrees, with a goal below the range,
    the saving temperature switched off and a comfort value beyond the
    special readings. *)
Definition example_hkr : hkr.Thermostat unit :=
  example_thermostat "40" "12" "253" "300".

Local Close Scope float_scope.

(* ================================================================= *)
(** * Properties *)

(** ** Test vectors of the hash functions *)

Example sha256_abc :
  hex.EncodeToString (sha256.Sum256 (of_string "abc"))
  = "ba7816bf8f01cfea414140de5dae2223b00361a396177a9cb410ff61f20015ad"%string.
Proof. vm_compute. reflexivity. Qed.

Example md5_legacy_vector :
  hex.EncodeToString (md5.Sum (of_string "1234567890abcdef-pw"))
  = "80567cebdd989d277bef8da1d5fe2de9"%string.
Proof. vm_compute. reflexivity. Qed.

Example pbkdf2_rfc_vector :
  hex.EncodeToString
    (pbkdf2.Key (of_string "password") (of_string "salt") 2 32 sha256_New)
  = "ae4d0c95af6b46d32d0adff928f06dd02a303f8ef3c251dfd6e2d85a95474c43"%string.
Proof. vm_compute. reflexivity. Qed.

Example hmac_long_key_vector :
  hex.EncodeToString
    (pbkdf2.Key (pbkdf2.Key (of_string (String.concat EmptyString (repeat "x"%string 100)))
                            [0xaa] 1 32 sha256_New) [0xbb] 1 32 sha256_New)
  = "01a57094ea4b2ff26d7fe700fad08aafdf2d5d69e9ecae5ba63d07734f43148b"%string.
Proof. vm_compute. reflexivity. Qed.

(** ** Strings and their characters *)

Lemma all_chars_app p a b :
  all_chars p (a ++ b) = all_chars p a && all_chars p b.
Proof.
  induction a as [|c a IH]; simpl; [reflexivity|].
  rewrite IH. now rewrite andb_assoc.
Qed.

Lemma all_chars_weaken (p q : ascii -> bool) s :
  (forall c, p c = true -> q c = true) ->
  all_chars p s = true -> all_chars q s = true.
Proof.
  intros Hpq. induction s as [|c s IH]; simpl; [trivial|].
  rewrite !andb_true_iff. intros [Hc Hs]. split; auto.
Qed.

Lemma cut_app a b sep :
  all_chars (is_not sep) a = true ->
  cut (a ++ String sep b) sep = (a, b).
Proof.
  induction a as [|c a IH]; simpl.
  - rewrite Ascii.eqb_refl. reflexivity.
  - unfold is_not at 1. rewrite andb_true_iff, negb_true_iff.
    intros [Hc Ha]. rewrite Hc, (IH Ha). reflexivity.
Qed.

Lemma of_string_app a b : of_string (a ++ b) = (of_string a ++ of_string b)%list.
Proof.
  unfold of_string. induction a as [|c a IH]; simpl; [reflexivity|].
  now rewrite IH.
Qed.

Lemma of_string_length s : List.length (of_string s) = String.length s.
Proof.
  unfold of_string. induction s as [|c s IH]; simpl; [reflexivity|].
  now rewrite IH.
Qed.

(** ** Bytes stay bytes *)

Lemma byte_is_byte x : is_byte (byte x).
Proof.
  unfold is_byte, byte. change 255 with (Z.ones 8).
  rewrite Z.land_ones by lia. apply Z.mod_pos_bound. reflexivity.
Qed.

Lemma is_byte_mod x : is_byte x -> x mod 2 ^ 8 = x.
Proof. unfold is_byte. intros H. apply Z.mod_small. simpl. lia. Qed.

Lemma lxor_is_byte a b : is_byte a -> is_byte b -> is_byte (Z.lxor a b).
Proof.
  intros Ha Hb.
  assert (E : Z.lxor a b = Z.lxor a b mod 2 ^ 8).
  { apply Z.bits_inj'. intros n Hn.
    destruct (Z.lt_ge_cases n 8) as [Hlt|Hge].
    - now rewrite Z.mod_pow2_bits_low.
    - rewrite Z.mod_pow2_bits_high by lia.
      rewrite Z.lxor_spec, <- (is_byte_mod a Ha), <- (is_byte_mod b Hb).
      now rewrite !Z.mod_pow2_bits_high by lia. }
  rewrite E. unfold is_byte. apply Z.mod_pos_bound. reflexivity.
Qed.

Lemma be32_length x : List.length (be32 x) = 4%nat.
Proof. reflexivity. Qed.

Lemma be32_bytes x : Forall is_byte (be32 x).
Proof. unfold be32. repeat constructor; apply byte_is_byte. Qed.

Lemma xor_bytes_length a b :
  List.length (xor_bytes a b) = Nat.min (List.length a) (List.length b).
Proof. unfold xor_bytes. now rewrite length_map, length_combine. Qed.

Lemma xor_bytes_bytes a b :
  Forall is_byte a -> Forall is_byte b -> Forall is_byte (xor_bytes a b).
Proof.
  unfold xor_bytes. intros Ha. revert b.
  induction Ha as [|x a Hx Ha IH]; intros b Hb; simpl; [constructor|].
  destruct Hb as [|y b Hy Hb]; simpl; constructor.
  - now apply lxor_is_byte.
  - now apply IH.
Qed.

(** ** The digest of SHA-256 is 32 bytes, and so is every derived key *)

Lemma Sum256_length data : List.length (sha256.Sum256 data) = 32%nat.
Proof.
  unfold sha256.Sum256, sha256.output.
  repeat rewrite length_app. repeat rewrite be32_length. reflexivity.
Qed.

Lemma Sum256_bytes data : Forall is_byte (sha256.Sum256 data).
Proof.
  unfold sha256.Sum256, sha256.output.
  repeat (apply Forall_app; split); apply be32_bytes.
Qed.

Lemma hmac_sha256_length key msg :
  List.length (hmac.Sum sha256_New key msg) = 32%nat.
Proof. unfold hmac.Sum. cbn [Sum sha256_New]. apply Sum256_length. Qed.

Lemma hmac_sha256_bytes key msg : Forall is_byte (hmac.Sum sha256_New key msg).
Proof. unfold hmac.Sum. cbn [Sum sha256_New]. apply Sum256_bytes. Qed.

Section Rounds.

Variable prf : bytes -> bytes.
Hypothesis prf_length : forall m, List.length (prf m) = 32%nat.
Hypothesis prf_bytes : forall m, Forall is_byte (prf m).

Lemma rounds_length n : forall T U,
  List.length T = 32%nat -> List.length (pbkdf2.rounds prf n T U) = 32%nat.
Proof.
  induction n as [|n IH]; intros T U HT; simpl; [exact HT|].
  apply IH. rewrite xor_bytes_length, HT, prf_length. reflexivity.
Qed.

Lemma rounds_bytes n : forall T U,
  Forall is_byte T -> Forall is_byte (pbkdf2.rounds prf n T U).
Proof.
  induction n as [|n IH]; intros T U HT; simpl; [exact HT|].
  apply IH. apply xor_bytes_bytes; [exact HT | apply prf_bytes].
Qed.

End Rounds.

Lemma Forall_take {A} (P : A -> Prop) n : forall l,
  Forall P l -> Forall P (firstn n l).
Proof.
  induction n as [|n IH]; intros l Hl; simpl; [constructor|].
  destruct Hl as [|x l Hx Hl]; constructor; auto.
Qed.

Lemma Key_sha256_block password salt iter :
  pbkdf2.Key password salt iter sha256.Size sha256_New
  = firstn 32 (pbkdf2.block sha256_New password salt iter 1).
Proof.
  unfold pbkdf2.Key. cbn [Size sha256_New].
  change ((sha256.Size + sha256.Size - 1) / sha256.Size)%nat with 1%nat.
  cbn [seq flat_map]. now rewrite app_nil_r.
Qed.

Lemma block_sha256_length password salt iter i :
  List.length (pbkdf2.block sha256_New password salt iter i) = 32%nat.
Proof.
  unfold pbkdf2.block.
  apply rounds_length; intros; apply hmac_sha256_length.
Qed.

Lemma Key_sha256_length password salt iter :
  List.length (pbkdf2.Key password salt iter sha256.Size sha256_New) = 32%nat.
Proof.
  rewrite Key_sha256_block, length_firstn, block_sha256_length. reflexivity.
Qed.

Lemma Key_sha256_bytes password salt iter :
  Forall is_byte (pbkdf2.Key password salt iter sha256.Size sha256_New).
Proof.
  rewrite Key_sha256_block. apply Forall_take.
  unfold pbkdf2.block. apply rounds_bytes.
  - intros; apply hmac_sha256_bytes.
  - apply hmac_sha256_bytes.
Qed.

(** An iteration count below one runs no further round: it derives the key
    of the count one. *)
Lemma Key_nonpositive_iter password salt iter keyLen h :
  iter <= 1 ->
  pbkdf2.Key password salt iter keyLen h = pbkdf2.Key password salt 1 keyLen h.
Proof.
  intros Hle. unfold pbkdf2.Key. f_equal.
  apply flat_map_ext. intros i. unfold pbkdf2.block.
  replace (Z.to_nat (iter - 1)) with 0%nat by lia. reflexivity.
Qed.

(** ** Hex encoding *)

Lemma digit_lower_hex n : 0 <= n < 16 -> is_lower_hex (hex.digit n) = true.
Proof.
  intros Hn. unfold hex.digit.
  assert (Hk : (Z.to_nat n < 16)%nat) by lia.
  generalize dependent (Z.to_nat n). intros k Hk.
  do 16 (destruct k as [|k]; [reflexivity|]). lia.
Qed.

Lemma shiftr4_nibble v : is_byte v -> 0 <= Z.shiftr v 4 < 16.
Proof.
  unfold is_byte. intros Hv. rewrite Z.shiftr_div_pow2 by lia.
  change (2 ^ 4) with 16. split.
  - apply Z.div_pos; lia.
  - apply Z.div_lt_upper_bound; lia.
Qed.

Lemma land15_nibble v : 0 <= Z.land v 0x0f < 16.
Proof.
  change 0x0f with (Z.ones 4). rewrite Z.land_ones by lia.
  apply Z.mod_pos_bound. reflexivity.
Qed.

Lemma EncodeToString_length src :
  String.length (hex.EncodeToString src) = (2 * List.length src)%nat.
Proof. induction src as [|v src IH]; simpl; [reflexivity|]. rewrite IH. lia. Qed.

Lemma EncodeToString_lower_hex src :
  Forall is_byte src -> all_chars is_lower_hex (hex.EncodeToString src) = true.
Proof.
  induction 1 as [|v src Hv Hsrc IH]; simpl; [reflexivity|].
  rewrite (digit_lower_hex _ (shiftr4_nibble v Hv)).
  rewrite (digit_lower_hex _ (land15_nibble v)). exact IH.
Qed.

Lemma lower_hex_is_not_dollar c : is_lower_hex c = true -> is_not "$" c = true.
Proof.
  unfold is_lower_hex, is_not. simpl.
  destruct (Ascii.eqb_spec c "$") as [->|]; [discriminate | reflexivity].
Qed.

Lemma hex_char_is_not_dollar c : is_hex_char c = true -> is_not "$" c = true.
Proof.
  unfold is_hex_char, is_not. simpl.
  destruct (Ascii.eqb_spec c "$") as [->|]; [discriminate | reflexivity].
Qed.

Lemma digit_is_not_dollar c : is_digit c = true -> is_not "$" c = true.
Proof.
  unfold is_digit, is_not. simpl.
  destruct (Ascii.eqb_spec c "$") as [->|]; [discriminate | reflexivity].
Qed.

(** ** Hex decoding *)

Lemma string_pair_ind (P : string -> Prop) :
  P EmptyString ->
  (forall c, P (String c EmptyString)) ->
  (forall p q s, P s -> P (String p (String q s))) ->
  forall s, P s.
Proof.
  intros H0 H1 H2. fix IH 1. intros [|p [|q s]].
  - exact H0.
  - apply H1.
  - apply H2, IH.
Qed.

(** The facts about one character are checked on all 256 of them. *)
Ltac all_ascii c := destruct c as [[] [] [] [] [] [] [] []].

Lemma reverseHexTable_invalid c :
  (hex.reverseHexTable c >? 0x0f) = negb (is_hex_char c).
Proof. all_ascii c; reflexivity. Qed.

Lemma reverseHexTable_hexval c :
  is_hex_char c = true -> hex.reverseHexTable c = hexval c.
Proof. all_ascii c; intros H; try discriminate H; reflexivity. Qed.

Lemma hexval_nibble c : 0 <= hexval c < 16.
Proof. all_ascii c; vm_compute; split; congruence. Qed.

Lemma digit_hexval c : is_hex_char c = true -> hex.digit (hexval c) = lower c.
Proof. all_ascii c; intros H; try discriminate H; reflexivity. Qed.

Lemma lower_fixes_lower_hex c : is_lower_hex c = true -> lower c = c.
Proof. all_ascii c; intros H; try discriminate H; reflexivity. Qed.

Lemma nibbles_lor a b :
  0 <= a < 16 -> 0 <= b < 16 -> Z.lor (Z.shiftl a 4) b = 16 * a + b.
Proof.
  intros Ha Hb. rewrite Z.shiftl_mul_pow2 by lia. change (2 ^ 4) with 16.
  rewrite <- Z.lxor_lor.
  - rewrite <- Z.add_nocarry_lxor; [lia|].
    apply Z.bits_inj'. intros n Hn. rewrite Z.land_spec, Z.bits_0.
    destruct (Z.lt_ge_cases n 4) as [Hlt|Hge].
    + replace (a * 16) with (a * 2 ^ 4) by reflexivity.
      rewrite Z.mul_pow2_bits_low by lia. reflexivity.
    + replace b with (b mod 2 ^ 4) by (apply Z.mod_small; simpl; lia).
      rewrite Z.mod_pow2_bits_high by lia. apply andb_false_r.
  - apply Z.bits_inj'. intros n Hn. rewrite Z.land_spec, Z.bits_0.
    destruct (Z.lt_ge_cases n 4) as [Hlt|Hge].
    + replace (a * 16) with (a * 2 ^ 4) by reflexivity.
      rewrite Z.mul_pow2_bits_low by lia. reflexivity.
    + replace b with (b mod 2 ^ 4) by (apply Z.mod_small; simpl; lia).
      rewrite Z.mod_pow2_bits_high by lia. apply andb_false_r.
Qed.

Lemma valid_hex_pair p q s :
  valid_hex (String p (String q s))
  = is_hex_char p && is_hex_char q && valid_hex s.
Proof.
  unfold valid_hex. cbn [String.length all_chars Nat.even].
  destruct (is_hex_char p), (is_hex_char q), (Nat.even (String.length s));
    reflexivity.
Qed.

(** [hex.DecodeString] succeeds on the valid hex strings and on no other,
    and yields the bytes they stand for. *)
Lemma DecodeString_valid s :
  valid_hex s = true -> hex.DecodeString s = Ok (unhex s).
Proof.
  unfold hex.DecodeString.
  induction s as [|c|p q s IH] using string_pair_ind; intros Hv.
  - reflexivity.
  - discriminate Hv.
  - rewrite valid_hex_pair, !andb_true_iff in Hv. destruct Hv as [[Hp Hq] Hs].
    cbn [hex.Decode unhex].
    rewrite !reverseHexTable_invalid, Hp, Hq. cbn [negb].
    rewrite (IH Hs), !reverseHexTable_hexval by assumption.
    rewrite nibbles_lor by apply hexval_nibble. reflexivity.
Qed.

Lemma DecodeString_invalid s :
  valid_hex s = false -> exists e, hex.DecodeString s = Err e.
Proof.
  unfold hex.DecodeString.
  induction s as [|c|p q s IH] using string_pair_ind; intros Hv.
  - discriminate Hv.
  - cbn [hex.Decode]. destruct (hex.reverseHexTable c >? 0x0f); eauto.
  - rewrite valid_hex_pair in Hv. cbn [hex.Decode].
    rewrite !reverseHexTable_invalid.
    destruct (is_hex_char p); cbn [negb andb] in *; [|eauto].
    destruct (is_hex_char q); cbn [negb andb] in *; [|eauto].
    destruct (IH Hv) as [e ->]. eauto.
Qed.

Lemma DecodeString_ok_iff s : is_ok (hex.DecodeString s) = valid_hex s.
Proof.
  destruct (valid_hex s) eqn:Hv.
  - now rewrite DecodeString_valid.
  - destruct (DecodeString_invalid s Hv) as [e ->]. reflexivity.
Qed.

Lemma unhex_bytes s : Forall is_byte (unhex s).
Proof.
  induction s as [|c|p q s IH] using string_pair_ind; cbn [unhex];
    constructor; [|exact IH].
  pose proof (hexval_nibble p). pose proof (hexval_nibble q).
  unfold is_byte. lia.
Qed.

(** Encoding the decoded bytes gives the string back in lower case. *)
Lemma EncodeToString_unhex s :
  valid_hex s = true -> hex.EncodeToString (unhex s) = ToLower s.
Proof.
  induction s as [|c|p q s IH] using string_pair_ind; intros Hv.
  - reflexivity.
  - discriminate Hv.
  - rewrite valid_hex_pair, !andb_true_iff in Hv. destruct Hv as [[Hp Hq] Hs].
    cbn [unhex hex.EncodeToString ToLower]. rewrite (IH Hs).
    pose proof (hexval_nibble p) as Bp. pose proof (hexval_nibble q) as Bq.
    rewrite <- (digit_hexval p Hp), <- (digit_hexval q Hq).
    replace (Z.shiftr (16 * hexval p + hexval q) 4) with (hexval p).
    2:{ rewrite Z.shiftr_div_pow2 by lia. change (2 ^ 4) with 16.
        apply Z.div_unique with (r := hexval q); lia. }
    replace (Z.land (16 * hexval p + hexval q) 0x0f) with (hexval q).
    2:{ change 0x0f with (Z.ones 4). rewrite Z.land_ones by lia.
        change (2 ^ 4) with 16.
        apply Z.mod_unique with (q := hexval p); lia. }
    reflexivity.
Qed.

Lemma ToLower_id s : all_chars is_lower_hex s = true -> ToLower s = s.
Proof.
  induction s as [|c s IH]; simpl; [reflexivity|].
  rewrite andb_true_iff. intros [Hc Hs].
  now rewrite (lower_fixes_lower_hex c Hc), (IH Hs).
Qed.

Lemma valid_hex_not_dollar s :
  valid_hex s = true -> all_chars (is_not "$") s = true.
Proof.
  unfold valid_hex. rewrite andb_true_iff. intros [_ H].
  exact (all_chars_weaken _ _ s hex_char_is_not_dollar H).
Qed.

(** ** [strings.Split] *)

Lemma Split_not_nil s sep : strings.Split s sep <> [].
Proof.
  destruct s as [|c s]; simpl; [discriminate|].
  destruct (Ascii.eqb c sep); [discriminate|].
  destruct (strings.Split s sep); discriminate.
Qed.

(** A string without the separator is its only field. *)
Lemma Split_whole s sep :
  all_chars (is_not sep) s = true -> strings.Split s sep = [s].
Proof.
  induction s as [|c s IH]; simpl; [reflexivity|].
  unfold is_not at 1. rewrite andb_true_iff, negb_true_iff.
  intros [Hc Hs]. now rewrite Hc, (IH Hs).
Qed.

(** The first field ends at the first separator. *)
Lemma Split_app a b sep :
  all_chars (is_not sep) a = true ->
  strings.Split (a ++ String sep b) sep = a :: strings.Split b sep.
Proof.
  induction a as [|c a IH]; simpl.
  - now rewrite Ascii.eqb_refl.
  - unfold is_not at 1. rewrite andb_true_iff, negb_true_iff.
    intros [Hc Ha]. now rewrite Hc, (IH Ha).
Qed.

(** No field holds the separator. *)
Lemma Split_fields s sep :
  Forall (fun f => all_chars (is_not sep) f = true) (strings.Split s sep).
Proof.
  induction s as [|c s IH]; simpl.
  - repeat constructor.
  - destruct (Ascii.eqb c sep) eqn:Hc.
    + constructor; [reflexivity | exact IH].
    + destruct (strings.Split s sep) as [|p ps].
      * repeat constructor. simpl. unfold is_not. now rewrite Hc.
      * inversion IH; subst. constructor; [|assumption].
        simpl. unfold is_not at 1. now rewrite Hc.
Qed.

Lemma Split_Join fields sep :
  fields <> [] ->
  Forall (fun f => all_chars (is_not sep) f = true) fields ->
  strings.Split (Join fields sep) sep = fields.
Proof.
  intros Hne Hall. induction Hall as [|f fs Hf Hfs IH]; [congruence|].
  destruct fs as [|g fs].
  - simpl. now apply Split_whole.
  - change (Join (f :: g :: fs) sep)
      with (f ++ String sep (Join (g :: fs) sep))%string.
    rewrite Split_app by assumption. f_equal. apply IH. discriminate.
Qed.

Lemma Join_Split s sep : Join (strings.Split s sep) sep = s.
Proof.
  induction s as [|c s IH]; simpl; [reflexivity|].
  destruct (Ascii.eqb_spec c sep) as [->|Hc].
  - pose proof (Split_not_nil s sep) as Hne.
    destruct (strings.Split s sep) as [|p ps] eqn:E; [congruence|].
    change (Join (EmptyString :: p :: ps) sep)
      with (String sep (Join (p :: ps) sep)).
    now rewrite IH.
  - pose proof (Split_not_nil s sep) as Hne.
    destruct (strings.Split s sep) as [|p ps] eqn:E; [congruence|].
    destruct ps as [|p' ps].
    + simpl in *. now rewrite IH.
    + change (Join (String c p :: p' :: ps) sep)
        with (String c (p ++ String sep (Join (p' :: ps) sep))%string).
      change (Join (p :: p' :: ps) sep)
        with (p ++ String sep (Join (p' :: ps) sep))%string in IH.
      now rewrite IH.
Qed.

(** ** [strconv.Atoi] *)

Lemma in_int_range_true n :
  - 9223372036854775808 <= n < 9223372036854775808 -> in_int_range n = true.
Proof.
  intros H. unfold in_int_range. rewrite andb_true_iff, Z.leb_le, Z.ltb_lt.
  change (2 ^ 63) with 9223372036854775808. lia.
Qed.

Lemma in_int_range_false n :
  n < - 9223372036854775808 \/ 9223372036854775808 <= n ->
  in_int_range n = false.
Proof.
  intros H. unfold in_int_range. rewrite andb_false_iff, Z.leb_gt, Z.ltb_ge.
  change (2 ^ 63) with 9223372036854775808. lia.
Qed.

Lemma digit_char_range c :
  (48 <=? byte_of_ascii c) && (byte_of_ascii c <=? 57) = is_digit c.
Proof. all_ascii c; reflexivity. Qed.

Lemma digit_char_fast c :
  ((byte_of_ascii c - 48) mod 256 >? 9) = negb (is_digit c).
Proof. all_ascii c; reflexivity. Qed.

Lemma digit_char_value c :
  is_digit c = true ->
  (byte_of_ascii c - 48) mod 256 = byte_of_ascii c - 48
  /\ 0 <= byte_of_ascii c - 48 <= 9.
Proof.
  all_ascii c; intros H; try discriminate H; vm_compute; intuition congruence.
Qed.

Lemma Atoi_fast_digits s : forall n,
  strconv.Atoi_fast n s
  = if all_chars is_digit s then Some (decimal_from n s) else None.
Proof.
  induction s as [|c s IH]; intros n; cbn [strconv.Atoi_fast all_chars decimal_from].
  - reflexivity.
  - rewrite digit_char_fast. destruct (is_digit c) eqn:Hc; cbn [negb andb].
    + rewrite IH. destruct (digit_char_value c Hc) as [-> _]. reflexivity.
    + reflexivity.
Qed.

Lemma decimal_from_bounds s : forall n,
  all_chars is_digit s = true -> 0 <= n ->
  n * 10 ^ Z.of_nat (String.length s) <= decimal_from n s
  < (n + 1) * 10 ^ Z.of_nat (String.length s).
Proof.
  induction s as [|c s IH]; intros n Hs Hn.
  - cbn [decimal_from String.length]. change (10 ^ Z.of_nat 0) with 1. lia.
  - cbn [all_chars] in Hs. rewrite andb_true_iff in Hs. destruct Hs as [Hc Hs].
    destruct (digit_char_value c Hc) as [_ Hd].
    cbn [decimal_from String.length].
    specialize (IH (n * 10 + (byte_of_ascii c - 48)) Hs ltac:(lia)).
    rewrite Nat2Z.inj_succ, Z.pow_succ_r by lia.
    assert (0 < 10 ^ Z.of_nat (String.length s)) by (apply Z.pow_pos_nonneg; lia).
    nia.
Qed.

Lemma decimal_from_ge s n :
  all_chars is_digit s = true -> 0 <= n -> n <= decimal_from n s.
Proof.
  intros Hs Hn. pose proof (decimal_from_bounds s n Hs Hn) as [H _].
  assert (0 < 10 ^ Z.of_nat (String.length s)) by (apply Z.pow_pos_nonneg; lia).
  nia.
Qed.

Lemma ParseUint_loop_digits s0 s : forall n,
  all_chars is_digit s = true -> 0 <= n <= strconv.maxUint64 ->
  strconv.ParseUint_loop s0 n s
  = if decimal_from n s <=? strconv.maxUint64 then Ok (decimal_from n s)
    else Err (strconv.rangeError "ParseUint" s0).
Proof.
  induction s as [|c s IH]; intros n Hs Hn.
  - cbn [strconv.ParseUint_loop decimal_from].
    destruct (Z.leb_spec n strconv.maxUint64); [reflexivity|lia].
  - cbn [all_chars] in Hs. rewrite andb_true_iff in Hs. destruct Hs as [Hc Hs].
    destruct (digit_char_value c Hc) as [_ Hd].
    cbn [strconv.ParseUint_loop decimal_from].
    rewrite digit_char_range, Hc.
    set (d := byte_of_ascii c - 48) in *.
    pose proof (decimal_from_ge s (n * 10 + d) Hs ltac:(lia)) as Hge.
    unfold strconv.maxUint64 in *.
    change (2 ^ 64 - 1) with 18446744073709551615 in *.
    change (18446744073709551615 / 10 + 1) with 1844674407370955162.
    change (2 ^ 64) with 18446744073709551616.
    destruct (Z.geb_spec n 1844674407370955162) as [Hcut|Hcut].
    + destruct (Z.leb_spec (decimal_from (n * 10 + d) s) 18446744073709551615);
        [lia | reflexivity].
    + rewrite (Z.mod_small (n * 10)) by lia.
      destruct (Z_lt_le_dec (n * 10 + d) 18446744073709551616) as [Hfit|Hover].
      * rewrite (Z.mod_small (n * 10 + d)) by lia.
        destruct (Z.ltb_spec (n * 10 + d) (n * 10)); [lia|].
        destruct (Z.gtb_spec (n * 10 + d) 18446744073709551615); [lia|].
        cbn [orb]. apply IH; [assumption|lia].
      * replace ((n * 10 + d) mod 18446744073709551616)
          with (n * 10 + d - 18446744073709551616).
        2:{ apply Z.mod_unique with (q := 1); lia. }
        destruct (Z.ltb_spec (n * 10 + d - 18446744073709551616) (n * 10));
          [|lia].
        cbn [orb].
        destruct (Z.leb_spec (decimal_from (n * 10 + d) s) 18446744073709551615);
          [lia | reflexivity].
Qed.

Lemma ParseUint_loop_nondigit s0 s : forall n,
  all_chars is_digit s = false ->
  exists e, strconv.ParseUint_loop s0 n s = Err e.
Proof.
  induction s as [|c s IH]; intros n Hs; [discriminate Hs|].
  cbn [all_chars] in Hs. cbn [strconv.ParseUint_loop].
  rewrite digit_char_range.
  destruct (is_digit c); cbn [andb] in Hs; [|eauto].
  destruct (_ >=? _); [eauto|].
  destruct (_ || _); [eauto|]. now apply IH.
Qed.

Lemma ParseUint_numeral s :
  is_numeral s = true ->
  strconv.ParseUint s
  = if decimal s <=? strconv.maxUint64 then Ok (decimal s)
    else Err (strconv.rangeError "ParseUint" s).
Proof.
  destruct s as [|c s]; [discriminate|]. intros Hs.
  unfold strconv.ParseUint, decimal.
  apply ParseUint_loop_digits; [exact Hs | unfold strconv.maxUint64; simpl; lia].
Qed.

Lemma ParseUint_not_numeral s :
  is_numeral s = false -> exists e, strconv.ParseUint s = Err e.
Proof.
  destruct s as [|c s]; intros Hs.
  - cbn. eauto.
  - unfold strconv.ParseUint. now apply ParseUint_loop_nondigit.
Qed.

Lemma decimal_nonneg s : all_chars is_digit s = true -> 0 <= decimal s.
Proof. intros Hs. apply decimal_from_ge; [assumption|lia]. Qed.

Lemma is_numeral_digits s : is_numeral s = true -> all_chars is_digit s = true.
Proof. destruct s; [discriminate|trivial]. Qed.

Lemma ParseInt_range_numeral s0 (neg : bool) s1 :
  agrees
    (if is_numeral s1 then
       let n := if neg then - decimal s1 else decimal s1 in
       if in_int_range n then Some n else None
     else None)
    (strconv.ParseInt_range s0 neg (strconv.ParseUint s1)).
Proof.
  unfold strconv.ParseInt_range. cbn zeta.
  change (2 ^ (strconv.IntSize - 1)) with 9223372036854775808.
  destruct (is_numeral s1) eqn:Hs.
  - pose proof (decimal_nonneg s1 (is_numeral_digits s1 Hs)) as Hpos.
    rewrite (ParseUint_numeral s1 Hs). unfold strconv.maxUint64.
    change (2 ^ 64 - 1) with 18446744073709551615.
    destruct (Z.leb_spec (decimal s1) 18446744073709551615) as [Hfit|Hover].
    + destruct neg; cbn [negb andb].
      * destruct (Z.gtb_spec (decimal s1) 9223372036854775808).
        -- rewrite in_int_range_false by lia. cbn; eauto.
        -- rewrite in_int_range_true by lia. reflexivity.
      * destruct (Z.geb_spec (decimal s1) 9223372036854775808).
        -- rewrite in_int_range_false by lia. cbn; eauto.
        -- rewrite in_int_range_true by lia. reflexivity.
    + destruct neg; rewrite in_int_range_false by lia; cbn; eauto.
  - destruct (ParseUint_not_numeral s1 Hs) as [e ->].
    destruct e as [fn num [|]| | | | |]; cbn; eauto.
Qed.

Lemma ParseInt_spec s : agrees (decodable_int s) (strconv.ParseInt s).
Proof.
  unfold decodable_int, int_value.
  destruct s as [|c s']; [cbn; eauto|].
  cbn [strconv.ParseInt].
  destruct (Ascii.eqb_spec c "-") as [->|Hminus].
  - cbn [Ascii.eqb Bool.eqb orb].
    pose proof (ParseInt_range_numeral (String "-" s') true s') as H.
    cbn zeta in H. destruct (is_numeral s'); exact H.
  - destruct (Ascii.eqb_spec c "+") as [->|Hplus]; cbn [orb].
    + pose proof (ParseInt_range_numeral (String "+" s') false s') as H.
      cbn zeta in H. destruct (is_numeral s'); exact H.
    + pose proof (ParseInt_range_numeral (String c s') false (String c s')) as H.
      cbn zeta in H. destruct (is_numeral (String c s')); exact H.
Qed.

Lemma short_numeral_in_range s :
  all_chars is_digit s = true -> (String.length s <= 18)%nat ->
  0 <= decimal s < 2 ^ 63.
Proof.
  intros Hs Hlen. pose proof (decimal_from_bounds s 0 Hs ltac:(lia)) as [Hlo Hhi].
  fold (decimal s) in *.
  assert (10 ^ Z.of_nat (String.length s) <= 10 ^ 18)
    by (apply Z.pow_le_mono_r; lia).
  change (10 ^ 18) with 1000000000000000000 in *.
  change (2 ^ 63) with 9223372036854775808. lia.
Qed.

(** [strconv.Atoi] returns the value of every decodable integer and fails on
    every other string. *)
Lemma Atoi_spec s : agrees (decodable_int s) (strconv.Atoi s).
Proof.
  unfold strconv.Atoi.
  destruct ((0 <? Z.of_nat (String.length s))
            && (Z.of_nat (String.length s) <? 19)) eqn:Hfast.
  - rewrite andb_true_iff, Z.ltb_lt, Z.ltb_lt in Hfast.
    destruct s as [|c s']; [cbn in Hfast; lia|].
    cbn [String.length] in Hfast.
    unfold decodable_int, int_value.
    destruct (Ascii.eqb_spec c "-") as [->|Hminus]; cbn [orb andb].
    + destruct s' as [|d s'']; [cbn; eauto|].
      destruct (Z.ltb_spec (Z.of_nat (String.length (String d s''))) 1) as [Hl|_];
        [cbn [String.length] in Hl; lia|].
      rewrite Atoi_fast_digits. cbn [is_numeral].
      destruct (all_chars is_digit (String d s'')) eqn:Hd; [|cbn; eauto].
      pose proof (short_numeral_in_range _ Hd ltac:(lia)) as Hr.
      fold (decimal (String d s'')).
      change (2 ^ 63) with 9223372036854775808 in Hr.
      rewrite in_int_range_true by lia. reflexivity.
    + destruct (Ascii.eqb_spec c "+") as [->|Hplus]; cbn [orb andb].
      * destruct s' as [|d s'']; [cbn; eauto|].
        destruct (Z.ltb_spec (Z.of_nat (String.length (String d s''))) 1) as [Hl|_];
          [cbn [String.length] in Hl; lia|].
        rewrite Atoi_fast_digits. cbn [is_numeral].
        destruct (all_chars is_digit (String d s'')) eqn:Hd; [|cbn; eauto].
        pose proof (short_numeral_in_range _ Hd ltac:(lia)) as Hr.
        fold (decimal (String d s'')).
        change (2 ^ 63) with 9223372036854775808 in Hr.
        rewrite in_int_range_true by lia. reflexivity.
      * rewrite Atoi_fast_digits. cbn [is_numeral].
        destruct (all_chars is_digit (String c s')) eqn:Hd; [|cbn; eauto].
        pose proof (short_numeral_in_range _ Hd ltac:(cbn [String.length]; lia))
          as Hr.
        fold (decimal (String c s')).
        change (2 ^ 63) with 9223372036854775808 in Hr.
        rewrite in_int_range_true by lia. reflexivity.
  - pose proof (ParseInt_spec s) as H.
    destruct (decodable_int s) as [n|]; cbn [agrees] in *.
    + now rewrite H.
    + destruct H as [e ->]. destruct e; eauto.
Qed.

(** ** The modern challenge on the wire *)

Lemma numeral_not_dollar s :
  is_numeral s = true -> all_chars (is_not "$") s = true.
Proof.
  intros H. apply is_numeral_digits in H.
  exact (all_chars_weaken _ _ s digit_is_not_dollar H).
Qed.

Lemma numeral_decodable s :
  is_numeral s = true -> decimal s < 2 ^ 63 ->
  decodable_int s = Some (decimal s).
Proof.
  intros Hn Hr. unfold decodable_int, int_value.
  destruct s as [|c s']; [discriminate|].
  assert (Hc : is_digit c = true).
  { cbn [is_numeral all_chars] in Hn. now apply andb_true_iff in Hn. }
  destruct (Ascii.eqb_spec c "-") as [->|_]; [discriminate Hc|].
  destruct (Ascii.eqb_spec c "+") as [->|_]; [discriminate Hc|].
  rewrite Hn.
  pose proof (decimal_nonneg _ (is_numeral_digits _ Hn)).
  change (2 ^ 63) with 9223372036854775808 in Hr.
  now rewrite in_int_range_true by lia.
Qed.

Lemma Split_modern_challenge iter1 salt1 iter2 salt2 :
  all_chars (is_not "$") iter1 = true ->
  all_chars (is_not "$") salt1 = true ->
  all_chars (is_not "$") iter2 = true ->
  all_chars (is_not "$") salt2 = true ->
  strings.Split (modern_challenge iter1 salt1 iter2 salt2) "$"
  = ["2"; iter1; salt1; iter2; salt2]%string.
Proof.
  intros H1 H2 H3 H4. unfold modern_challenge.
  change ("2$" ++ iter1 ++ "$" ++ salt1 ++ "$" ++ iter2 ++ "$" ++ salt2)%string
    with ("2" ++ String "$" (iter1 ++ String "$" (salt1 ++ String "$"
            (iter2 ++ String "$" salt2))))%string.
  rewrite Split_app by reflexivity.
  rewrite !Split_app by assumption.
  now rewrite Split_whole by assumption.
Qed.

(** The response of [calculatePBKDF2Response] in terms of the fields of the
    challenge: the fifth field as it stands, a dollar, the hex of the second
    derived key.  Fields after the fifth play no part, and neither does the
    first. *)
Lemma calculatePBKDF2Response_fields challenge password f0 f1 f2 f3 f4 rest n1 n2 :
  strings.Split challenge "$" = f0 :: f1 :: f2 :: f3 :: f4 :: rest ->
  decodable_int f1 = Some n1 -> valid_hex f2 = true ->
  decodable_int f3 = Some n2 -> valid_hex f4 = true ->
  calculatePBKDF2Response challenge password
  = Ok (f4 ++ "$" ++ hex.EncodeToString
          (KDF (KDF (of_string password) (unhex f2) n1) (unhex f4) n2))%string.
Proof.
  intros Hsplit H1 H2 H3 H4. unfold calculatePBKDF2Response.
  rewrite Hsplit. cbn [List.length nth].
  destruct (Z.ltb_spec
              (Z.of_nat (S (S (S (S (S (List.length rest))))))) 5); [lia|].
  pose proof (Atoi_spec f1) as A1. rewrite H1 in A1. cbn [agrees] in A1.
  pose proof (Atoi_spec f3) as A3. rewrite H3 in A3. cbn [agrees] in A3.
  rewrite A1, A3, (DecodeString_valid f2 H2), (DecodeString_valid f4 H4).
  reflexivity.
Qed.

(** ** What a run of the handshake returns *)

Section Runs.

Variable w : World.
Variable cfg : config.Config.

Local Open Scope string_scope.

Lemma sendResponse_run challengeResponse st :
  sendResponse w cfg challengeResponse st
  = Some (submission w cfg challengeResponse,
          mkState (session st)
                  (trace st ++ [submit_event cfg challengeResponse])%list).
Proof.
  unfold submission, sendResponse, bindM, emit, ret, submit_event.
  cbn [session trace].
  destruct (PostForm w _ _) as [resp|e]; [|reflexivity].
  destruct (Body resp) as [body|e]; [|reflexivity].
  destruct (xml_Unmarshal w body) as [loginResp|e]; reflexivity.
Qed.

Lemma solveChallenge_run si tr :
  solveChallenge w cfg (mkState (Some si) tr)
  = Some
      match response_stage cfg si with
      | Err e => (Some e, mkState (Some si) (tr ++ [algorithm_log si])%list)
      | Ok resp =>
          let tr' := (tr ++ algorithm_log si :: backoff si
                         ++ [submit_event cfg resp])%list in
          match submission w cfg resp with
          | Err e => (Some (Wrap "failed to login" e), mkState (Some si) tr')
          | Ok sid =>
              (if is_sentinel sid then Some (rejected sid) else None,
               mkState (Some (with_SID sid si)) tr')
          end
      end.
Proof.
  unfold response_stage, algorithm_log, backoff.
  cbv [solveChallenge bindM deref logger emit ret assign session trace].
  destruct (IsPBKDF2 si);
    [destruct (calculatePBKDF2Response _ _) as [resp|e]; cbn [wrap_err];
     [|reflexivity] |];
    (destruct (BlockTime si >? 0)%Z; rewrite sendResponse_run;
     cbn [session trace]; rewrite <- !app_assoc; cbn [app];
     (destruct (submission _ _ _) as [sid|e]; [|reflexivity]);
     cbn [SID with_SID]; unfold is_sentinel, rejected;
     destruct (_ || _); reflexivity).
Qed.

(** A failed fetch ends the attempt before the client's session is
    replaced. *)
Lemma Login_fetch_failed s0 tr si0 e :
  httpread_XML w (GetLoginURL cfg) = (si0, Some e) ->
  Login w cfg (mkState s0 tr)
  = Some (Some (Wrap "unable to obtain login challenge" e),
          mkState s0 (tr ++ [fetch_event cfg])%list).
Proof.
  intros Hget.
  cbv [Login obtainChallenge bindM emit ret session trace].
  rewrite Hget. reflexivity.
Qed.

(** A malformed modern challenge ends the attempt at the response stage. *)
Lemma Login_response_failed s0 tr si0 e :
  httpread_XML w (GetLoginURL cfg) = (si0, None) ->
  response_stage cfg (fetched si0) = Err e ->
  Login w cfg (mkState s0 tr)
  = Some (Some (Wrap "unable to solve login challenge" e),
          mkState (Some (fetched si0))
            (tr ++ [fetch_event cfg; challenge_log (fetched si0);
                    algorithm_log (fetched si0)])%list).
Proof.
  intros Hget Hresp.
  cbv [Login obtainChallenge bindM emit ret assign deref logger session trace].
  rewrite Hget. cbv [bindM]. fold (fetched si0).
  rewrite solveChallenge_run, Hresp.
  rewrite <- !app_assoc. reflexivity.
Qed.

Lemma Login_submit_failed s0 tr si0 resp e :
  httpread_XML w (GetLoginURL cfg) = (si0, None) ->
  response_stage cfg (fetched si0) = Ok resp ->
  submission w cfg resp = Err e ->
  Login w cfg (mkState s0 tr)
  = Some (Some (Wrap "unable to solve login challenge"
                  (Wrap "failed to login" e)),
          mkState (Some (fetched si0))
            (tr ++ submitted_trace cfg (fetched si0) resp)%list).
Proof.
  intros Hget Hresp Hsub.
  cbv [Login obtainChallenge bindM emit ret assign deref logger session trace].
  rewrite Hget. cbv [bindM]. fold (fetched si0).
  rewrite solveChallenge_run, Hresp. cbv zeta. rewrite Hsub.
  unfold submitted_trace. rewrite <- !app_assoc. reflexivity.
Qed.

Lemma Login_submitted s0 tr si0 resp sid :
  httpread_XML w (GetLoginURL cfg) = (si0, None) ->
  response_stage cfg (fetched si0) = Ok resp ->
  submission w cfg resp = Ok sid ->
  Login w cfg (mkState s0 tr)
  = Some
      (if is_sentinel sid then
         (Some (Wrap "unable to solve login challenge" (rejected sid)),
          mkState (Some (with_SID sid (fetched si0)))
            (tr ++ submitted_trace cfg (fetched si0) resp)%list)
       else
         (None,
          mkState (Some (with_SID sid (fetched si0)))
            (tr ++ submitted_trace cfg (fetched si0) resp ++ [success_log])%list)).
Proof.
  intros Hget Hresp Hsub.
  cbv [Login obtainChallenge bindM emit ret assign deref logger session trace].
  rewrite Hget. cbv [bindM]. fold (fetched si0).
  rewrite solveChallenge_run, Hresp. cbv zeta. rewrite Hsub.
  unfold submitted_trace.
  destruct (is_sentinel sid); cbn [session trace];
    rewrite <- !app_assoc; reflexivity.
Qed.

Lemma is_sentinel_false sid :
  is_sentinel sid = false
  <-> sid <> EmptyString /\ sid <> "0000000000000000".
Proof.
  unfold is_sentinel. rewrite orb_false_iff, !String.eqb_neq. tauto.
Qed.

End Runs.

Local Open Scope string_scope.

(** ** The modern response *)

Lemma well_formed_parts iter1 salt1 iter2 salt2 :
  well_formed iter1 salt1 iter2 salt2 = true ->
  (is_numeral iter1 = true /\ 1 <= decimal iter1 < 2 ^ 63) /\
  valid_hex salt1 = true /\
  (is_numeral iter2 = true /\ 1 <= decimal iter2 < 2 ^ 63) /\
  valid_hex salt2 = true.
Proof.
  unfold well_formed, positive_count.
  rewrite !andb_true_iff, !Z.leb_le, !Z.ltb_lt. tauto.
Qed.

Lemma modern_response iter1 salt1 iter2 salt2 password :
  well_formed iter1 salt1 iter2 salt2 = true ->
  calculatePBKDF2Response (modern_challenge iter1 salt1 iter2 salt2) password
  = Ok (salt2 ++ "$" ++ hex.EncodeToString
          (KDF (KDF (of_string password) (unhex salt1) (decimal iter1))
               (unhex salt2) (decimal iter2))).
Proof.
  intros Hwf. apply well_formed_parts in Hwf.
  destruct Hwf as [[Hi1 Hr1] [Hs1 [[Hi2 Hr2] Hs2]]].
  apply calculatePBKDF2Response_fields
    with (f0 := "2") (f1 := iter1) (f3 := iter2) (rest := []).
  - apply Split_modern_challenge;
      auto using numeral_not_dollar, valid_hex_not_dollar.
  - apply numeral_decodable; [assumption|lia].
  - assumption.
  - apply numeral_decodable; [assumption|lia].
  - assumption.
Qed.

Lemma HasPrefix_app a b s :
  strings.HasPrefix (a ++ s) (a ++ b) = strings.HasPrefix s b.
Proof.
  induction a as [|c a IH]; simpl; [reflexivity|].
  now rewrite Ascii.eqb_refl.
Qed.

(** C1: for a well-formed modern challenge and any password the part of the
    response after the first dollar is the lowercase hex of
    KDF(KDF(password, salt1, iter1), salt2, iter2); the second stage takes
    the 32 raw bytes of the first derived key as its password, which are not
    the bytes of their hex encoding; the part is 64 lowercase hex characters
    and holds no dollar. *)
Theorem modern_response_digest iter1 salt1 iter2 salt2 password :
  well_formed iter1 salt1 iter2 salt2 = true ->
  exists response,
    calculatePBKDF2Response (modern_challenge iter1 salt1 iter2 salt2) password
    = Ok response /\
    let hash1 := KDF (of_string password) (unhex salt1) (decimal iter1) in
    let hash2 := KDF hash1 (unhex salt2) (decimal iter2) in
    let digest := snd (cut response "$") in
    digest = hex.EncodeToString hash2 /\
    List.length hash1 = 32%nat /\
    hash1 <> of_string (hex.EncodeToString hash1) /\
    String.length digest = 64%nat /\
    all_chars is_lower_hex digest = true /\
    all_chars (is_not "$") digest = true.
Proof.
  intros Hwf. eexists. split; [apply (modern_response _ _ _ _ _ Hwf)|].
  apply well_formed_parts in Hwf. destruct Hwf as [_ [_ [_ Hs2]]].
  cbv zeta.
  change (salt2 ++ "$" ++ ?h) with (salt2 ++ String "$" h).
  rewrite cut_app by (now apply valid_hex_not_dollar). cbn [snd].
  unfold KDF. split; [reflexivity|]. split; [apply Key_sha256_length|].
  split; [|split; [|split]].
  - intros Heq. apply (f_equal (@List.length Z)) in Heq.
    rewrite of_string_length, EncodeToString_length, Key_sha256_length in Heq.
    discriminate Heq.
  - rewrite EncodeToString_length, Key_sha256_length. reflexivity.
  - apply EncodeToString_lower_hex, Key_sha256_bytes.
  - apply all_chars_weaken with (p := is_lower_hex).
    + exact lower_hex_is_not_dollar.
    + apply EncodeToString_lower_hex, Key_sha256_bytes.
Qed.

Lemma modern_response_digest_witness :
  well_formed "3" "5A1B" "2" "7C3D" = true /\
  exists response,
    calculatePBKDF2Response (modern_challenge "3" "5A1B" "2" "7C3D") "secret"
    = Ok response /\
    let hash1 := KDF (of_string "secret") (unhex "5A1B") (decimal "3") in
    let hash2 := KDF hash1 (unhex "7C3D") (decimal "2") in
    let digest := snd (cut response "$") in
    digest = hex.EncodeToString hash2 /\
    List.length hash1 = 32%nat /\
    hash1 <> of_string (hex.EncodeToString hash1) /\
    String.length digest = 64%nat /\
    all_chars is_lower_hex digest = true /\
    all_chars (is_not "$") digest = true.
Proof.
  split; [reflexivity|].
  apply (modern_response_digest "3" "5A1B" "2" "7C3D" "secret"). reflexivity.
Defined.

(** C2, as the code has it: for a well-formed modern challenge the part of
    the response before the first dollar is the salt2 field as it stands in
    the challenge, its letter case kept; the lowercase hex of the decoded
    salt2 is that field in lower case, so the two agree exactly when the
    field has no upper-case digit. *)
Theorem modern_response_salt iter1 salt1 iter2 salt2 password :
  well_formed iter1 salt1 iter2 salt2 = true ->
  exists response,
    calculatePBKDF2Response (modern_challenge iter1 salt1 iter2 salt2) password
    = Ok response /\
    fst (cut response "$") = salt2 /\
    strings.HasPrefix response (salt2 ++ "$") = true /\
    hex.EncodeToString (unhex salt2) = ToLower salt2 /\
    (fst (cut response "$") = hex.EncodeToString (unhex salt2)
     <-> ToLower salt2 = salt2).
Proof.
  intros Hwf. eexists. split; [apply (modern_response _ _ _ _ _ Hwf)|].
  apply well_formed_parts in Hwf. destruct Hwf as [_ [_ [_ Hs2]]].
  change (salt2 ++ "$" ++ ?h) with (salt2 ++ String "$" h).
  rewrite cut_app by (now apply valid_hex_not_dollar). cbn [fst].
  rewrite (EncodeToString_unhex salt2 Hs2). repeat split.
  - now rewrite HasPrefix_app.
  - congruence.
  - congruence.
Qed.

Lemma modern_response_salt_witness :
  well_formed "3" "5A1B" "2" "7C3D" = true /\
  exists response,
    calculatePBKDF2Response (modern_challenge "3" "5A1B" "2" "7C3D") "secret"
    = Ok response /\
    fst (cut response "$") = "7C3D" /\
    strings.HasPrefix response ("7C3D" ++ "$") = true /\
    hex.EncodeToString (unhex "7C3D") = ToLower "7C3D" /\
    (fst (cut response "$") = hex.EncodeToString (unhex "7C3D")
     <-> ToLower "7C3D" = "7C3D").
Proof.
  split; [reflexivity|].
  apply (modern_response_salt "3" "5A1B" "2" "7C3D" "secret"). reflexivity.
Defined.

(** The scenario of C2 on the code: the response to the challenge
    [2$10000$5A1B$10000$7C3D] begins with [7C3D$], not with [7c3d$], and its
    first part is not the lowercase hex of the decoded salt2. *)
Lemma modern_response_salt_keeps_case :
  exists response,
    calculatePBKDF2Response "2$10000$5A1B$10000$7C3D" "secret" = Ok response /\
    strings.HasPrefix response "7C3D$" = true /\
    strings.HasPrefix response "7c3d$" = false /\
    hex.EncodeToString (unhex "7C3D") = "7c3d" /\
    fst (cut response "$") <> hex.EncodeToString (unhex "7C3D").
Proof.
  eexists. split.
  - apply (modern_response "10000" "5A1B" "10000" "7C3D" "secret"). reflexivity.
  - generalize (hex.EncodeToString
                  (KDF (KDF (of_string "secret") (unhex "5A1B") (decimal "10000"))
                       (unhex "7C3D") (decimal "10000"))).
    intros h. repeat split; try reflexivity. cbn. discriminate.
Qed.

(** ** The validation of the session id *)

(** C3: after a successful submission the attempt succeeds exactly when the
    returned session id is neither empty nor sixteen zeros; a rejected id is
    quoted in the error. *)
Theorem session_id_validation w client si0 resp sid :
  httpread_XML w (GetLoginURL (Config client)) = (si0, None) ->
  response_stage (Config client) (fetched si0) = Ok resp ->
  submission w (Config client) resp = Ok sid ->
  exists err client' tr,
    run_Login w client = Some (err, client', tr) /\
    (err = None <-> sid <> EmptyString /\ sid <> "0000000000000000") /\
    (err <> None ->
     err = Some (Wrap "unable to solve login challenge"
                   (Errorf ("challenge not solved, got '" ++ sid
                            ++ "' as session id, check login data")))).
Proof.
  intros Hget Hresp Hsub. unfold run_Login.
  rewrite (Login_submitted w _ _ _ si0 resp sid Hget Hresp Hsub).
  pose proof (is_sentinel_false sid) as Hs.
  destruct (is_sentinel sid); do 3 eexists; (split; [reflexivity|]); split.
  - split; [discriminate|]. intros H. apply Hs in H. discriminate H.
  - intros _. reflexivity.
  - split; [intros _; now apply Hs | reflexivity].
  - intros H. now elim H.
Qed.

Lemma session_id_validation_witness :
  (httpread_XML rejecting_device
     (GetLoginURL (Config (example_client rejecting_device)))
   = (issued rejecting_device, None) /\
   response_stage (Config (example_client rejecting_device))
     (fetched (issued rejecting_device))
   = Ok (calculateMD5Response "1234567890abcdef" "secret") /\
   submission rejecting_device (Config (example_client rejecting_device))
     (calculateMD5Response "1234567890abcdef" "secret")
   = Ok "0000000000000000") /\
  exists err client' tr,
    run_Login rejecting_device (example_client rejecting_device)
    = Some (err, client', tr) /\
    (err = None
     <-> "0000000000000000" <> EmptyString
         /\ "0000000000000000" <> "0000000000000000") /\
    (err <> None ->
     err = Some (Wrap "unable to solve login challenge"
                   (Errorf ("challenge not solved, got '" ++ "0000000000000000"
                            ++ "' as session id, check login data")))).
Proof.
  split; [split; [|split]; reflexivity|].
  apply (session_id_validation rejecting_device
           (example_client rejecting_device) (issued rejecting_device)
           (calculateMD5Response "1234567890abcdef" "secret")
           "0000000000000000");
    reflexivity.
Defined.

(** C10: once the submission has returned a session id, the client's
    session holds it, also when the id is a sentinel and the attempt fails. *)
Theorem session_id_stored w client si0 resp sid :
  httpread_XML w (GetLoginURL (Config client)) = (si0, None) ->
  response_stage (Config client) (fetched si0) = Ok resp ->
  submission w (Config client) resp = Ok sid ->
  exists err client' tr,
    run_Login w client = Some (err, client', tr) /\
    Session client' = Some (with_SID sid (fetched si0)) /\
    option_map SID (Session client') = Some sid /\
    (sid = EmptyString \/ sid = "0000000000000000" -> err <> None).
Proof.
  intros Hget Hresp Hsub. unfold run_Login.
  rewrite (Login_submitted w _ _ _ si0 resp sid Hget Hresp Hsub).
  pose proof (is_sentinel_false sid) as Hs.
  destruct (is_sentinel sid); do 3 eexists;
    (split; [reflexivity|]); cbn [Session session];
    (split; [reflexivity|]); (split; [reflexivity|]).
  - discriminate.
  - intros H. destruct Hs as [Hs _]. specialize (Hs eq_refl). tauto.
Qed.

Lemma session_id_stored_witness :
  (httpread_XML rejecting_device
     (GetLoginURL (Config (example_client rejecting_device)))
   = (issued rejecting_device, None) /\
   response_stage (Config (example_client rejecting_device))
     (fetched (issued rejecting_device))
   = Ok (calculateMD5Response "1234567890abcdef" "secret") /\
   submission rejecting_device (Config (example_client rejecting_device))
     (calculateMD5Response "1234567890abcdef" "secret")
   = Ok "0000000000000000") /\
  exists err client' tr,
    run_Login rejecting_device (example_client rejecting_device)
    = Some (err, client', tr) /\
    Session client'
    = Some (with_SID "0000000000000000" (fetched (issued rejecting_device))) /\
    option_map SID (Session client') = Some "0000000000000000" /\
    ("0000000000000000" = EmptyString
     \/ "0000000000000000" = "0000000000000000" -> err <> None).
Proof.
  split; [split; [|split]; reflexivity|].
  apply (session_id_stored rejecting_device
           (example_client rejecting_device) (issued rejecting_device)
           (calculateMD5Response "1234567890abcdef" "secret")
           "0000000000000000");
    reflexivity.
Defined.

(** ** Malformed modern challenges *)

Lemma Atoi_ok s :
  is_ok (strconv.Atoi s)
  = match decodable_int s with Some _ => true | None => false end.
Proof.
  pose proof (Atoi_spec s) as H.
  destruct (decodable_int s); cbn [agrees] in H.
  - now rewrite H.
  - destruct H as [e ->]. reflexivity.
Qed.

Lemma calculatePBKDF2Response_ok challenge password :
  is_ok (calculatePBKDF2Response challenge password) = negb (malformed challenge).
Proof.
  unfold calculatePBKDF2Response, malformed.
  set (fields := strings.Split challenge "$").
  replace (Z.of_nat (List.length fields) <? 5)%Z
    with (List.length fields <? 5)%nat.
  2:{ destruct (Nat.ltb_spec (List.length fields) 5),
        (Z.ltb_spec (Z.of_nat (List.length fields)) 5); lia || reflexivity. }
  destruct (List.length fields <? 5)%nat; [reflexivity|]. cbn [orb].
  rewrite <- !Atoi_ok, <- !DecodeString_ok_iff.
  destruct (strconv.Atoi (nth 1 fields EmptyString)); [|reflexivity].
  destruct (hex.DecodeString (nth 2 fields EmptyString)); [|reflexivity].
  destruct (strconv.Atoi (nth 3 fields EmptyString)); [|reflexivity].
  destruct (hex.DecodeString (nth 4 fields EmptyString)); reflexivity.
Qed.

(** C4: a challenge that begins with [2$] is answered with an error exactly
    when it is malformed; the error is returned to the caller of [Login],
    nothing is submitted and the legacy path is not entered. *)
Theorem malformed_challenge_fatal w client si0 :
  httpread_XML w (GetLoginURL (Config client)) = (si0, None) ->
  strings.HasPrefix (Challenge si0) "2$" = true ->
  ((exists e,
      calculatePBKDF2Response (Challenge si0)
        (Password (login (Config client))) = Err e)
   <-> malformed (Challenge si0) = true) /\
  (forall e,
     calculatePBKDF2Response (Challenge si0)
       (Password (login (Config client))) = Err e ->
     exists client',
       run_Login w client
       = Some (Some (Wrap "unable to solve login challenge"
                       (Wrap "failed to calculate PBKDF2 response" e)),
               client',
               [EvGet (GetLoginURL (Config client));
                EvLog Debug [LStr "FRITZ!Box challenge is";
                             LStr (Challenge si0)];
                EvLog Debug [LStr "PBKDF2 supported"]])).
Proof.
  intros Hget Hpre.
  set (password := Password (login (Config client))). split.
  - pose proof (calculatePBKDF2Response_ok (Challenge si0) password) as Hok.
    destruct (calculatePBKDF2Response (Challenge si0) password) as [r|e];
      cbn [is_ok] in Hok.
    + split; [intros [e He]; discriminate He|].
      intros Hm. rewrite Hm in Hok. discriminate Hok.
    + split; [intros _ | eauto].
      now destruct (malformed (Challenge si0)).
  - intros e He. unfold run_Login.
    rewrite (Login_response_failed w _ _ _ si0
               (Wrap "failed to calculate PBKDF2 response" e) Hget).
    + eexists. unfold algorithm_log, challenge_log, fetch_event, fetched.
      cbn [IsPBKDF2 Challenge with_IsPBKDF2]. rewrite Hpre. reflexivity.
    + unfold response_stage, fetched. cbn [IsPBKDF2 Challenge with_IsPBKDF2].
      rewrite Hpre. fold password. now rewrite He.
Qed.

Lemma malformed_challenge_fatal_witness :
  (httpread_XML truncated_device
     (GetLoginURL (Config (example_client truncated_device)))
   = (issued truncated_device, None) /\
   strings.HasPrefix (Challenge (issued truncated_device)) "2$" = true) /\
  ((exists e,
      calculatePBKDF2Response (Challenge (issued truncated_device))
        (Password (login (Config (example_client truncated_device)))) = Err e)
   <-> malformed (Challenge (issued truncated_device)) = true) /\
  (forall e,
     calculatePBKDF2Response (Challenge (issued truncated_device))
       (Password (login (Config (example_client truncated_device)))) = Err e ->
     exists client',
       run_Login truncated_device (example_client truncated_device)
       = Some (Some (Wrap "unable to solve login challenge"
                       (Wrap "failed to calculate PBKDF2 response" e)),
               client',
               [EvGet (GetLoginURL (Config (example_client truncated_device)));
                EvLog Debug [LStr "FRITZ!Box challenge is";
                             LStr (Challenge (issued truncated_device))];
                EvLog Debug [LStr "PBKDF2 supported"]])).
Proof.
  split; [split; reflexivity|].
  apply (malformed_challenge_fatal truncated_device
           (example_client truncated_device) (issued truncated_device));
    reflexivity.
Defined.

(** ** The legacy response *)

(** C5: the legacy response is the challenge, a dash and the lowercase hex
    of the MD5 of challenge, dash and password, the bytes of the password
    as they are; the computation has no error to return. *)
Theorem legacy_response challenge password :
  calculateMD5Response challenge password
  = challenge ++ "-"
    ++ hex.EncodeToString
         (md5.Sum (of_string challenge ++ 45 :: of_string password)%list) /\
  (forall cfg si,
     response_stage cfg (with_IsPBKDF2 false si)
     = Ok (calculateMD5Response (Challenge si) (Password (login cfg)))) /\
  calculateMD5Response "1234567890abcdef" "pw"
  = "1234567890abcdef-"
    ++ hex.EncodeToString (md5.Sum (of_string "1234567890abcdef-pw")) /\
  calculateMD5Response "1234567890abcdef" "pw"
  = "1234567890abcdef-80567cebdd989d277bef8da1d5fe2de9".
Proof.
  split; [|split; [|split]].
  - unfold calculateMD5Response. now rewrite !of_string_app.
  - reflexivity.
  - reflexivity.
  - vm_compute. reflexivity.
Qed.

(** ** The selection of the algorithm *)

Lemma HasPrefix_modern_sigil c :
  strings.HasPrefix c "2$" = true <-> exists rest, c = "2$" ++ rest.
Proof.
  split.
  - destruct c as [|a [|b rest]]; cbn; try discriminate.
    + now rewrite andb_false_r.
    + destruct (Ascii.eqb_spec a "2") as [->|]; [|discriminate].
      destruct (Ascii.eqb_spec b "$") as [->|]; [|discriminate].
      intros _. now exists rest.
  - intros [rest ->]. reflexivity.
Qed.

Lemma In_backoff_no_debug si e :
  In e (backoff si) -> is_debug_log e = false.
Proof.
  unfold backoff. destruct (_ >? _)%Z; cbn [In]; [|tauto].
  intros [<-|[<-|[]]]; reflexivity.
Qed.

(** The events of an attempt whose challenge was fetched: the fetch, the
    log of the challenge, the log of the selected algorithm, then no further
    debug log; the response, if there is one, is submitted. *)
Lemma Login_fetched_trace w cfg s0 si0 :
  httpread_XML w (GetLoginURL cfg) = (si0, None) ->
  exists err st tail,
    fritz.Login w cfg (mkState s0 []) = Some (err, st) /\
    option_map IsPBKDF2 (session st) = Some (IsPBKDF2 (fetched si0)) /\
    trace st = fetch_event cfg :: challenge_log (fetched si0)
               :: algorithm_log (fetched si0) :: tail /\
    (forall e, In e tail -> is_debug_log e = false) /\
    (forall resp, response_stage cfg (fetched si0) = Ok resp ->
                  In (submit_event cfg resp) tail).
Proof.
  intros Hget.
  destruct (response_stage cfg (fetched si0)) as [resp|e] eqn:Hresp.
  - assert (Htail : forall e tl,
               (forall x, In x tl -> is_debug_log x = false) ->
               In e (backoff (fetched si0) ++ submit_event cfg resp :: tl) ->
               is_debug_log e = false).
    { intros e tl Htl Hin. apply in_app_or in Hin.
      destruct Hin as [Hin|[<-|Hin]];
        [eapply In_backoff_no_debug; eassumption | reflexivity | auto]. }
    destruct (submission w cfg resp) as [sid|e] eqn:Hsub.
    + rewrite (Login_submitted w cfg s0 [] si0 resp sid Hget Hresp Hsub).
      unfold submitted_trace.
      destruct (is_sentinel sid).
      * exists (Some (Wrap "unable to solve login challenge" (rejected sid))).
        eexists. exists (backoff (fetched si0) ++ [submit_event cfg resp])%list.
        cbn [session trace option_map IsPBKDF2 with_SID app].
        repeat split.
        -- intros e He. apply (Htail e [] ); [intros x []|exact He].
        -- intros r [= <-]. apply in_or_app. right. now left.
      * exists None. eexists.
        exists (backoff (fetched si0) ++ [submit_event cfg resp; success_log])%list.
        cbn [session trace option_map IsPBKDF2 with_SID app].
        repeat split.
        -- rewrite <- app_assoc. reflexivity.
        -- intros e He. apply (Htail e [success_log]); [|exact He].
           intros x [<-|[]]. reflexivity.
        -- intros r [= <-]. apply in_or_app. right. now left.
    + rewrite (Login_submit_failed w cfg s0 [] si0 resp e Hget Hresp Hsub).
      unfold submitted_trace. do 2 eexists.
      exists (backoff (fetched si0) ++ [submit_event cfg resp])%list.
      cbn [session trace option_map app]. repeat split.
      * intros x Hx. apply (Htail x []); [intros y []|exact Hx].
      * intros r [= <-]. apply in_or_app. right. now left.
  - rewrite (Login_response_failed w cfg s0 [] si0 e Hget Hresp).
    do 2 eexists. exists []. cbn [session trace option_map app].
    repeat split.
    + intros x [].
    + intros r Hr. discriminate Hr.
Qed.

Lemma In_backoff_no_post si u form : ~ In (EvPostForm u form) (backoff si).
Proof.
  unfold backoff. destruct (_ >? _)%Z; cbn [In]; [|tauto].
  intros [H|[H|[]]]; discriminate H.
Qed.

(** The requests of an attempt whose challenge was fetched: a response that
    could be computed is the only thing posted, and nothing is posted when
    it could not. *)
Lemma Login_fetched_posts w cfg s0 si0 err st :
  httpread_XML w (GetLoginURL cfg) = (si0, None) ->
  fritz.Login w cfg (mkState s0 []) = Some (err, st) ->
  match response_stage cfg (fetched si0) with
  | Ok resp =>
      forall u form,
        In (EvPostForm u form) (trace st) ->
        EvPostForm u form = submit_event cfg resp
  | Err e =>
      err = Some (Wrap "unable to solve login challenge" e) /\
      forall u form, ~ In (EvPostForm u form) (trace st)
  end.
Proof.
  intros Hget Hrun.
  destruct (response_stage cfg (fetched si0)) as [resp|e] eqn:Hresp.
  - assert (Hposts : forall tl u form,
               (forall x, In x tl -> x = success_log) ->
               In (EvPostForm u form)
                  (submitted_trace cfg (fetched si0) resp ++ tl) ->
               EvPostForm u form = submit_event cfg resp).
    { intros tl u form Htl Hin. unfold submitted_trace in Hin.
      cbn [app In] in Hin.
      destruct Hin as [H|[H|[H|Hin]]]; try discriminate H.
      rewrite <- app_assoc in Hin. apply in_app_or in Hin.
      destruct Hin as [Hin|[H|Hin]].
      - now apply In_backoff_no_post in Hin.
      - now symmetry.
      - apply Htl in Hin. discriminate Hin. }
    intros u form Hin.
    destruct (submission w cfg resp) as [sid|e] eqn:Hsub.
    + rewrite (Login_submitted w cfg s0 [] si0 resp sid Hget Hresp Hsub) in Hrun.
      destruct (is_sentinel sid); injection Hrun as <- <-;
        cbn [trace app] in Hin.
      * apply (Hposts [] u form); [intros x []|]. now rewrite app_nil_r.
      * apply (Hposts [success_log] u form); [|exact Hin].
        intros x [<-|[]]. reflexivity.
    + rewrite (Login_submit_failed w cfg s0 [] si0 resp e Hget Hresp Hsub)
        in Hrun.
      injection Hrun as <- <-. cbn [trace app] in Hin.
      apply (Hposts [] u form); [intros x []|]. now rewrite app_nil_r.
  - rewrite (Login_response_failed w cfg s0 [] si0 e Hget Hresp) in Hrun.
    injection Hrun as <- <-. split; [reflexivity|].
    intros u form. cbn [trace app In].
    intros [H|[H|[H|[]]]]; discriminate H.
Qed.

(** C6: the modern path is taken exactly when the challenge begins with
    [2$]; every other challenge is answered on the legacy path, and nothing
    but the prefix decides.  On the legacy path the one thing posted is the
    response of [calculateMD5Response].  On the modern path the one thing
    posted is the response of [calculatePBKDF2Response]; when that fails,
    the challenge is not handed to the legacy algorithm: the attempt ends
    with the wrapped error and nothing is posted. *)
Theorem algorithm_selection w cfg s0 si0 :
  httpread_XML w (GetLoginURL cfg) = (si0, None) ->
  exists err st,
    fritz.Login w cfg (mkState s0 []) = Some (err, st) /\
    option_map IsPBKDF2 (session st)
    = Some (strings.HasPrefix (Challenge si0) "2$") /\
    (In (EvLog Debug [LStr "PBKDF2 supported"]) (trace st)
     <-> exists rest, Challenge si0 = "2$" ++ rest) /\
    (In (EvLog Debug [LStr "Falling back to MD5"]) (trace st)
     <-> ~ exists rest, Challenge si0 = "2$" ++ rest) /\
    ((~ exists rest, Challenge si0 = "2$" ++ rest) ->
     In (EvPostForm (GetLoginURL cfg)
           [("username", Username (login cfg));
            ("response",
             calculateMD5Response (Challenge si0) (Password (login cfg)))])
        (trace st)) /\
    ((~ exists rest, Challenge si0 = "2$" ++ rest) ->
     forall u form,
       In (EvPostForm u form) (trace st) ->
       u = GetLoginURL cfg /\
       form = [("username", Username (login cfg));
               ("response",
                calculateMD5Response (Challenge si0) (Password (login cfg)))]) /\
    ((exists rest, Challenge si0 = "2$" ++ rest) ->
     (forall resp,
        calculatePBKDF2Response (Challenge si0) (Password (login cfg))
        = Ok resp ->
        In (EvPostForm (GetLoginURL cfg)
              [("username", Username (login cfg)); ("response", resp)])
           (trace st) /\
        forall u form,
          In (EvPostForm u form) (trace st) ->
          u = GetLoginURL cfg /\
          form = [("username", Username (login cfg)); ("response", resp)]) /\
     (forall e,
        calculatePBKDF2Response (Challenge si0) (Password (login cfg))
        = Err e ->
        err = Some (Wrap "unable to solve login challenge"
                      (Wrap "failed to calculate PBKDF2 response" e)) /\
        forall u form, ~ In (EvPostForm u form) (trace st))).
Proof.
  intros Hget.
  destruct (Login_fetched_trace w cfg s0 si0 Hget)
    as (err & st & tail & Hrun & Hflag & Htrace & Htail & Hsub).
  pose proof (Login_fetched_posts w cfg s0 si0 err st Hget Hrun) as Hposts.
  exists err, st. split; [exact Hrun|]. split; [exact Hflag|].
  rewrite <- HasPrefix_modern_sigil.
  unfold algorithm_log, challenge_log, fetch_event, fetched in *.
  cbn [IsPBKDF2 Challenge with_IsPBKDF2] in *.
  unfold response_stage in Hsub, Hposts.
  cbn [IsPBKDF2 Challenge with_IsPBKDF2] in Hsub, Hposts.
  assert (Hin : forall resp,
            In (submit_event cfg resp) tail ->
            In (submit_event cfg resp) (trace st)).
  { intros resp H. rewrite Htrace. right. right. right. exact H. }
  rewrite Htrace at 1 2. clear Htrace Hrun Hflag.
  set (selected := strings.HasPrefix (Challenge si0) "2$") in *.
  assert (Hlog : forall msg,
             In (EvLog Debug [LStr msg])
                (EvGet (GetLoginURL cfg)
                 :: EvLog Debug [LStr "FRITZ!Box challenge is";
                                 LStr (Challenge si0)]
                 :: EvLog Debug [LStr (if selected then "PBKDF2 supported"
                                       else "Falling back to MD5")]
                 :: tail)
             <-> msg = (if selected then "PBKDF2 supported"
                        else "Falling back to MD5")).
  { intros msg. split.
    - intros [H|[H|[H|H]]]; try discriminate H.
      + now injection H.
      + apply Htail in H. discriminate H.
    - intros ->. right. right. left. reflexivity. }
  rewrite !Hlog. destruct selected.
  - split; [|split; [|split; [|split]]].
    + split; reflexivity.
    + split; [discriminate | intros H; now elim H].
    + intros H. now elim H.
    + intros H. now elim H.
    + intros _. split.
      * intros resp Hresp. rewrite Hresp in Hsub, Hposts.
        cbn [wrap_err] in Hsub, Hposts. split.
        -- apply (Hin resp), Hsub. reflexivity.
        -- intros u form Hpost. apply Hposts in Hpost.
           unfold submit_event in Hpost. injection Hpost as -> ->.
           split; reflexivity.
      * intros e He. rewrite He in Hposts. cbn [wrap_err] in Hposts.
        exact Hposts.
  - split; [|split; [|split; [|split]]].
    + split; discriminate.
    + split; [discriminate | reflexivity].
    + intros _. apply (Hin _), Hsub. reflexivity.
    + intros _ u form Hpost. apply Hposts in Hpost.
      unfold submit_event in Hpost. injection Hpost as -> ->.
      split; reflexivity.
    + intros H. discriminate H.
Qed.

Lemma algorithm_selection_witness :
  httpread_XML legacy_device
    (GetLoginURL example_config)
  = (issued legacy_device, None) /\
  exists err st,
    fritz.Login legacy_device example_config
      (mkState None [])
    = Some (err, st) /\
    option_map IsPBKDF2 (session st)
    = Some (strings.HasPrefix "12$4567890abcdef" "2$") /\
    (In (EvLog Debug [LStr "PBKDF2 supported"]) (trace st)
     <-> exists rest, "12$4567890abcdef" = "2$" ++ rest) /\
    (In (EvLog Debug [LStr "Falling back to MD5"]) (trace st)
     <-> ~ exists rest, "12$4567890abcdef" = "2$" ++ rest) /\
    ((~ exists rest, "12$4567890abcdef" = "2$" ++ rest) ->
     In (EvPostForm (GetLoginURL example_config)
           [("username", Username (login example_config));
            ("response",
             calculateMD5Response "12$4567890abcdef"
               (Password (login example_config)))])
        (trace st)) /\
    ((~ exists rest, "12$4567890abcdef" = "2$" ++ rest) ->
     forall u form,
       In (EvPostForm u form) (trace st) ->
       u = GetLoginURL example_config /\
       form = [("username", Username (login example_config));
               ("response",
                calculateMD5Response "12$4567890abcdef"
                  (Password (login example_config)))]) /\
    ((exists rest, "12$4567890abcdef" = "2$" ++ rest) ->
     (forall resp,
        calculatePBKDF2Response "12$4567890abcdef"
          (Password (login example_config))
        = Ok resp ->
        In (EvPostForm (GetLoginURL example_config)
              [("username", Username (login example_config));
               ("response", resp)])
           (trace st) /\
        forall u form,
          In (EvPostForm u form) (trace st) ->
          u = GetLoginURL example_config /\
          form = [("username", Username (login example_config));
                  ("response", resp)]) /\
     (forall e,
        calculatePBKDF2Response "12$4567890abcdef"
          (Password (login example_config))
        = Err e ->
        err = Some (Wrap "unable to solve login challenge"
                      (Wrap "failed to calculate PBKDF2 response" e)) /\
        forall u form, ~ In (EvPostForm u form) (trace st))).
Proof.
  split; [reflexivity|].
  apply (algorithm_selection legacy_device
           example_config None
           (issued legacy_device)).
  reflexivity.
Defined.

(** ** The block-time wait *)

(** No wait without a positive block time. *)
Lemma backoff_none si : BlockTime si <= 0 -> backoff si = [].
Proof.
  intros H. unfold backoff.
  destruct (Z.gtb_spec (BlockTime si) 0); [lia | reflexivity].
Qed.

(** A block time whose nanoseconds fit a [time.Duration] is waited for in
    full, once. *)
Lemma backoff_exact si :
  0 < BlockTime si <= 9223372036 ->
  backoff si
  = [EvLog Info [LStr ("Waiting for " ++ fmt.d (BlockTime si) ++ " seconds..."
                       ++ String "010"%char EmptyString)];
     EvSleep (BlockTime si * time.Second)] /\
  time.pause (BlockTime si * time.Second) = BlockTime si * time.Second.
Proof.
  intros H. unfold backoff, time.seconds, time.int64, time.pause, time.Second.
  destruct (Z.gtb_spec (BlockTime si) 0); [|lia].
  change (2 ^ 63) with 9223372036854775808.
  change (2 ^ 64) with 18446744073709551616.
  rewrite (Z.mod_small (BlockTime si + _)) by lia.
  replace (BlockTime si + 9223372036854775808 - 9223372036854775808)
    with (BlockTime si) by lia.
  rewrite (Z.mod_small (BlockTime si * 1000000000 + _)) by lia.
  replace (BlockTime si * 1000000000 + 9223372036854775808
           - 9223372036854775808)
    with (BlockTime si * 1000000000) by lia.
  split; [reflexivity | lia].
Qed.

(** C7 on the code: with a block time of 9223372037 seconds the handshake
    announces the wait, but the duration handed to [time.Sleep] has wrapped
    around to a negative number of nanoseconds, so nothing is waited for and
    the response is submitted at once. *)
Theorem backoff_duration_overflow :
  exists client',
    run_Login locked_out_device (example_client locked_out_device)
    = Some (None, client',
            [EvGet (GetLoginURL example_config);
             EvLog Debug [LStr "FRITZ!Box challenge is";
                          LStr "1234567890abcdef"];
             EvLog Debug [LStr "Falling back to MD5"];
             EvLog Info [LStr ("Waiting for 9223372037 seconds..."
                               ++ String "010"%char EmptyString)];
             EvSleep (-9223372036709551616);
             EvPostForm (GetLoginURL example_config)
               [("username", "admin");
                ("response",
                 calculateMD5Response "1234567890abcdef" "secret")];
             EvLog Info [LStr "Login successful"]]) /\
  time.seconds 9223372037 = -9223372036709551616 /\
  time.pause (time.seconds 9223372037) = 0.
Proof.
  eexists. split; [|split]; vm_compute; reflexivity.
Qed.

(** ** The TLS policy *)

(** C8: the construction of a client cannot fail.  With verification on, a
    certificate file that cannot be read or holds no certificate leaves the
    root pool nil, with one log entry; with verification off no file is read
    and no pool is built.  The file is read at most once. *)
Theorem tls_trust_policy w cfg :
  exists client evs,
    NewClientFromConfig w cfg = (client, evs) /\
    Config client = cfg /\
    Session client = None /\
    InsecureSkipVerify (HTTPClient client) = SkipTLSVerify (pki cfg) /\
    (SkipTLSVerify (pki cfg) = true ->
     RootCAs (HTTPClient client) = None /\ evs = []) /\
    (SkipTLSVerify (pki cfg) = false ->
     (forall e,
        ReadFile w (CertificateFile (pki cfg)) = Err e ->
        RootCAs (HTTPClient client) = None /\
        evs = [EvLog Debug [LStr "Reading certificate file";
                            LStr (CertificateFile (pki cfg))];
               EvReadFile (CertificateFile (pki cfg));
               EvLog Debug
                 [LStr "Using host certificates as fallback. Reason: could not read certificate file: ";
                  LErr e]]) /\
     (forall pem,
        ReadFile w (CertificateFile (pki cfg)) = Ok pem ->
        pem_certificates w pem = [] ->
        RootCAs (HTTPClient client) = None /\
        evs = [EvLog Debug [LStr "Reading certificate file";
                            LStr (CertificateFile (pki cfg))];
               EvReadFile (CertificateFile (pki cfg));
               EvLog Warn
                 [LStr "Using host certificates as fallback. Reason: certificate file ";
                  LStr (CertificateFile (pki cfg));
                  LStr " is not a valid PEM file."]]) /\
     (forall pem,
        ReadFile w (CertificateFile (pki cfg)) = Ok pem ->
        pem_certificates w pem <> [] ->
        RootCAs (HTTPClient client) = Some (pem_certificates w pem))) /\
    (List.length (filter is_file_read evs) <= 1)%nat.
Proof.
  unfold NewClientFromConfig, tlsConfigFrom, buildCertPool, AppendCertsFromPEM.
  destruct (SkipTLSVerify (pki cfg)) eqn:Hskip.
  - do 2 eexists. split; [reflexivity|]. cbn.
    repeat (split; [reflexivity|]). split; [|split; [discriminate|lia]].
    intros _. split; reflexivity.
  - destruct (ReadFile w (CertificateFile (pki cfg))) as [pem|e] eqn:Hread.
    + unfold x509_NewCertPool. cbn [app].
      destruct (pem_certificates w pem) as [|c cs] eqn:Hpem; cbn [List.length Nat.eqb negb].
      * do 2 eexists. split; [reflexivity|]. cbn.
        repeat (split; [reflexivity|]). split; [discriminate|]. split; [|lia].
        intros _. split; [discriminate|]. split.
        -- intros pem' [= <-] _. split; reflexivity.
        -- intros pem' [= <-] Hne. rewrite Hpem in Hne. now elim Hne.
      * do 2 eexists. split; [reflexivity|]. cbn.
        repeat (split; [reflexivity|]). split; [discriminate|]. split; [|lia].
        intros _. split; [discriminate|]. split.
        -- intros pem' [= <-] He. rewrite Hpem in He. discriminate He.
        -- intros pem' [= <-] _. now rewrite Hpem.
    + do 2 eexists. split; [reflexivity|]. cbn.
      repeat (split; [reflexivity|]). split; [discriminate|]. split; [|lia].
      intros _. split; [|split].
      * intros e' [= <-]. split; reflexivity.
      * discriminate.
      * discriminate.
Qed.

(** ** Iteration counts that are not positive, and further fields *)

Lemma Atoi_decodable s n : strconv.Atoi s = Ok n -> decodable_int s = Some n.
Proof.
  intros H. pose proof (Atoi_spec s) as A.
  destruct (decodable_int s) as [m|]; cbn [agrees] in A.
  - congruence.
  - destruct A as [e He]. congruence.
Qed.

Lemma fields_at_least_five (fields : list string) :
  (5 <= List.length fields)%nat ->
  exists rest,
    fields = nth 0 fields EmptyString :: nth 1 fields EmptyString
             :: nth 2 fields EmptyString :: nth 3 fields EmptyString
             :: nth 4 fields EmptyString :: rest /\
    firstn 5 fields
    = [nth 0 fields EmptyString; nth 1 fields EmptyString;
       nth 2 fields EmptyString; nth 3 fields EmptyString;
       nth 4 fields EmptyString].
Proof.
  intros H.
  destruct fields as [|f0 [|f1 [|f2 [|f3 [|f4 rest]]]]]; cbn in H; try lia.
  exists rest. split; reflexivity.
Qed.

(** A separator ends the fields before it. *)
Lemma Split_append a b sep :
  strings.Split (a ++ String sep b) sep
  = (strings.Split a sep ++ strings.Split b sep)%list.
Proof.
  induction a as [|c a IH]; cbn [strings.Split String.append].
  - now rewrite Ascii.eqb_refl.
  - rewrite IH. destruct (Ascii.eqb c sep); [reflexivity|].
    pose proof (Split_not_nil a sep) as Hne.
    destruct (strings.Split a sep) as [|p ps]; [congruence | reflexivity].
Qed.

(** The outcome of [calculatePBKDF2Response], response or error, is that of
    the first five fields of the challenge. *)
Lemma calculatePBKDF2Response_first_five challenge password :
  calculatePBKDF2Response challenge password
  = calculatePBKDF2Response
      (Join (firstn 5 (strings.Split challenge "$")) "$") password.
Proof.
  destruct (Nat.le_gt_cases 5 (List.length (strings.Split challenge "$")))
    as [Hlen|Hlen].
  - assert (Hsplit5 :
              strings.Split
                (Join (firstn 5 (strings.Split challenge "$")) "$") "$"
              = firstn 5 (strings.Split challenge "$")).
    { apply Split_Join.
      - destruct (strings.Split challenge "$"); [cbn in Hlen; lia|].
        discriminate.
      - apply Forall_take, Split_fields. }
    unfold calculatePBKDF2Response. cbv zeta. rewrite Hsplit5.
    destruct (strings.Split challenge "$")
      as [|f0 [|f1 [|f2 [|f3 [|f4 rest]]]]]; cbn in Hlen; try lia.
    cbn [firstn List.length nth].
    destruct (Z.ltb_spec
                (Z.of_nat (S (S (S (S (S (List.length rest))))))) 5); [lia|].
    reflexivity.
  - rewrite firstn_all2 by lia. now rewrite Join_Split.
Qed.

(** C9: fields after the fifth are ignored: a challenge of five fields or
    more has the outcome, response or error, of its first five fields, and
    appending a dollar and any text to it changes nothing.  Iteration counts
    of zero or below are not rejected: with salts that decode, the response
    is computed, and it is the response of the counts one. *)
Theorem nonpositive_iterations_accepted challenge password :
  (5 <= List.length (strings.Split challenge "$"))%nat ->
  (calculatePBKDF2Response challenge password
   = calculatePBKDF2Response
       (Join (firstn 5 (strings.Split challenge "$")) "$") password /\
   forall more,
     calculatePBKDF2Response (challenge ++ "$" ++ more) password
     = calculatePBKDF2Response challenge password) /\
  forall n1 n2,
    strconv.Atoi (nth 1 (strings.Split challenge "$") EmptyString) = Ok n1 ->
    n1 <= 0 ->
    valid_hex (nth 2 (strings.Split challenge "$") EmptyString) = true ->
    strconv.Atoi (nth 3 (strings.Split challenge "$") EmptyString) = Ok n2 ->
    n2 <= 0 ->
    valid_hex (nth 4 (strings.Split challenge "$") EmptyString) = true ->
    calculatePBKDF2Response challenge password
    = Ok (nth 4 (strings.Split challenge "$") EmptyString ++ "$"
          ++ hex.EncodeToString
               (KDF (KDF (of_string password)
                         (unhex (nth 2 (strings.Split challenge "$") EmptyString))
                         1)
                    (unhex (nth 4 (strings.Split challenge "$") EmptyString))
                    1)).
Proof.
  intros Hlen. split; [split|].
  - apply calculatePBKDF2Response_first_five.
  - intros more.
    rewrite (calculatePBKDF2Response_first_five (challenge ++ "$" ++ more)),
      (calculatePBKDF2Response_first_five challenge).
    change (challenge ++ "$" ++ more) with (challenge ++ String "$" more).
    rewrite Split_append, firstn_app.
    replace (5 - List.length (strings.Split challenge "$"))%nat with 0%nat
      by lia.
    cbn [firstn]. now rewrite app_nil_r.
  - intros n1 n2 H1 Hn1 H2 H3 Hn2 H4.
    destruct (fields_at_least_five _ Hlen) as [rest [Hfields Hfive]].
    apply Atoi_decodable in H1, H3.
    rewrite (calculatePBKDF2Response_fields challenge password
               _ _ _ _ _ rest n1 n2 Hfields H1 H2 H3 H4).
    unfold KDF.
    rewrite (Key_nonpositive_iter _ _ n1) by lia.
    rewrite (Key_nonpositive_iter _ _ n2) by lia. reflexivity.
Qed.

Lemma nonpositive_iterations_accepted_witness :
  (5 <= List.length (strings.Split "2$0$aa$-3$bb" "$"))%nat /\
  calculatePBKDF2Response "2$0$aa$-3$bb$more" "secret"
  = calculatePBKDF2Response "2$0$aa$-3$bb" "secret" /\
  calculatePBKDF2Response "2$0$aa$-3$bb" "secret"
  = Ok ("bb" ++ "$"
        ++ hex.EncodeToString
             (KDF (KDF (of_string "secret") (unhex "aa") 1) (unhex "bb") 1)).
Proof.
  assert (Hlen : (5 <= List.length (strings.Split "2$0$aa$-3$bb" "$"))%nat)
    by (vm_compute; lia).
  split; [exact Hlen|].
  pose proof (nonpositive_iterations_accepted "2$0$aa$-3$bb" "secret" Hlen)
    as [[_ Hmore] Hresp].
  split.
  - exact (Hmore "more").
  - apply (Hresp 0 (-3)); try reflexivity; lia.
Defined.

(** ** More on the handshake *)

Lemma client_eta (client : Client) :
  mkClient (Config client) (HTTPClient client) (Session client) = client.
Proof. destruct client. reflexivity. Qed.

(** X1: when the challenge cannot be fetched, [Login] returns the cause
    wrapped as "unable to obtain login challenge", the client is left exactly
    as it was, its session included, and the one request made is the GET. *)
Theorem fetch_failure_leaves_client w client si0 e :
  httpread_XML w (GetLoginURL (Config client)) = (si0, Some e) ->
  run_Login w client
  = Some (Some (Wrap "unable to obtain login challenge" e), client,
          [EvGet (GetLoginURL (Config client))]).
Proof.
  intros Hget. unfold run_Login.
  rewrite (Login_fetch_failed w _ _ _ si0 e Hget).
  cbn [session trace app]. now rewrite client_eta.
Qed.

Lemma fetch_failure_leaves_client_witness :
  httpread_XML unreachable_device
    (GetLoginURL (Config (example_client unreachable_device)))
  = (mkSessionInfo EmptyString EmptyString 0 (mkRights [] []) false,
     Some (External "dial tcp: connection refused")) /\
  run_Login unreachable_device (example_client unreachable_device)
  = Some (Some (Wrap "unable to obtain login challenge"
                  (External "dial tcp: connection refused")),
          example_client unreachable_device,
          [EvGet (GetLoginURL (Config (example_client unreachable_device)))]).
Proof.
  split; [reflexivity|].
  apply (fetch_failure_leaves_client unreachable_device
           (example_client unreachable_device)
           (mkSessionInfo EmptyString EmptyString 0 (mkRights [] []) false)
           (External "dial tcp: connection refused")).
  reflexivity.
Defined.

Lemma submission_error_forms w cfg resp e :
  submission w cfg resp = Err e ->
  exists cause,
    e = Wrap "failed to send response" cause
    \/ e = Wrap "failed to read response body" cause
    \/ e = Wrap "failed to parse XML" cause.
Proof.
  unfold submission, sendResponse, bindM, emit, ret.
  destruct (PostForm w _ _) as [r|c]; cbv beta iota.
  - destruct (Body r) as [body|c]; cbv beta iota.
    + destruct (xml_Unmarshal w body) as [lr|c]; cbv beta iota.
      * discriminate.
      * intros H. injection H as <-. eauto.
    + intros H. injection H as <-. eauto.
  - intros H. injection H as <-. eauto.
Qed.

Lemma not_In_success_submitted cfg si resp :
  ~ In success_log (submitted_trace cfg si resp).
Proof.
  unfold submitted_trace, success_log, fetch_event, challenge_log,
    algorithm_log, submit_event.
  cbn [In]. intros [H|[H|[H|H]]]; try discriminate H.
  apply in_app_or in H. destruct H as [H|[H|[]]].
  - unfold backoff in H. destruct (_ >? _)%Z; cbn [In] in H.
    + destruct H as [H|[H|[]]]; [|discriminate H].
      cbn [String.append] in H. discriminate H.
    + destruct H.
  - discriminate H.
Qed.

(** X2: when the submission fails in transport (the POST, the reading of the
    body or the XML), [Login] returns the cause wrapped twice; the session
    keeps what the challenge fetch decoded, its session id included, and no
    success is logged. *)
Theorem submission_failure w client si0 resp e :
  httpread_XML w (GetLoginURL (Config client)) = (si0, None) ->
  response_stage (Config client) (fetched si0) = Ok resp ->
  submission w (Config client) resp = Err e ->
  (exists cause,
     e = Wrap "failed to send response" cause
     \/ e = Wrap "failed to read response body" cause
     \/ e = Wrap "failed to parse XML" cause) /\
  exists client' tr,
    run_Login w client
    = Some (Some (Wrap "unable to solve login challenge"
                    (Wrap "failed to login" e)), client', tr) /\
    Session client' = Some (fetched si0) /\
    option_map SID (Session client') = Some (SID si0) /\
    ~ In (EvLog Info [LStr "Login successful"]) tr.
Proof.
  intros Hget Hresp Hsub. split; [exact (submission_error_forms _ _ _ _ Hsub)|].
  unfold run_Login.
  rewrite (Login_submit_failed w _ _ _ si0 resp e Hget Hresp Hsub).
  do 2 eexists. split; [reflexivity|]. cbn [Session session trace app].
  repeat split. apply not_In_success_submitted.
Qed.

Lemma submission_failure_witness :
  (httpread_XML dropping_device
     (GetLoginURL (Config (example_client dropping_device)))
   = (issued dropping_device, None) /\
   response_stage (Config (example_client dropping_device))
     (fetched (issued dropping_device))
   = Ok (calculateMD5Response "1234567890abcdef" "secret") /\
   submission dropping_device (Config (example_client dropping_device))
     (calculateMD5Response "1234567890abcdef" "secret")
   = Err (Wrap "failed to send response"
            (External "connection reset by peer"))) /\
  (exists cause,
     Wrap "failed to send response" (External "connection reset by peer")
     = Wrap "failed to send response" cause
     \/ Wrap "failed to send response" (External "connection reset by peer")
        = Wrap "failed to read response body" cause
     \/ Wrap "failed to send response" (External "connection reset by peer")
        = Wrap "failed to parse XML" cause) /\
  exists client' tr,
    run_Login dropping_device (example_client dropping_device)
    = Some (Some (Wrap "unable to solve login challenge"
                    (Wrap "failed to login"
                       (Wrap "failed to send response"
                          (External "connection reset by peer")))),
            client', tr) /\
    Session client' = Some (fetched (issued dropping_device)) /\
    option_map SID (Session client') = Some (SID (issued dropping_device)) /\
    ~ In (EvLog Info [LStr "Login successful"]) tr.
Proof.
  split; [split; [|split]; reflexivity|].
  apply (submission_failure dropping_device (example_client dropping_device)
           (issued dropping_device)
           (calculateMD5Response "1234567890abcdef" "secret")
           (Wrap "failed to send response"
              (External "connection reset by peer")));
    reflexivity.
Defined.

(** Every run of [Login], by what the world answers. *)
Lemma Login_cases w cfg s0 tr :
  exists si0,
    (exists e,
       httpread_XML w (GetLoginURL cfg) = (si0, Some e) /\
       Login w cfg (mkState s0 tr)
       = Some (Some (Wrap "unable to obtain login challenge" e),
               mkState s0 (tr ++ [fetch_event cfg])%list))
    \/ (httpread_XML w (GetLoginURL cfg) = (si0, None) /\
        ((exists e,
            response_stage cfg (fetched si0) = Err e /\
            Login w cfg (mkState s0 tr)
            = Some (Some (Wrap "unable to solve login challenge" e),
                    mkState (Some (fetched si0))
                      (tr ++ [fetch_event cfg; challenge_log (fetched si0);
                              algorithm_log (fetched si0)])%list))
         \/ (exists resp,
               response_stage cfg (fetched si0) = Ok resp /\
               ((exists e,
                   submission w cfg resp = Err e /\
                   Login w cfg (mkState s0 tr)
                   = Some (Some (Wrap "unable to solve login challenge"
                                   (Wrap "failed to login" e)),
                           mkState (Some (fetched si0))
                             (tr ++ submitted_trace cfg (fetched si0) resp)%list))
                \/ (exists sid,
                      submission w cfg resp = Ok sid /\
                      Login w cfg (mkState s0 tr)
                      = Some
                          (if is_sentinel sid then
                             (Some (Wrap "unable to solve login challenge"
                                      (rejected sid)),
                              mkState (Some (with_SID sid (fetched si0)))
                                (tr ++ submitted_trace cfg (fetched si0) resp)%list)
                           else
                             (None,
                              mkState (Some (with_SID sid (fetched si0)))
                                (tr ++ submitted_trace cfg (fetched si0) resp
                                    ++ [success_log])%list))))))).
Proof.
  destruct (httpread_XML w (GetLoginURL cfg)) as [si0 [e|]] eqn:Hget;
    exists si0.
  - left. exists e. split; [reflexivity|]. now apply Login_fetch_failed with si0.
  - right. split; [reflexivity|].
    destruct (response_stage cfg (fetched si0)) as [resp|e] eqn:Hresp.
    + right. exists resp. split; [reflexivity|].
      destruct (submission w cfg resp) as [sid|e] eqn:Hsub.
      * right. exists sid. split; [reflexivity|]. now apply Login_submitted.
      * left. exists e. split; [reflexivity|]. now apply Login_submit_failed.
    + left. exists e. split; [reflexivity|]. now apply Login_response_failed.
Qed.

(** Every outcome of [client.Login()], by what the world answers. *)
Lemma run_Login_outcomes w client err client' tr :
  run_Login w client = Some (err, client', tr) ->
  Config client' = Config client /\
  HTTPClient client' = HTTPClient client /\
  exists si0,
    (exists e,
       httpread_XML w (GetLoginURL (Config client)) = (si0, Some e) /\
       err = Some (Wrap "unable to obtain login challenge" e) /\
       Session client' = Session client /\
       tr = [fetch_event (Config client)])
    \/ (httpread_XML w (GetLoginURL (Config client)) = (si0, None) /\
        ((exists e,
            response_stage (Config client) (fetched si0) = Err e /\
            err = Some (Wrap "unable to solve login challenge" e) /\
            Session client' = Some (fetched si0) /\
            tr = [fetch_event (Config client); challenge_log (fetched si0);
                  algorithm_log (fetched si0)])
         \/ (exists resp,
               response_stage (Config client) (fetched si0) = Ok resp /\
               ((exists e,
                   submission w (Config client) resp = Err e /\
                   err = Some (Wrap "unable to solve login challenge"
                                 (Wrap "failed to login" e)) /\
                   Session client' = Some (fetched si0) /\
                   tr = submitted_trace (Config client) (fetched si0) resp)
                \/ (exists sid,
                      submission w (Config client) resp = Ok sid /\
                      Session client' = Some (with_SID sid (fetched si0)) /\
                      ((is_sentinel sid = true /\
                        err = Some (Wrap "unable to solve login challenge"
                                      (rejected sid)) /\
                        tr = submitted_trace (Config client) (fetched si0) resp)
                       \/ (is_sentinel sid = false /\
                           err = None /\
                           tr = (submitted_trace (Config client) (fetched si0)
                                   resp ++ [success_log])%list))))))).
Proof.
  unfold run_Login.
  destruct (Login_cases w (Config client) (Session client) [])
    as [si0 [[e [Hget ->]]
            |[Hget [[e [Hresp ->]]
                   |[resp [Hresp [[e [Hsub ->]]|[sid [Hsub ->]]]]]]]]].
  - intros [= <- <- <-]. split; [reflexivity|]. split; [reflexivity|].
    exists si0. left. exists e. repeat (split; [reflexivity || assumption|]).
    reflexivity.
  - intros [= <- <- <-]. split; [reflexivity|]. split; [reflexivity|].
    exists si0. right. split; [exact Hget|]. left. exists e.
    repeat (split; [reflexivity || assumption|]). reflexivity.
  - intros [= <- <- <-]. split; [reflexivity|]. split; [reflexivity|].
    exists si0. right. split; [exact Hget|]. right. exists resp.
    split; [exact Hresp|]. left. exists e.
    repeat (split; [reflexivity || assumption|]). reflexivity.
  - destruct (is_sentinel sid) eqn:Hs; intros [= <- <- <-];
      (split; [reflexivity|]); (split; [reflexivity|]);
      exists si0; right; (split; [exact Hget|]); right; exists resp;
      (split; [exact Hresp|]); right; exists sid; (split; [exact Hsub|]);
      (split; [reflexivity|]).
    + left. split; [exact Hs|]. split; reflexivity.
    + right. split; [exact Hs|]. split; reflexivity.
Qed.

Lemma count_app p a b : count p (a ++ b) = (count p a + count p b)%nat.
Proof. unfold count. now rewrite filter_app, length_app. Qed.

Lemma backoff_events si :
  count is_fetch (backoff si) = 0%nat /\
  count is_submit (backoff si) = 0%nat /\
  (count is_sleep (backoff si) <= 1)%nat /\
  forall tl, after_submit (backoff si ++ tl) = after_submit tl.
Proof.
  unfold backoff. destruct (_ >? _)%Z; cbn; repeat split; auto.
Qed.

Lemma submitted_trace_events cfg si resp tl :
  forallb is_log tl = true ->
  count is_fetch (submitted_trace cfg si resp ++ tl) = 1%nat /\
  count is_submit (submitted_trace cfg si resp ++ tl) = 1%nat /\
  (count is_sleep (submitted_trace cfg si resp ++ tl) <= 1)%nat /\
  after_submit (submitted_trace cfg si resp ++ tl) = tl.
Proof.
  intros Hlogs.
  assert (Hc : count is_fetch tl = 0%nat /\ count is_submit tl = 0%nat
               /\ count is_sleep tl = 0%nat).
  { unfold count. induction tl as [|e tl IH]; [repeat split|].
    cbn [forallb] in Hlogs. apply andb_true_iff in Hlogs.
    destruct Hlogs as [He Htl]. specialize (IH Htl).
    destruct e; try discriminate He. cbn. exact IH. }
  destruct Hc as [Hf [Hs Hz]].
  destruct (backoff_events si) as [Bf [Bs [Bz Ba]]].
  unfold submitted_trace.
  change ((fetch_event cfg :: challenge_log si :: algorithm_log si
           :: backoff si ++ [submit_event cfg resp]) ++ tl)%list
    with ([fetch_event cfg; challenge_log si; algorithm_log si]
          ++ (backoff si ++ [submit_event cfg resp]) ++ tl)%list.
  rewrite <- (app_assoc (backoff si)).
  rewrite !count_app, Bf, Bs, Hf, Hs, Hz.
  repeat split; try reflexivity.
  - cbn. lia.
  - cbn [app after_submit fetch_event challenge_log algorithm_log].
    rewrite Ba. reflexivity.
Qed.

(** X4: an attempt makes exactly one GET, first of all; it submits at most
    once and sleeps at most once; after the submission nothing follows but
    log entries, so there is no retry and no wait behind it. *)
Theorem Login_event_protocol w client err client' tr :
  run_Login w client = Some (err, client', tr) ->
  hd_error tr = Some (EvGet (GetLoginURL (Config client))) /\
  count is_fetch tr = 1%nat /\
  (count is_submit tr <= 1)%nat /\
  (count is_sleep tr <= 1)%nat /\
  forallb is_log (after_submit tr) = true.
Proof.
  intros Hrun.
  destruct (run_Login_outcomes _ _ _ _ _ Hrun)
    as (_ & _ & si0 &
        [(e & _ & _ & _ & ->)
        |(_ & [(e & _ & _ & _ & ->)
              |(resp & _ & [(e & _ & _ & _ & ->)
                           |(sid & _ & _ & [(_ & _ & ->)|(_ & _ & ->)])])])]).
  - cbn. repeat split; lia.
  - cbn. repeat split; lia.
  - destruct (submitted_trace_events (Config client) (fetched si0) resp [])
      as [Hf [Hs [Hz Ha]]]; [reflexivity|].
    rewrite app_nil_r in *. rewrite Hf, Hs, Ha. repeat split; try lia.
  - destruct (submitted_trace_events (Config client) (fetched si0) resp [])
      as [Hf [Hs [Hz Ha]]]; [reflexivity|].
    rewrite app_nil_r in *. rewrite Hf, Hs, Ha. repeat split; try lia.
  - destruct (submitted_trace_events (Config client) (fetched si0) resp
                [success_log]) as [Hf [Hs [Hz Ha]]]; [reflexivity|].
    rewrite Hf, Hs, Ha. repeat split; try lia.
Qed.

Lemma Login_event_protocol_witness :
  run_Login rejecting_device (example_client rejecting_device)
  = Some (Some (Wrap "unable to solve login challenge"
                  (rejected "0000000000000000")),
          mkClient example_config (HTTPClient (example_client rejecting_device))
            (Some (with_SID "0000000000000000"
                     (fetched (issued rejecting_device)))),
          submitted_trace example_config (fetched (issued rejecting_device))
            (calculateMD5Response "1234567890abcdef" "secret")) /\
  hd_error (submitted_trace example_config (fetched (issued rejecting_device))
              (calculateMD5Response "1234567890abcdef" "secret"))
  = Some (EvGet (GetLoginURL (Config (example_client rejecting_device)))) /\
  count is_fetch
    (submitted_trace example_config (fetched (issued rejecting_device))
       (calculateMD5Response "1234567890abcdef" "secret")) = 1%nat /\
  (count is_submit
     (submitted_trace example_config (fetched (issued rejecting_device))
        (calculateMD5Response "1234567890abcdef" "secret")) <= 1)%nat /\
  (count is_sleep
     (submitted_trace example_config (fetched (issued rejecting_device))
        (calculateMD5Response "1234567890abcdef" "secret")) <= 1)%nat /\
  forallb is_log
    (after_submit
       (submitted_trace example_config (fetched (issued rejecting_device))
          (calculateMD5Response "1234567890abcdef" "secret"))) = true.
Proof.
  split; [vm_compute; reflexivity|].
  apply (Login_event_protocol rejecting_device
           (example_client rejecting_device)
           (Some (Wrap "unable to solve login challenge"
                    (rejected "0000000000000000")))
           (mkClient example_config
              (HTTPClient (example_client rejecting_device))
              (Some (with_SID "0000000000000000"
                       (fetched (issued rejecting_device)))))).
  vm_compute. reflexivity.
Defined.

(** X5: once the challenge is fetched the attempt owes nothing to the
    session the client held before: error, final session and events are the
    same for every previous session.  The final session is the decoded one
    with the algorithm flag recomputed from the challenge, whatever flag was
    decoded, and with the session id replaced only by a returned one. *)
Theorem Login_session_is_fresh w cfg si0 :
  httpread_XML w (GetLoginURL cfg) = (si0, None) ->
  exists err si tr,
    (forall s0, Login w cfg (mkState s0 []) = Some (err, mkState (Some si) tr)) /\
    Challenge si = Challenge si0 /\
    BlockTime si = BlockTime si0 /\
    rights si = rights si0 /\
    IsPBKDF2 si = strings.HasPrefix (Challenge si0) "2$" /\
    (SID si = SID si0
     \/ exists resp,
          response_stage cfg (fetched si0) = Ok resp /\
          submission w cfg resp = Ok (SID si)).
Proof.
  intros Hget.
  destruct (response_stage cfg (fetched si0)) as [resp|e] eqn:Hresp.
  - destruct (submission w cfg resp) as [sid|e] eqn:Hsub.
    + destruct (is_sentinel sid) eqn:Hs.
      * do 3 eexists. split.
        -- intros s0.
           rewrite (Login_submitted w cfg s0 [] si0 resp sid Hget Hresp Hsub), Hs.
           reflexivity.
        -- cbn. repeat split. right. exists resp. now split.
      * do 3 eexists. split.
        -- intros s0.
           rewrite (Login_submitted w cfg s0 [] si0 resp sid Hget Hresp Hsub), Hs.
           reflexivity.
        -- cbn. repeat split. right. exists resp. now split.
    + do 3 eexists. split.
      * intros s0.
        rewrite (Login_submit_failed w cfg s0 [] si0 resp e Hget Hresp Hsub).
        reflexivity.
      * cbn. repeat split. now left.
  - do 3 eexists. split.
    + intros s0. rewrite (Login_response_failed w cfg s0 [] si0 e Hget Hresp).
      reflexivity.
    + cbn. repeat split. now left.
Qed.

Lemma Login_session_is_fresh_witness :
  httpread_XML mislabelled_device (GetLoginURL example_config)
  = (issued mislabelled_device, None) /\
  exists err si tr,
    (forall s0,
       Login mislabelled_device example_config (mkState s0 [])
       = Some (err, mkState (Some si) tr)) /\
    Challenge si = Challenge (issued mislabelled_device) /\
    BlockTime si = BlockTime (issued mislabelled_device) /\
    rights si = rights (issued mislabelled_device) /\
    IsPBKDF2 si
    = strings.HasPrefix (Challenge (issued mislabelled_device)) "2$" /\
    (SID si = SID (issued mislabelled_device)
     \/ exists resp,
          response_stage example_config (fetched (issued mislabelled_device))
          = Ok resp /\
          submission mislabelled_device example_config resp = Ok (SID si)).
Proof.
  split; [reflexivity|].
  apply (Login_session_is_fresh mislabelled_device example_config
           (issued mislabelled_device)).
  reflexivity.
Defined.

(** X6: [Login] returns nil exactly when it logs "Login successful"; the
    client then holds a session whose id is neither empty nor sixteen zeros,
    obtained by exactly one submission. *)
Theorem Login_success_postcondition w client err client' tr :
  run_Login w client = Some (err, client', tr) ->
  (err = None <-> In (EvLog Info [LStr "Login successful"]) tr) /\
  (err = None ->
   exists si,
     Session client' = Some si /\
     SID si <> EmptyString /\
     SID si <> "0000000000000000" /\
     count is_submit tr = 1%nat).
Proof.
  intros Hrun.
  destruct (run_Login_outcomes _ _ _ _ _ Hrun)
    as (_ & _ & si0 &
        [(e & _ & -> & _ & ->)
        |(_ & [(e & _ & -> & _ & ->)
              |(resp & _ & [(e & _ & -> & _ & ->)
                           |(sid & _ & Hsess &
                             [(_ & -> & ->)|(Hs & -> & ->)])])])]).
  - split; [|discriminate]. split; [discriminate|].
    intros [H|[]]. discriminate H.
  - split; [|discriminate]. split; [discriminate|].
    unfold fetch_event, challenge_log, algorithm_log.
    intros [H|[H|[H|[]]]]; discriminate H.
  - split; [|discriminate]. split; [discriminate|].
    intros H. now apply not_In_success_submitted in H.
  - split; [|discriminate]. split; [discriminate|].
    intros H. now apply not_In_success_submitted in H.
  - split.
    + split; [|reflexivity]. intros _. apply in_or_app. right. now left.
    + intros _. exists (with_SID sid (fetched si0)). split; [exact Hsess|].
      apply is_sentinel_false in Hs. cbn [SID with_SID].
      destruct Hs as [H1 H2]. repeat split; try assumption.
      destruct (submitted_trace_events (Config client) (fetched si0) resp
                  [success_log]) as [_ [Hc _]]; [reflexivity|]. exact Hc.
Qed.

Lemma Login_success_postcondition_witness :
  run_Login accepting_device (example_client accepting_device)
  = Some (None,
          mkClient example_config (HTTPClient (example_client accepting_device))
            (Some (with_SID "8f3a9c1d2b4e5f60"
                     (fetched (issued accepting_device)))),
          (submitted_trace example_config (fetched (issued accepting_device))
             (calculateMD5Response "1234567890abcdef" "secret")
           ++ [success_log])%list) /\
  (@None error = None
   <-> In (EvLog Info [LStr "Login successful"])
         (submitted_trace example_config (fetched (issued accepting_device))
            (calculateMD5Response "1234567890abcdef" "secret")
          ++ [success_log])%list) /\
  (@None error = None ->
   exists si,
     Session
       (mkClient example_config (HTTPClient (example_client accepting_device))
          (Some (with_SID "8f3a9c1d2b4e5f60"
                   (fetched (issued accepting_device)))))
     = Some si /\
     SID si <> EmptyString /\
     SID si <> "0000000000000000" /\
     count is_submit
       (submitted_trace example_config (fetched (issued accepting_device))
          (calculateMD5Response "1234567890abcdef" "secret")
        ++ [success_log])%list = 1%nat).
Proof.
  split; [vm_compute; reflexivity|].
  apply (Login_success_postcondition accepting_device
           (example_client accepting_device)).
  vm_compute. reflexivity.
Defined.

(** ** More on the two responses *)

(** X7: [calculatePBKDF2Response] never looks at the first field: any text
    without a dollar may stand where the sigil 2 is expected and the
    outcome, response or error, is the same. *)
Theorem modern_sigil_not_checked f0 f0' rest password :
  all_chars (is_not "$") f0 = true ->
  all_chars (is_not "$") f0' = true ->
  calculatePBKDF2Response (f0 ++ "$" ++ rest) password
  = calculatePBKDF2Response (f0' ++ "$" ++ rest) password.
Proof.
  intros H H'. unfold calculatePBKDF2Response.
  change (f0 ++ "$" ++ rest) with (f0 ++ String "$" rest).
  change (f0' ++ "$" ++ rest) with (f0' ++ String "$" rest).
  rewrite !Split_app by assumption. reflexivity.
Qed.

Lemma modern_sigil_not_checked_witness :
  (all_chars (is_not "$") "2" = true /\
   all_chars (is_not "$") "legacy" = true) /\
  calculatePBKDF2Response ("2" ++ "$" ++ "1$aa$1$bb") "secret"
  = calculatePBKDF2Response ("legacy" ++ "$" ++ "1$aa$1$bb") "secret".
Proof.
  split; [split; reflexivity|].
  apply (modern_sigil_not_checked "2" "legacy" "1$aa$1$bb" "secret");
    reflexivity.
Defined.

(** X8: whether a modern challenge is answered and, if it is not, with
    which error, does not depend on the password: the challenge is decoded
    in full before the password is touched. *)
Theorem modern_error_ignores_password challenge password password' e :
  calculatePBKDF2Response challenge password = Err e ->
  calculatePBKDF2Response challenge password' = Err e.
Proof.
  unfold calculatePBKDF2Response.
  destruct (Z.of_nat (List.length (strings.Split challenge "$")) <? 5)%Z;
    [trivial|].
  destruct (strconv.Atoi _); cbn [wrap_err bind]; [|trivial].
  destruct (hex.DecodeString _); cbn [wrap_err bind]; [|trivial].
  destruct (strconv.Atoi _); cbn [wrap_err bind]; [|trivial].
  destruct (hex.DecodeString _); cbn [wrap_err bind]; [|trivial].
  discriminate.
Qed.

Lemma modern_error_ignores_password_witness :
  calculatePBKDF2Response "2$10000$5a1b$10000$7c3" "secret"
  = Err (Wrap "invalid salt2" ErrLength) /\
  calculatePBKDF2Response "2$10000$5a1b$10000$7c3" "another"
  = Err (Wrap "invalid salt2" ErrLength).
Proof.
  split; [reflexivity|].
  apply (modern_error_ignores_password "2$10000$5a1b$10000$7c3" "secret"
           "another" (Wrap "invalid salt2" ErrLength)).
  reflexivity.
Defined.

Lemma is_hex_char_lower c : is_hex_char (lower c) = is_hex_char c.
Proof. all_ascii c; reflexivity. Qed.

Lemma hexval_lower c : hexval (lower c) = hexval c.
Proof. all_ascii c; reflexivity. Qed.

Lemma ToLower_length s : String.length (ToLower s) = String.length s.
Proof. induction s as [|c s IH]; simpl; congruence. Qed.

Lemma all_hex_ToLower s :
  all_chars is_hex_char (ToLower s) = all_chars is_hex_char s.
Proof.
  induction s as [|c s IH]; simpl; [reflexivity|].
  now rewrite is_hex_char_lower, IH.
Qed.

Lemma valid_hex_ToLower s : valid_hex (ToLower s) = valid_hex s.
Proof. unfold valid_hex. now rewrite ToLower_length, all_hex_ToLower. Qed.

Lemma unhex_ToLower s : unhex (ToLower s) = unhex s.
Proof.
  induction s as [|c|p q s IH] using string_pair_ind; cbn [ToLower unhex];
    try reflexivity.
  now rewrite !hexval_lower, IH.
Qed.

(** X9: the letter case of the hex salts has no bearing on the derived key:
    a well-formed challenge and the same challenge with its salts in lower
    case give the same digest, and the responses differ only in that each
    echoes its own salt2 field. *)
Theorem modern_salt_case_insensitive iter1 salt1 iter2 salt2 password :
  well_formed iter1 salt1 iter2 salt2 = true ->
  exists digest,
    calculatePBKDF2Response (modern_challenge iter1 salt1 iter2 salt2) password
    = Ok (salt2 ++ "$" ++ digest) /\
    calculatePBKDF2Response
      (modern_challenge iter1 (ToLower salt1) iter2 (ToLower salt2)) password
    = Ok (ToLower salt2 ++ "$" ++ digest) /\
    calculatePBKDF2Response
      (modern_challenge iter1 (ToLower salt1) iter2 salt2) password
    = Ok (salt2 ++ "$" ++ digest).
Proof.
  intros Hwf. eexists. split; [apply (modern_response _ _ _ _ _ Hwf)|].
  assert (Hwf' : forall s1 s2,
             valid_hex s1 = valid_hex salt1 -> valid_hex s2 = valid_hex salt2 ->
             well_formed iter1 s1 iter2 s2 = true).
  { intros s1 s2 H1 H2. unfold well_formed in *. now rewrite H1, H2. }
  split.
  - rewrite modern_response
      by (apply Hwf'; apply valid_hex_ToLower).
    now rewrite !unhex_ToLower.
  - rewrite modern_response
      by (apply Hwf'; [apply valid_hex_ToLower | reflexivity]).
    now rewrite !unhex_ToLower.
Qed.

Lemma modern_salt_case_insensitive_witness :
  well_formed "3" "5A1B" "2" "7C3D" = true /\
  exists digest,
    calculatePBKDF2Response (modern_challenge "3" "5A1B" "2" "7C3D") "secret"
    = Ok ("7C3D" ++ "$" ++ digest) /\
    calculatePBKDF2Response
      (modern_challenge "3" (ToLower "5A1B") "2" (ToLower "7C3D")) "secret"
    = Ok (ToLower "7C3D" ++ "$" ++ digest) /\
    calculatePBKDF2Response
      (modern_challenge "3" (ToLower "5A1B") "2" "7C3D") "secret"
    = Ok ("7C3D" ++ "$" ++ digest).
Proof.
  split; [reflexivity|].
  apply (modern_salt_case_insensitive "3" "5A1B" "2" "7C3D" "secret").
  reflexivity.
Defined.

Lemma le32_length x : List.length (le32 x) = 4%nat.
Proof. reflexivity. Qed.

Lemma le32_bytes x : Forall is_byte (le32 x).
Proof. unfold le32. repeat constructor; apply byte_is_byte. Qed.

Lemma md5_Sum_length data : List.length (md5.Sum data) = 16%nat.
Proof.
  unfold md5.Sum, md5.output.
  repeat rewrite length_app. repeat rewrite le32_length. reflexivity.
Qed.

Lemma md5_Sum_bytes data : Forall is_byte (md5.Sum data).
Proof.
  unfold md5.Sum, md5.output.
  repeat (apply Forall_app; split); apply le32_bytes.
Qed.

Lemma string_length_append (a b : string) :
  String.length (a ++ b) = (String.length a + String.length b)%nat.
Proof. induction a; simpl; congruence. Qed.

(** X10: for every challenge and password, empty ones included, the legacy
    response is the challenge, one dash and exactly 32 lowercase hex
    characters: it is 33 characters longer than the challenge and begins
    with it. *)
Theorem legacy_response_shape challenge password :
  exists digest,
    calculateMD5Response challenge password = challenge ++ "-" ++ digest /\
    String.length digest = 32%nat /\
    all_chars is_lower_hex digest = true /\
    String.length (calculateMD5Response challenge password)
    = (String.length challenge + 33)%nat /\
    strings.HasPrefix (calculateMD5Response challenge password)
      (challenge ++ "-") = true.
Proof.
  unfold calculateMD5Response. eexists. split; [reflexivity|].
  assert (Hlen : String.length
                   (hex.EncodeToString
                      (md5.Sum (of_string (challenge ++ "-" ++ password))))
                 = 32%nat)
    by (rewrite EncodeToString_length, md5_Sum_length; reflexivity).
  split; [exact Hlen|]. split; [|split].
  - apply EncodeToString_lower_hex, md5_Sum_bytes.
  - rewrite !string_length_append, Hlen. cbn [String.length]. lia.
  - now rewrite HasPrefix_app.
Qed.

(** ** More on the TLS policy *)

(** X11: the client verifies against a pool of its own exactly when
    verification is on, the certificate file can be read and it holds a
    certificate; the pool is then the certificates of that file. A pool is
    never empty: the client never ends up trusting no authority at all. *)
Theorem root_pool_characterised w cfg :
  (RootCAs (HTTPClient (fst (NewClientFromConfig w cfg))) <> None
   <-> SkipTLSVerify (pki cfg) = false /\
       exists pem,
         ReadFile w (CertificateFile (pki cfg)) = Ok pem /\
         pem_certificates w pem <> []) /\
  RootCAs (HTTPClient (fst (NewClientFromConfig w cfg))) <> Some [] /\
  (forall pool,
     RootCAs (HTTPClient (fst (NewClientFromConfig w cfg))) = Some pool ->
     InsecureSkipVerify (HTTPClient (fst (NewClientFromConfig w cfg))) = false /\
     exists pem,
       ReadFile w (CertificateFile (pki cfg)) = Ok pem /\
       pool = pem_certificates w pem).
Proof.
  unfold NewClientFromConfig, tlsConfigFrom, buildCertPool, AppendCertsFromPEM,
    x509_NewCertPool.
  destruct (SkipTLSVerify (pki cfg)) eqn:Hskip; cbn.
  - split; [|split].
    + split; [intros H; now elim H | intros [H _]; discriminate H].
    + discriminate.
    + discriminate.
  - destruct (ReadFile w (CertificateFile (pki cfg))) as [pem|e] eqn:Hread.
    + destruct (pem_certificates w pem) as [|c cs] eqn:Hpem; cbn.
      * split; [|split].
        -- split; [intros H; now elim H|].
           intros [_ [pem' [[= <-] Hne]]]. now rewrite Hpem in Hne.
        -- discriminate.
        -- discriminate.
      * split; [|split].
        -- split; [|discriminate]. intros _. split; [reflexivity|].
           exists pem. split; [reflexivity|]. rewrite Hpem. discriminate.
        -- discriminate.
        -- intros pool [= <-]. split; [reflexivity|].
           exists pem. split; [reflexivity|]. now rewrite Hpem.
    + cbn. split; [|split].
      * split; [intros H; now elim H|].
        intros [_ [pem' [H _]]]. discriminate H.
      * discriminate.
      * discriminate.
Qed.

Local Close Scope string_scope.

(** ** Comparisons of [float64] *)

Local Open Scope float_scope.

Lemma Prim2SF_0 : Prim2SF 0 = S754_zero false.
Proof. vm_compute. reflexivity. Qed.

Lemma Prim2SF_16 : Prim2SF 16 = S754_finite false 4503599627370496 (-48).
Proof. vm_compute. reflexivity. Qed.

Lemma Prim2SF_56 : Prim2SF 56 = S754_finite false 7881299347898368 (-47).
Proof. vm_compute. reflexivity. Qed.

Lemma Prim2SF_100 : Prim2SF 100 = S754_finite false 7036874417766400 (-46).
Proof. vm_compute. reflexivity. Qed.

Lemma Prim2SF_253 : Prim2SF 253 = S754_finite false 8901646138474496 (-45).
Proof. vm_compute. reflexivity. Qed.

Lemma Prim2SF_254 : Prim2SF 254 = S754_finite false 8936830510563328 (-45).
Proof. vm_compute. reflexivity. Qed.

Lemma Prim2SF_255 : Prim2SF 255 = S754_finite false 8972014882652160 (-45).
Proof. vm_compute. reflexivity. Qed.

Lemma SFcompare_refl x : x <> S754_nan -> SFcompare x x = Some Eq.
Proof.
  destruct x as [s|s| |s m e]; intros Hx; try congruence.
  - reflexivity.
  - now destruct s.
  - cbn. rewrite Z.compare_refl.
    change (PosDef.Pos.compare_cont Eq m m) with (Pos.compare m m).
    rewrite Pos.compare_refl. now destruct s.
Qed.

Lemma SFcompare_swap x y :
  SFcompare y x = option_map CompOpp (SFcompare x y).
Proof.
  destruct x as [sx|sx| |sx mx ex], y as [sy|sy| |sy my ey]; cbn;
    try reflexivity; try (now destruct sx); try (now destruct sy);
    try (now destruct sx, sy).
  rewrite (Z.compare_antisym ex ey).
  change (PosDef.Pos.compare_cont Eq my mx) with (Pos.compare my mx).
  change (PosDef.Pos.compare_cont Eq mx my) with (Pos.compare mx my).
  rewrite (Pos.compare_antisym mx my).
  destruct sx, sy; try reflexivity;
    destruct (ex ?= ey)%Z; cbn; reflexivity.
Qed.

Lemma is_nan_spec f : is_nan f = true <-> Prim2SF f = S754_nan.
Proof.
  unfold is_nan. rewrite eqb_spec. unfold SFeqb.
  destruct (Prim2SF f) as [s|s| |s m e] eqn:Hf.
  - cbn. split; discriminate.
  - rewrite SFcompare_refl by discriminate. split; discriminate.
  - cbn. split; reflexivity.
  - rewrite SFcompare_refl by discriminate. split; discriminate.
Qed.

Lemma is_nan_false f : is_nan f = false <-> Prim2SF f <> S754_nan.
Proof.
  rewrite <- is_nan_spec. destruct (is_nan f); split; congruence.
Qed.

Lemma ltb_not_nan x y :
  (x <? y) = true -> is_nan x = false /\ is_nan y = false.
Proof.
  rewrite ltb_spec, !is_nan_false. unfold SFltb.
  destruct (Prim2SF x), (Prim2SF y); cbn; intros H;
    try discriminate H; split; discriminate.
Qed.




Lemma leb_ltb_false x y : (x <=? y) = true -> (y <? x) = false.
Proof.
  rewrite ltb_spec, leb_spec. unfold SFltb, SFleb.
  rewrite (SFcompare_swap (Prim2SF x) (Prim2SF y)).
  now destruct (SFcompare (Prim2SF x) (Prim2SF y)) as [[]|].
Qed.

Lemma SFeqb_finite x s m e :
  SFeqb x (S754_finite s m e) = true -> x = S754_finite s m e.
Proof.
  unfold SFeqb, SFcompare.
  destruct x as [sx|sx| |sx mx ex]; try discriminate;
    try (destruct sx; discriminate).
  - destruct s; discriminate.
  - destruct sx, s; try discriminate.
    + destruct (Z.compare_spec ex e); try discriminate. subst.
      change (PosDef.Pos.compare_cont Eq mx m) with (Pos.compare mx m).
      destruct (Pos.compare_spec mx m); try discriminate. now subst.
    + destruct (Z.compare_spec ex e); try discriminate. subst.
      change (PosDef.Pos.compare_cont Eq mx m) with (Pos.compare mx m).
      destruct (Pos.compare_spec mx m); try discriminate. now subst.
Qed.

Lemma Prim2SF_inj x y : Prim2SF x = Prim2SF y -> x = y.
Proof.
  intros H. rewrite <- (SF2Prim_Prim2SF x), <- (SF2Prim_Prim2SF y).
  now rewrite H.
Qed.

(** A float that compares equal to one of the special readings is that
    reading. *)
Lemma eqb_special f c :
  c = 253 \/ c = 254 \/ c = 255 -> (f =? c) = true -> f = c.
Proof.
  intros Hc. rewrite eqb_spec. intros H. apply Prim2SF_inj.
  destruct Hc as [-> | [-> | ->]];
    [rewrite Prim2SF_253 in * | rewrite Prim2SF_254 in *
     | rewrite Prim2SF_255 in *];
    now apply SFeqb_finite.
Qed.

Lemma compare_cont_spec a b :
  CompareSpec (Z.pos a = Z.pos b) (Z.pos a < Z.pos b)%Z (Z.pos b < Z.pos a)%Z
    (PosDef.Pos.compare_cont Eq a b).
Proof.
  change (PosDef.Pos.compare_cont Eq a b) with (Pos.compare a b).
  destruct (Pos.compare_spec a b); constructor.
  - now subst.
  - now apply Pos2Z.pos_lt_pos.
  - now apply Pos2Z.pos_lt_pos.
Qed.

Ltac prune := cbv beta iota in *; try discriminate; try reflexivity.

Ltac split_cmp :=
  repeat (match goal with
  | H : context [Z.compare ?a ?b] |- _ => destruct (Z.compare_spec a b)
  | |- context [Z.compare ?a ?b] => destruct (Z.compare_spec a b)
  | H : context [PosDef.Pos.compare_cont Eq ?a ?b] |- _ =>
      destruct (compare_cont_spec a b)
  | |- context [PosDef.Pos.compare_cont Eq ?a ?b] =>
      destruct (compare_cont_spec a b)
  end; prune; try (exfalso; lia)).

Ltac float_cmp f :=
  rewrite ?ltb_spec, ?leb_spec, ?eqb_spec in *;
  rewrite ?Prim2SF_0, ?Prim2SF_16, ?Prim2SF_56, ?Prim2SF_100, ?Prim2SF_253,
    ?Prim2SF_254, ?Prim2SF_255 in *;
  unfold SFltb, SFleb, SFeqb, SFcompare in *;
  destruct (Prim2SF f) as [[]|[]| |[] ? ?]; prune; split_cmp.

Lemma eqb_special_false f c : is_special c -> f <> c -> (f =? c) = false.
Proof.
  intros Hc Hf. destruct (f =? c) eqn:H; [|reflexivity].
  now apply eqb_special in H.
Qed.

Lemma ltb_irrefl x : (x <? x) = false.
Proof.
  rewrite ltb_spec. unfold SFltb.
  destruct (Prim2SF x) as [s|s| |s m e] eqn:Hx; try reflexivity;
    now rewrite SFcompare_refl.
Qed.



Local Close Scope float_scope.

(** ** Thermostat readings *)

Section Readings.

Variable NextChange : Type.
Variable ParseFloat : string -> result float.
Variable FormatFloat : float -> string.

Lemma State_loop_first_decisive vals : forall state,
  hkr.State_loop ParseFloat vals state
  = match find is_decisive (map (classify ParseFloat) vals) with
    | Some Off => 0
    | Some _ => -1
    | None =>
        if existsb is_on (map (classify ParseFloat) vals) then 1 else state
    end.
Proof.
  induction vals as [|val vals IH]; intros state; [reflexivity|].
  cbn [hkr.State_loop map find existsb].
  destruct (ParseFloat val) as [f|e] eqn:Hval.
  - destruct ((f <? 253) || (f =? 254))%float eqn:Hon.
    + replace (classify ParseFloat val) with On
        by (unfold classify; now rewrite Hval, Hon).
      cbn [is_decisive is_on orb]. rewrite IH.
      destruct (find is_decisive (map (classify ParseFloat) vals)) as [[]|];
        try reflexivity.
      now destruct (existsb is_on (map (classify ParseFloat) vals)).
    + destruct (f =? 253)%float eqn:Hoff.
      * replace (classify ParseFloat val) with Off
          by (unfold classify; now rewrite Hval, Hon, Hoff).
        reflexivity.
      * destruct (255 <=? f)%float eqn:Hundef.
        -- replace (classify ParseFloat val) with Undefined
             by (unfold classify; now rewrite Hval, Hon, Hoff, Hundef).
           reflexivity.
        -- replace (classify ParseFloat val) with Ignored
             by (unfold classify; now rewrite Hval, Hon, Hoff, Hundef).
           cbn [is_decisive is_on orb]. apply IH.
  - replace (classify ParseFloat val) with Ignored
      by (unfold classify; now rewrite Hval).
    cbn [is_decisive is_on orb]. apply IH.
Qed.

(** X12: [State] is decided by the first value, in the order measured, goal,
    saving, comfort, that reads 253 (off: 0) or 255 and above (undefined:
    -1); values after it are not looked at.  Without such a value the state
    is 1 if some value reads below 253 or exactly 254, and -1 otherwise. *)
Theorem State_first_decisive (t : hkr.Thermostat NextChange) :
  hkr.State ParseFloat t
  = match find is_decisive
            (map (classify ParseFloat)
               [hkr.Measured t; hkr.Goal t; hkr.Saving t; hkr.Comfort t]) with
    | Some Off => 0
    | Some _ => -1
    | None =>
        if existsb is_on
             (map (classify ParseFloat)
                [hkr.Measured t; hkr.Goal t; hkr.Saving t; hkr.Comfort t])
        then 1 else -1
    end.
Proof. unfold hkr.State. apply State_loop_first_decisive. Qed.

Lemma State_loop_sound vals : forall state,
  (hkr.State_loop ParseFloat vals state = state
   /\ forall v, In v vals -> classify ParseFloat v = Ignored)
  \/ (hkr.State_loop ParseFloat vals state = 1
      /\ exists v f, In v vals /\ ParseFloat v = Ok f
                     /\ ((f <? 253) || (f =? 254))%float = true)
  \/ (hkr.State_loop ParseFloat vals state = 0
      /\ exists v f, In v vals /\ ParseFloat v = Ok f
                     /\ (f =? 253)%float = true)
  \/ (hkr.State_loop ParseFloat vals state = -1
      /\ exists v f, In v vals /\ ParseFloat v = Ok f
                     /\ (255 <=? f)%float = true).
Proof.
  induction vals as [|val vals IH]; intros state.
  - left. split; [reflexivity | intros v []].
  - cbn [hkr.State_loop].
    destruct (ParseFloat val) as [f|e] eqn:Hval.
    + destruct ((f <? 253) || (f =? 254))%float eqn:Hon.
      * destruct (IH 1) as [[-> _]|[[-> _]|[[-> H]|[-> H]]]].
        -- right. left. split; [reflexivity|]. exists val, f. cbn. auto.
        -- right. left. split; [reflexivity|]. exists val, f. cbn. auto.
        -- right. right. left. split; [reflexivity|].
           destruct H as (v & g & Hin & Hv & Hg). exists v, g. cbn. auto.
        -- right. right. right. split; [reflexivity|].
           destruct H as (v & g & Hin & Hv & Hg). exists v, g. cbn. auto.
      * destruct (f =? 253)%float eqn:Hoff.
        -- right. right. left. split; [reflexivity|]. exists val, f. cbn. auto.
        -- destruct (255 <=? f)%float eqn:Hundef.
           ++ right. right. right. split; [reflexivity|].
              exists val, f. cbn. auto.
           ++ destruct (IH state) as [[-> Hign]|[[-> H]|[[-> H]|[-> H]]]].
              ** left. split; [reflexivity|]. intros v [<-|Hin]; [|auto].
                 unfold classify. now rewrite Hval, Hon, Hoff, Hundef.
              ** right. left. split; [reflexivity|].
                 destruct H as (v & g & Hin & Hv & Hg). exists v, g. cbn. auto.
              ** right. right. left. split; [reflexivity|].
                 destruct H as (v & g & Hin & Hv & Hg). exists v, g. cbn. auto.
              ** right. right. right. split; [reflexivity|].
                 destruct H as (v & g & Hin & Hv & Hg). exists v, g. cbn. auto.
    + destruct (IH state) as [[-> Hign]|[[-> H]|[[-> H]|[-> H]]]].
      * left. split; [reflexivity|]. intros v [<-|Hin]; [|auto].
        unfold classify. now rewrite Hval.
      * right. left. split; [reflexivity|].
        destruct H as (v & g & Hin & Hv & Hg). exists v, g. cbn. auto.
      * right. right. left. split; [reflexivity|].
        destruct H as (v & g & Hin & Hv & Hg). exists v, g. cbn. auto.
      * right. right. right. split; [reflexivity|].
        destruct H as (v & g & Hin & Hv & Hg). exists v, g. cbn. auto.
Qed.

(** X13: [State] returns -1, 0 or 1.  It returns 0 only if one of the four
    values reads exactly 253, and 1 only if one reads below 253 or exactly
    254; when none of the four values parses it returns -1. *)
Theorem State_range (t : hkr.Thermostat NextChange) :
  (hkr.State ParseFloat t = -1 \/ hkr.State ParseFloat t = 0
   \/ hkr.State ParseFloat t = 1) /\
  (hkr.State ParseFloat t = 0 ->
   exists v f,
     In v [hkr.Measured t; hkr.Goal t; hkr.Saving t; hkr.Comfort t] /\
     ParseFloat v = Ok f /\ (f =? 253)%float = true) /\
  (hkr.State ParseFloat t = 1 ->
   exists v f,
     In v [hkr.Measured t; hkr.Goal t; hkr.Saving t; hkr.Comfort t] /\
     ParseFloat v = Ok f /\ ((f <? 253) || (f =? 254))%float = true) /\
  ((forall v,
      In v [hkr.Measured t; hkr.Goal t; hkr.Saving t; hkr.Comfort t] ->
      is_ok (ParseFloat v) = false) ->
   hkr.State ParseFloat t = -1).
Proof.
  unfold hkr.State.
  set (vals := [hkr.Measured t; hkr.Goal t; hkr.Saving t; hkr.Comfort t]).
  destruct (State_loop_sound vals (-1))
    as [[Hs Hign]|[[Hs H]|[[Hs H]|[Hs H]]]]; rewrite Hs.
  - split; [auto|]. split; [discriminate|]. split; [discriminate|]. auto.
  - split; [auto|]. split; [discriminate|]. split; [auto|].
    intros Hnone. destruct H as (v & f & Hin & Hv & _).
    specialize (Hnone v Hin). rewrite Hv in Hnone. discriminate Hnone.
  - split; [auto|]. split; [auto|]. split; [discriminate|].
    intros Hnone. destruct H as (v & f & Hin & Hv & _).
    specialize (Hnone v Hin). rewrite Hv in Hnone. discriminate Hnone.
  - split; [auto|]. split; [discriminate|]. split; [discriminate|]. auto.
Qed.

Local Open Scope float_scope.


(** X15: for a range with [min <= max], capping is idempotent: capping a
    capped reading changes nothing. *)
Theorem cappedRawTemperature_idempotent (v min max : float) :
  (min <=? max) = true ->
  hkr.cappedRawTemperature (hkr.cappedRawTemperature v min max) min max
  = hkr.cappedRawTemperature v min max.
Proof.
  intros Hmm. pose proof (leb_ltb_false _ _ Hmm) as Hgt.
  unfold hkr.cappedRawTemperature at 2 3.
  destruct ((max <? v) && (v <? 253)) eqn:Hhi;
    [|destruct (v <? min) eqn:Hlo]; unfold hkr.cappedRawTemperature.
  - now rewrite ltb_irrefl, Hgt.
  - now rewrite Hgt, ltb_irrefl.
  - now rewrite Hhi, Hlo.
Qed.

(** For the two ranges in use the three cases of the capping exclude one
    another. *)
Lemma capped_cases k f :
  hkr.cappedRawTemperature f (lowest k) (highest k)
  = if f <? lowest k then lowest k
    else if (highest k <? f) && (f <? 253) then highest k
    else f.
Proof.
  unfold hkr.cappedRawTemperature.
  destruct (f <? lowest k) eqn:Hlo; [|reflexivity].
  replace (highest k <? f) with false; [reflexivity|].
  symmetry. destruct k; cbn [lowest highest] in *; float_cmp f.
Qed.

Lemma Fmt_parsed (t : hkr.Thermostat NextChange) k f :
  ParseFloat (raw t k) = Ok f ->
  Fmt ParseFloat FormatFloat t k
  = if hkr.cappedRawTemperature f (lowest k) (highest k) =? 255
    then "?"%string
    else if hkr.cappedRawTemperature f (lowest k) (highest k) =? 254
    then "ON"%string
    else if hkr.cappedRawTemperature f (lowest k) (highest k) =? 253
    then "OFF"%string
    else FormatFloat
           (hkr.cappedRawTemperature f (lowest k) (highest k) * 0.5).
Proof.
  intros Hp.
  destruct k; cbn [Fmt raw lowest highest] in *;
    unfold hkr.FmtMeasuredTemperature, hkr.FmtGoalTemperature,
      hkr.FmtSavingTemperature, hkr.FmtComfortTemperature,
      hkr.fmtTemperatureHkr; now rewrite Hp.
Qed.

Lemma Fmt_OFF (t : hkr.Thermostat NextChange) k :
  ParseFloat (raw t k) = Ok 253 ->
  Fmt ParseFloat FormatFloat t k = "OFF"%string.
Proof.
  intros Hp. rewrite (Fmt_parsed _ _ _ Hp), capped_cases.
  now destruct k.
Qed.

(** X16: each of the four formatters renders a value that parses to 255,
    254 or 253 as "?", "ON" or "OFF": the capping to the formatter's range
    leaves the three special readings alone. *)
Theorem special_readings_formatted (t : hkr.Thermostat NextChange) k f :
  ParseFloat (raw t k) = Ok f ->
  (f = 255 -> Fmt ParseFloat FormatFloat t k = "?"%string) /\
  (f = 254 -> Fmt ParseFloat FormatFloat t k = "ON"%string) /\
  (f = 253 -> Fmt ParseFloat FormatFloat t k = "OFF"%string).
Proof.
  intros Hp. split; [|split]; intros ->.
  - rewrite (Fmt_parsed _ _ _ Hp), capped_cases. now destruct k.
  - rewrite (Fmt_parsed _ _ _ Hp), capped_cases. now destruct k.
  - now apply Fmt_OFF.
Qed.

(** X17: each formatter formats a reading below its range as the lower
    cut-off (0 for the measured temperature, 8 for the others), and a reading
    above its range but below 253 as the upper cut-off (50 for the measured
    temperature, 28 for the others). *)
Theorem readings_cut_off (t : hkr.Thermostat NextChange) k f :
  ParseFloat (raw t k) = Ok f ->
  ((f <? lowest k) = true ->
   Fmt ParseFloat FormatFloat t k = FormatFloat (coldest k)) /\
  ((highest k <? f) = true -> (f <? 253) = true ->
   Fmt ParseFloat FormatFloat t k = FormatFloat (warmest k)).
Proof.
  intros Hp. rewrite (Fmt_parsed _ _ _ Hp), capped_cases. split.
  - intros ->. now destruct k.
  - intros Hhi Hsp. rewrite Hhi, Hsp.
    replace (f <? lowest k) with false
      by (symmetry; destruct k; cbn [lowest highest] in *; float_cmp f).
    now destruct k.
Qed.

(** X18: each formatter formats a reading inside its range (0 to 100 for
    the measured temperature, 16 to 56 for the others) as half the reading:
    the raw value counts half degrees. *)
Theorem readings_in_range (t : hkr.Thermostat NextChange) k f :
  ParseFloat (raw t k) = Ok f ->
  (lowest k <=? f) = true -> (f <=? highest k) = true ->
  Fmt ParseFloat FormatFloat t k = FormatFloat (f * 0.5).
Proof.
  intros Hp Hlo Hhi. rewrite (Fmt_parsed _ _ _ Hp), capped_cases.
  rewrite (leb_ltb_false _ _ Hlo), (leb_ltb_false _ _ Hhi). cbn [andb].
  replace (f =? 255) with false
    by (symmetry; destruct k; cbn [lowest highest] in *; float_cmp f).
  replace (f =? 254) with false
    by (symmetry; destruct k; cbn [lowest highest] in *; float_cmp f).
  replace (f =? 253) with false
    by (symmetry; destruct k; cbn [lowest highest] in *; float_cmp f).
  reflexivity.
Qed.

(** X19: the upper cut-off stops at 253.  A reading that is not below 253
    and is none of 253, 254 and 255 (256 and above, values between the
    special ones, infinity, not-a-number) is formatted as half the reading,
    not as the cut-off. *)
Theorem readings_beyond_not_capped (t : hkr.Thermostat NextChange) k f :
  ParseFloat (raw t k) = Ok f ->
  (f <? 253) = false -> ~ is_special f ->
  Fmt ParseFloat FormatFloat t k = FormatFloat (f * 0.5).
Proof.
  intros Hp Hsp Hf. rewrite (Fmt_parsed _ _ _ Hp), capped_cases.
  replace (f <? lowest k) with false
    by (symmetry; destruct k; cbn [lowest highest] in *; float_cmp f).
  rewrite Hsp, andb_false_r.
  rewrite !eqb_special_false; unfold is_special in *; auto;
    intros ->; apply Hf; auto.
Qed.

Lemma raw_In (t : hkr.Thermostat NextChange) v :
  In v [hkr.Measured t; hkr.Goal t; hkr.Saving t; hkr.Comfort t] <->
  exists k, raw t k = v.
Proof.
  split.
  - intros [<-|[<-|[<-|[<-|[]]]]];
      [exists measured_temperature | exists goal_temperature
       | exists saving_temperature | exists comfort_temperature];
      reflexivity.
  - intros [[] <-]; cbn; auto.
Qed.

(** X20: [State] and the formatters agree on OFF: when [State] returns 0,
    one of the four formatters returns "OFF". *)
Theorem State_off_is_formatted (t : hkr.Thermostat NextChange) :
  hkr.State ParseFloat t = 0%Z ->
  exists k, Fmt ParseFloat FormatFloat t k = "OFF"%string.
Proof.
  unfold hkr.State. intros H0.
  destruct (State_loop_sound
              [hkr.Measured t; hkr.Goal t; hkr.Saving t; hkr.Comfort t]
              (-1)%Z)
    as [[H _]|[[H _]|[[_ H]|[H _]]]]; try (rewrite H0 in H; discriminate H).
  destruct H as (v & f & Hin & Hv & Hf).
  apply raw_In in Hin. destruct Hin as [k <-]. exists k.
  apply Fmt_OFF. rewrite Hv. f_equal. apply eqb_special; [left|]; auto.
Qed.

Lemma classify_decisive (t : hkr.Thermostat NextChange) k f :
  ParseFloat (raw t k) = Ok f ->
  f = 253 \/ (255 <=? f) = true ->
  is_decisive (classify ParseFloat (raw t k)) = true.
Proof.
  intros Hp Hf. unfold classify. rewrite Hp. destruct Hf as [-> | Hf].
  - reflexivity.
  - replace (f <? 253) with false by (symmetry; float_cmp f).
    replace (f =? 254) with false by (symmetry; float_cmp f).
    replace (f =? 253) with false by (symmetry; float_cmp f).
    cbn [orb]. now rewrite Hf.
Qed.

(** X21: a thermostat with a value that reads 253, or 255 and above, is
    never reported ON: [State] returns 0 or -1, whatever the other three
    values are. *)
Theorem decisive_reading_never_on (t : hkr.Thermostat NextChange) k f :
  ParseFloat (raw t k) = Ok f ->
  f = 253 \/ (255 <=? f) = true ->
  hkr.State ParseFloat t = 0%Z \/ hkr.State ParseFloat t = (-1)%Z.
Proof.
  intros Hp Hf. unfold hkr.State.
  rewrite State_loop_first_decisive.
  destruct (find is_decisive
              (map (classify ParseFloat)
                 [hkr.Measured t; hkr.Goal t; hkr.Saving t; hkr.Comfort t]))
    as [r|] eqn:Hfind.
  - destruct r; auto.
  - exfalso.
    assert (Hin : In (classify ParseFloat (raw t k))
              (map (classify ParseFloat)
                 [hkr.Measured t; hkr.Goal t; hkr.Saving t; hkr.Comfort t])).
    { apply in_map, raw_In. now exists k. }
    pose proof (find_none _ _ Hfind _ Hin) as Hnone.
    rewrite (classify_decisive _ _ _ Hp Hf) in Hnone. discriminate Hnone.
Qed.

End Readings.

Local Open Scope float_scope.

Lemma is_special_eqb f :
  is_special f -> (f =? 253) || (f =? 254) || (f =? 255) = true.
Proof. now intros [-> | [-> | ->]]. Qed.


Lemma cappedRawTemperature_idempotent_witness :
  (16 <=? 56) = true /\
  hkr.cappedRawTemperature (hkr.cappedRawTemperature 112 16 56) 16 56
  = hkr.cappedRawTemperature 112 16 56.
Proof.
  split; [reflexivity|].
  apply (cappedRawTemperature_idempotent 112 16 56). reflexivity.
Defined.

Lemma special_readings_formatted_witness :
  example_ParseFloat (raw example_hkr saving_temperature) = Ok 253 /\
  Fmt example_ParseFloat example_FormatFloat example_hkr saving_temperature
  = "OFF"%string.
Proof.
  split; [reflexivity|].
  apply (special_readings_formatted unit example_ParseFloat
           example_FormatFloat example_hkr saving_temperature 253); reflexivity.
Defined.

Lemma readings_cut_off_witness :
  example_ParseFloat (raw example_hkr goal_temperature) = Ok 12 /\
  (12 <? lowest goal_temperature) = true /\
  Fmt example_ParseFloat example_FormatFloat example_hkr goal_temperature = "8"%string.
Proof.
  split; [reflexivity|]. split; [reflexivity|].
  apply (readings_cut_off unit example_ParseFloat example_FormatFloat
           example_hkr goal_temperature 12); reflexivity.
Defined.

Lemma readings_in_range_witness :
  example_ParseFloat (raw example_hkr measured_temperature) = Ok 40 /\
  (lowest measured_temperature <=? 40) = true /\ (40 <=? highest measured_temperature) = true /\
  Fmt example_ParseFloat example_FormatFloat example_hkr measured_temperature
  = "20"%string.
Proof.
  split; [reflexivity|]. split; [reflexivity|]. split; [reflexivity|].
  apply (readings_in_range unit example_ParseFloat example_FormatFloat
           example_hkr measured_temperature 40); reflexivity.
Defined.

Lemma readings_beyond_not_capped_witness :
  example_ParseFloat (raw example_hkr comfort_temperature) = Ok 300 /\
  (300 <? 253) = false /\ ~ is_special 300 /\
  Fmt example_ParseFloat example_FormatFloat example_hkr comfort_temperature
  = "150"%string.
Proof.
  assert (H : ~ is_special 300).
  { intros H. apply is_special_eqb in H. discriminate H. }
  split; [reflexivity|]. split; [reflexivity|]. split; [exact H|].
  apply (readings_beyond_not_capped unit example_ParseFloat
           example_FormatFloat example_hkr comfort_temperature 300);
    [reflexivity | reflexivity | exact H].
Defined.

Lemma State_off_is_formatted_witness :
  hkr.State example_ParseFloat example_hkr = 0%Z /\
  exists k,
    Fmt example_ParseFloat example_FormatFloat example_hkr k = "OFF"%string.
Proof.
  split; [reflexivity|].
  apply (State_off_is_formatted unit example_ParseFloat example_FormatFloat
           example_hkr). reflexivity.
Defined.

Lemma decisive_reading_never_on_witness :
  example_ParseFloat (raw example_hkr saving_temperature) = Ok 253 /\
  (hkr.State example_ParseFloat example_hkr = 0%Z \/
   hkr.State example_ParseFloat example_hkr = (-1)%Z).
Proof.
  split; [reflexivity|].
  apply (decisive_reading_never_on unit example_ParseFloat example_hkr
           saving_temperature 253); [reflexivity | left; reflexivity].
Defined.
